(** * Booking-Telegram-bot: a shallow embedding of the booking engine

    Models [src/main.py] (the chat handlers, the session map and its
    snapshot file), [src/utils.py] (availability resolver, day status and
    the reconnecting database adapter) and the [Booking]/[Resource] rows of
    [src/models.py]. *)

From Stdlib Require Import ZArith List String Ascii Bool Lia.
From Stdlib Require Import PrimFloat Floats Uint63 QArith.
From Stdlib Require Import DecimalString DecimalZ DecimalPos.
From Stdlib Require Import Sorting.Permutation Sorting.Sorted.
Import ListNotations.
Open Scope Z_scope.

(* ------------------------------------------------------------------ *)
(** ** Python [datetime.date] and [datetime.datetime] *)

Record date := mkDate { year : Z; month : Z; day : Z }.

Record datetime := mkDateTime {
  dt_date : date; hour : Z; minute : Z; second : Z; microsecond : Z }.

(** [date] compares as the tuple [(year, month, day)]. *)
Definition date_compare (a b : date) : comparison :=
  match Z.compare (year a) (year b) with
  | Eq => match Z.compare (month a) (month b) with
          | Eq => Z.compare (day a) (day b)
          | c => c
          end
  | c => c
  end.

Definition date_le (a b : date) : bool :=
  match date_compare a b with Gt => false | _ => true end.
Definition date_lt (a b : date) : bool :=
  match date_compare a b with Lt => true | _ => false end.

Definition is_leap (y : Z) : bool :=
  ((y mod 4 =? 0) && negb (y mod 100 =? 0)) || (y mod 400 =? 0).

Definition days_in_month (y m : Z) : Z :=
  if m =? 2 then (if is_leap y then 29 else 28)
  else if (m =? 4) || (m =? 6) || (m =? 9) || (m =? 11) then 30 else 31.

(** [_days_before_year] and [_days_before_month] of CPython's datetime. *)
Definition days_before_year (y : Z) : Z :=
  let y1 := y - 1 in y1 * 365 + y1 / 4 - y1 / 100 + y1 / 400.

Definition days_before_month (y m : Z) : Z :=
  let base := match m with
              | 1 => 0 | 2 => 31 | 3 => 59 | 4 => 90 | 5 => 120 | 6 => 151
              | 7 => 181 | 8 => 212 | 9 => 243 | 10 => 273 | 11 => 304
              | _ => 334
              end in
  if (m >? 2) && is_leap y then base + 1 else base.

Definition toordinal (d : date) : Z :=
  days_before_year (year d) + days_before_month (year d) (month d) + day d.

(** [(a - b).days] *)
Definition days_between (a b : date) : Z := toordinal a - toordinal b.

(** [date.weekday()]: Monday is 0. *)
Definition weekday (d : date) : Z := (toordinal d + 6) mod 7.

(** [date.max] *)
Definition date_max : date := mkDate 9999 12 31.

(* ------------------------------------------------------------------ *)
(** ** Python floats (IEEE binary64) and [int()] on them *)

(** [float(n)] for a Python int [n] with [|n| < 2^63]. *)
Definition float_of_int (z : Z) : float :=
  if z <? 0 then PrimFloat.opp (PrimFloat.of_uint63 (Uint63.of_Z (- z)))
  else PrimFloat.of_uint63 (Uint63.of_Z z).

(** [int(x)] for a float [x]: truncation toward zero; [None] where Python
    raises (infinities and NaN). *)
Definition py_int (f : float) : option Z :=
  match Prim2SF f with
  | SpecFloat.S754_zero _ => Some 0
  | SpecFloat.S754_finite s m e =>
      let a := if e >=? 0 then Z.shiftl (Zpos m) e else Z.shiftr (Zpos m) (- e) in
      Some (if s then - a else a)
  | _ => None
  end.

Definition f100 : float := PrimFloat.of_uint63 100%uint63.

(** [int(float(((check_out - check_in).days + 1) * price) * 100)], the
    amount computed in [callback_confirm_booking] and in
    [handle_pre_checkout_query]. *)
Definition invoice_amount (ci co : date) (price : float) : option Z :=
  py_int (PrimFloat.mul (PrimFloat.mul (float_of_int (days_between co ci + 1)) price) f100).

(* ------------------------------------------------------------------ *)
(** ** Rows of [models.py] *)

Inductive status :=
| Pending | WaitingPayment | Failed | Conflict | Cancelled | Confirmed.

Definition status_eqb (a b : status) : bool :=
  match a, b with
  | Pending, Pending | WaitingPayment, WaitingPayment | Failed, Failed
  | Conflict, Conflict | Cancelled, Cancelled | Confirmed, Confirmed => true
  | _, _ => false
  end.

Record resource := mkResource {
  r_id : Z; location : string; price : float; r_status : Z }.

Record booking := mkBooking {
  b_id : Z; telegram_id : Z; b_resource : Z;
  check_in : option date; check_out : option date;
  b_status : status; amount : float }.

Definition set_status (b : booking) (s : status) : booking :=
  mkBooking (b_id b) (telegram_id b) (b_resource b) (check_in b) (check_out b) s (amount b).

Definition set_status_amount (b : booking) (s : status) (a : float) : booking :=
  mkBooking (b_id b) (telegram_id b) (b_resource b) (check_in b) (check_out b) s a.

(** One entry of [user_booking_state], the dict built by [callback_book]:
    [res_id], [check_in], [check_out], [calendar_year], [calendar_month],
    [created]. *)
Record session := mkSession {
  res_id : Z; s_check_in : option date; s_check_out : option date;
  calendar_year : Z; calendar_month : Z; created : datetime }.

Definition set_s_check_in (s : session) (d : option date) : session :=
  mkSession (res_id s) d (s_check_out s) (calendar_year s) (calendar_month s) (created s).
Definition set_s_check_out (s : session) (d : option date) : session :=
  mkSession (res_id s) (s_check_in s) d (calendar_year s) (calendar_month s) (created s).
Definition set_s_month (s : session) (y m : Z) : session :=
  mkSession (res_id s) (s_check_in s) (s_check_out s) y m (created s).

(* ------------------------------------------------------------------ *)
(** ** Python dicts as ordered association lists *)

Section Dict.
Context {K V : Type} (keqb : K -> K -> bool).

Fixpoint dict_get (d : list (K * V)) (k : K) : option V :=
  match d with
  | [] => None
  | (k', v) :: d' => if keqb k' k then Some v else dict_get d' k
  end.

(** [d[k] = v]: replaces the value in place, or appends a new key. *)
Fixpoint dict_set (d : list (K * V)) (k : K) (v : V) : list (K * V) :=
  match d with
  | [] => [(k, v)]
  | (k', v') :: d' => if keqb k' k then (k', v) :: d' else (k', v') :: dict_set d' k v
  end.

(** [d.pop(k, None)] *)
Fixpoint dict_pop (d : list (K * V)) (k : K) : list (K * V) :=
  match d with
  | [] => []
  | (k', v') :: d' => if keqb k' k then d' else (k', v') :: dict_pop d' k
  end.
End Dict.

(* ------------------------------------------------------------------ *)
(** ** The world the handlers act on, and what they send out *)

Record world := mkWorld {
  bookings : list booking;          (* the Booking table, in id order *)
  resources : list resource;        (* the Resource table *)
  user_booking_state : list (Z * session);
  next_id : Z                       (* AUTO_INCREMENT of Booking.id *)
}.

Definition set_bookings (w : world) (bs : list booking) : world :=
  mkWorld bs (resources w) (user_booking_state w) (next_id w).
Definition set_sessions (w : world) (ss : list (Z * session)) : world :=
  mkWorld (bookings w) (resources w) ss (next_id w).

Inductive stage := StageCheckIn | StageCheckOut.

Inductive callback :=
| CbNull
| CbDatepick (st : stage) (d : date) (page : string)
| CbRes (rid : Z) (page : string)
| CbMonth (y m : Z) (st : stage) (page : string).

Inductive label :=
| LMonthYear (y m : Z) | LWeekday (i : Z) | LBlank
| LDash          (* "—"  *)
| LMine          (* green square *)
| LOthers        (* red square *)
| LDay (n : Z)
| LGoBack | LPrev | LNext.

Record button := mkButton { btn_label : label; btn_cb : callback }.

Inductive manager_msg := BookingCompleted | BookingCanceled.

Inductive effect :=
| AnswerCallback
| AlertCallback (text : string)
| EditText (text : string)
| EditCalendar (st : stage) (prefix : string) (kbd : list button)
| ShowSummary (loc : string) (ci co : date)
| SendInvoice (chat payload amount : Z)
| DeleteMessage
| RemoveImages
| ShowMyBookings (text : string)
| AnswerPreCheckout (ok : bool) (err : string)
| SendMessage (chat : Z) (text : string)
| SendManagers (kind : manager_msg) (b : booking)
| DbCreate (b : booking)
| DbSave (b : booking).

Inductive exn := DoesNotExist | KeyError | TypeError | ValueError | InvoiceError | OverflowError.

(** A handler is a state-and-error monad over [world] that also logs its
    outbound effects; a raised exception keeps the writes done before it. *)
Inductive res (A : Type) := Ok (a : A) | Exc (e : exn).
Arguments Ok {A} a.
Arguments Exc {A} e.

Definition M (A : Type) := world -> world * list effect * res A.

Definition ret {A} (a : A) : M A := fun w => (w, [], Ok a).
Definition bind {A B} (m : M A) (k : A -> M B) : M B :=
  fun w => match m w with
           | (w1, o1, Ok a) => let '(w2, o2, r) := k a w1 in (w2, o1 ++ o2, r)
           | (w1, o1, Exc e) => (w1, o1, Exc e)
           end.
Definition raise {A} (e : exn) : M A := fun w => (w, [], Exc e).
Definition emit (e : effect) : M unit := fun w => (w, [e], Ok tt).
Definition gets {A} (f : world -> A) : M A := fun w => (w, [], Ok (f w)).
Definition modify (f : world -> world) : M unit := fun w => (f w, [], Ok tt).
(** [try: m except Exception as e: h e] *)
Definition try_catch {A} (m : M A) (h : exn -> M A) : M A :=
  fun w => match m w with
           | (w1, o1, Exc e) => let '(w2, o2, r) := h e w1 in (w2, o1 ++ o2, r)
           | x => x
           end.

Notation "x <- m ;; k" := (bind m (fun x => k)) (at level 61, m at next level, right associativity).
Notation "m ;; k" := (bind m (fun _ => k)) (at level 61, right associativity).

(** [Booking.get_by_id], [Resource.get_by_id]: raise [DoesNotExist]. *)
Definition get_booking (id : Z) : M booking :=
  fun w => match find (fun b => b_id b =? id) (bookings w) with
           | Some b => (w, [], Ok b)
           | None => (w, [], Exc DoesNotExist)
           end.
Definition get_resource (id : Z) : M resource :=
  fun w => match find (fun r => r_id r =? id) (resources w) with
           | Some r => (w, [], Ok r)
           | None => (w, [], Exc DoesNotExist)
           end.

(** [booking.save()]: [UPDATE booking SET ... WHERE id = booking.id]. *)
Definition update_rows (b : booking) (bs : list booking) : list booking :=
  map (fun r => if b_id r =? b_id b then b else r) bs.
Definition save_booking (b : booking) : M unit :=
  fun w => (set_bookings w (update_rows b (bookings w)), [DbSave b], Ok tt).

(** [Booking.create(...)]: inserts a row under the next id. *)
Definition create_booking (tid rid : Z) (ci co : option date) (st : status) : M booking :=
  fun w => let b := mkBooking (next_id w) tid rid ci co st (PrimFloat.of_uint63 0%uint63) in
           (mkWorld (bookings w ++ [b]) (resources w) (user_booking_state w) (next_id w + 1),
            [DbCreate b], Ok b).

(** [user_booking_state[uid]]: raises [KeyError] when absent. *)
Definition get_session (uid : Z) : M session :=
  fun w => match dict_get Z.eqb (user_booking_state w) uid with
           | Some s => (w, [], Ok s)
           | None => (w, [], Exc KeyError)
           end.
Definition put_session (uid : Z) (s : session) : M unit :=
  modify (fun w => set_sessions w (dict_set Z.eqb (user_booking_state w) uid s)).
Definition has_session (w : world) (uid : Z) : bool :=
  match dict_get Z.eqb (user_booking_state w) uid with Some _ => true | None => false end.

(* ------------------------------------------------------------------ *)
(** ** Availability resolver ([utils.py]) *)

(** [get_booked_ranges_for_resource(res_id, Booking)] *)
Definition get_booked_ranges_for_resource (today : date) (rid : Z) (bs : list booking)
  : list (Z * date * date) :=
  let q := filter (fun b => (b_resource b =? rid)
                            && match check_out b with
                               | None => true
                               | Some co => date_le today co
                               end
                            && status_eqb (b_status b) Confirmed) bs in
  flat_map (fun b =>
              match check_in b with
              | None => []
              | Some starts =>
                  let e := match check_out b with Some co => co | None => starts end in
                  if date_lt e today then [] else [(telegram_id b, starts, e)]
              end) q.

Inductive day_status := Mine | Others | Free.

(** [get_day_status(day_date, bookings, current_user_id)] *)
Fixpoint get_day_status (d : date) (bs : list (Z * date * date)) (uid : Z) : day_status :=
  match bs with
  | [] => Free
  | (t, s, e) :: bs' =>
      if date_le s d && date_le d e then (if t =? uid then Mine else Others)
      else get_day_status d bs' uid
  end.

(* ------------------------------------------------------------------ *)
(** ** Calendar renderer ([send_calendar]) *)

(** [range(a, a + n)] *)
Definition zrange (a n : Z) : list Z := map (fun i => a + Z.of_nat i) (seq 0 (Z.to_nat n)).

(** The cell of one day of the month (the body of the [for day in ...]
    loop of [send_calendar]). *)
Definition day_cell (st : stage) (min_date today : date) (booked : list (Z * date * date))
    (uid : Z) (page : string) (d : date) : button :=
  if date_lt d today then mkButton LDash CbNull
  else match get_day_status d booked uid with
       | Mine => mkButton LMine CbNull
       | Others => mkButton LOthers CbNull
       | Free =>
           match st with
           | StageCheckOut => if date_le d min_date then mkButton LDash CbNull
                              else mkButton (LDay (day d)) (CbDatepick st d page)
           | StageCheckIn => mkButton (LDay (day d)) (CbDatepick st d page)
           end
       end.

Definition min_date_of (st : stage) (today : date) (s : session) : date :=
  match st with
  | StageCheckIn => today
  | StageCheckOut => match s_check_in s with None => date_max | Some ci => ci end
  end.

Definition prev_month (y m : Z) : Z * Z := if m =? 1 then (y - 1, 12) else (y, m - 1).
Definition next_month (y m : Z) : Z * Z := if m =? 12 then (y + 1, 1) else (y, m + 1).

(** [prev_month = datetime(year, month, 1) - timedelta(days=1)] and
    [next_month = datetime(year, month, days_in_month) + timedelta(days=1)]
    on a valid month: the year and month of the neighbouring day, or [None]
    for the [OverflowError] raised when that day leaves years [1 .. 9999]. *)
Definition prev_month_dt (y m : Z) : option (Z * Z) :=
  let '(py, pm) := prev_month y m in if 1 <=? py then Some (py, pm) else None.
Definition next_month_dt (y m : Z) : option (Z * Z) :=
  let '(ny, nm) := next_month y m in if ny <=? 9999 then Some (ny, nm) else None.

(** The whole keyboard: title, weekday names, leading blanks, the days,
    then go-back / previous / next. *)
Definition calendar_keyboard (st : stage) (today : date) (s : session)
    (booked : list (Z * date * date)) (uid : Z) (page : string) : list button :=
  let y := calendar_year s in
  let m := calendar_month s in
  let md := min_date_of st today s in
  let '(py, pm) := prev_month y m in
  let '(ny, nm) := next_month y m in
  [mkButton (LMonthYear y m) CbNull]
  ++ map (fun i => mkButton (LWeekday i) CbNull) (zrange 0 7)
  ++ map (fun _ => mkButton LBlank CbNull) (zrange 0 (weekday (mkDate y m 1)))
  ++ map (fun n => day_cell st md today booked uid page (mkDate y m n))
         (zrange 1 (days_in_month y m))
  ++ [mkButton LGoBack (CbRes (res_id s) page); mkButton LPrev (CbMonth py pm st page);
      mkButton LNext (CbMonth ny nm st page)].

(** [send_calendar(message, user_id, page, select_type, prefix_text)] *)
Definition send_calendar (uid : Z) (page : string) (st : stage) (prefix : string)
    (today : date) : M unit :=
  present <- gets (fun w => has_session w uid) ;;
  (if present then ret tt else emit (EditText "long_session_error")) ;;
  s <- get_session uid ;;
  booked <- gets (fun w => get_booked_ranges_for_resource today (res_id s) (bookings w)) ;;
  if negb ((1 <=? calendar_month s) && (calendar_month s <=? 12)
           && (1 <=? calendar_year s) && (calendar_year s <=? 9999))
  then raise ValueError
  else match prev_month_dt (calendar_year s) (calendar_month s),
             next_month_dt (calendar_year s) (calendar_month s) with
       | Some _, Some _ => emit (EditCalendar st prefix (calendar_keyboard st today s booked uid page))
       | _, _ => raise OverflowError
       end.

(* ------------------------------------------------------------------ *)
(** ** Date-range selection handlers *)

(** [callback_book]: a fresh session, then the check-in calendar. *)
Definition callback_book (uid rid : Z) (page : string) (now : datetime) (today : date)
  : M unit :=
  emit AnswerCallback ;;
  put_session uid (mkSession rid None None (year (dt_date now)) (month (dt_date now)) now) ;;
  send_calendar uid page StageCheckIn "" today.

(** [callback_change_month] *)
Definition callback_change_month (uid y m : Z) (st : stage) (page : string) (today : date)
  : M unit :=
  emit AnswerCallback ;;
  present <- gets (fun w => has_session w uid) ;;
  (if present then ret tt else emit (EditText "long_session_error")) ;;
  s <- get_session uid ;;
  put_session uid (set_s_month s y m) ;;
  send_calendar uid page st "" today.

(** The rows [(b.check_in, b.check_out)] of the confirmed bookings of a
    resource, as queried by [callback_datepick]. *)
Definition confirmed_ranges (rid : Z) (bs : list booking) : list (option date * option date) :=
  map (fun b => (check_in b, check_out b))
      (filter (fun b => (b_resource b =? rid) && status_eqb (b_status b) Confirmed) bs).

(** The [for s, e in booked_ranges] loop: the first range that both is
    complete and overlaps [check_in .. candidate]. *)
Fixpoint first_overlap (ci d : date) (rs : list (option date * option date))
  : option (date * date) :=
  match rs with
  | [] => None
  | (Some s, Some e) :: rs' =>
      if date_le ci e && date_le s d then Some (s, e) else first_overlap ci d rs'
  | _ :: rs' => first_overlap ci d rs'
  end.

(** [callback_datepick] *)
Definition callback_datepick (uid : Z) (st : stage) (d : date) (page : string) (today : date)
  : M unit :=
  emit AnswerCallback ;;
  s <- get_session uid ;;
  match st with
  | StageCheckIn =>
      put_session uid (set_s_check_in s (Some d)) ;;
      send_calendar uid page StageCheckOut "" today
  | StageCheckOut =>
      match s_check_in s with
      | None => raise TypeError      (* [date_obj <= None] *)
      | Some ci =>
          if date_le d ci then emit (AlertCallback "date_range_error")
          else
            rows <- gets (fun w => confirmed_ranges (res_id s) (bookings w)) ;;
            match first_overlap ci d rows with
            | Some _ =>
                put_session uid (set_s_check_in s None) ;;
                send_calendar uid page StageCheckIn "overlaps_error" today
            | None =>
                put_session uid (set_s_check_out s (Some d)) ;;
                r <- get_resource (res_id s) ;;
                emit (ShowSummary (location r) ci d)
            end
      end
  end.

(* ------------------------------------------------------------------ *)
(** ** Booking lifecycle handlers *)

(** [callback_confirm_booking]; [invoice_ok] is whether [bot.send_invoice]
    returns normally. *)
Definition callback_confirm_booking (uid chat : Z) (invoice_ok : bool) : M unit :=
  emit AnswerCallback ;;
  present <- gets (fun w => has_session w uid) ;;
  (if present then ret tt else emit (EditText "long_session_error")) ;;
  ost <- gets (fun w => dict_get Z.eqb (user_booking_state w) uid) ;;
  match ost with
  | Some s =>
      match s_check_in s, s_check_out s with
      | Some ci, Some co =>
          r <- get_resource (res_id s) ;;
          b <- create_booking chat (r_id r) (Some ci) (Some co) WaitingPayment ;;
          match invoice_amount ci co (price r) with
          | None => raise ValueError
          | Some amt =>
              try_catch (if invoice_ok then emit (SendInvoice uid (b_id b) amt)
                         else raise InvoiceError)
                        (fun _ => save_booking (set_status b Failed) ;;
                                  emit (EditText "payment_error")) ;;
              emit DeleteMessage ;;
              modify (fun w => set_sessions w (dict_pop Z.eqb (user_booking_state w) uid))
          end
      | _, _ => emit (SendMessage chat "session_error")
      end
  | None => emit (SendMessage chat "session_error")
  end.

(** SQL comparisons of a nullable DATE column: NULL compares false. *)
Definition sql_le (a : option date) (b : date) : bool :=
  match a with Some a => date_le a b | None => false end.
Definition sql_ge (a : option date) (b : date) : bool :=
  match a with Some a => date_le b a | None => false end.

(** The [WHERE] clause of [conflict_q] in [handle_pre_checkout_query]. *)
Definition conflict_row (b : booking) (ci co : date) (r : booking) : bool :=
  (b_resource r =? b_resource b) && negb (b_id r =? b_id b)
  && status_eqb (b_status r) Confirmed
  && sql_le (check_in r) co && sql_ge (check_out r) ci.

(** [handle_pre_checkout_query]; [total] is [pre_q.total_amount]. *)
Definition handle_pre_checkout_query (id : Z) (total : option Z) (uid : Z) : M unit :=
  b <- get_booking id ;;
  if negb (status_eqb (b_status b) WaitingPayment)
  then emit (AnswerPreCheckout false "pre_checkout_error_2")
  else
    match check_in b, check_out b with
    | Some ci, Some co =>
        conflict <- gets (fun w => existsb (conflict_row b ci co) (bookings w)) ;;
        if conflict then
          emit (AnswerPreCheckout false "pre_checkout_error_4") ;;
          save_booking (set_status b Conflict) ;;
          emit (SendMessage uid "payment_error_notification")
        else
          mismatch <- try_catch
            (match total with
             | None => ret false
             | Some t =>
                 r <- get_resource (b_resource b) ;;
                 match invoice_amount ci co (price r) with
                 | None => raise ValueError
                 | Some e => ret (negb (t =? e))
                 end
             end)
            (fun _ => ret false) ;;
          if mismatch then emit (AnswerPreCheckout false "amount_error")
          else emit (AnswerPreCheckout true "")
    | _, _ =>
        emit (AnswerPreCheckout false "pre_checkout_error_3") ;;
        save_booking (set_status b Failed)
    end.

(** [float(sp.total_amount / 100)] *)
Definition paid_amount (total : Z) : float := PrimFloat.div (float_of_int total) f100.

(** [handle_successful_payment]; [total] is [sp.total_amount]. *)
Definition handle_successful_payment (id total uid : Z) : M unit :=
  ob <- try_catch (b <- get_booking id ;; ret (Some b)) (fun _ => ret None) ;;
  match ob with
  | None => emit (SendMessage uid "error_after_payment")
  | Some b =>
      if status_eqb (b_status b) Confirmed
      then emit (SendMessage uid "already_confirmed")
      else
        let b' := set_status_amount b Confirmed (paid_amount total) in
        save_booking b' ;;
        _ <- get_resource (b_resource b) ;;
        emit (SendManagers BookingCompleted b') ;;
        emit (SendMessage uid "success_booking")
  end.

(** [callback_cancel_my_booking] *)
Definition callback_cancel_my_booking (id uid : Z) (today : date) : M unit :=
  emit AnswerCallback ;;
  b <- get_booking id ;;
  emit RemoveImages ;;
  match check_in b with
  | None => raise TypeError          (* [None <= date.today()] *)
  | Some ci =>
      if date_le ci today then emit (ShowMyBookings "cancel_error")
      else
        let b' := set_status b Cancelled in
        save_booking b' ;;
        _ <- get_resource (b_resource b) ;;
        emit (SendManagers BookingCanceled b') ;;
        emit (ShowMyBookings "cancel_apply")
  end.

(* ------------------------------------------------------------------ *)
(** ** Event dispatch *)

Inductive event :=
| EvBook (uid rid : Z) (page : string) (now : datetime) (today : date)
| EvMonth (uid y m : Z) (st : stage) (page : string) (today : date)
| EvDatepick (uid : Z) (st : stage) (d : date) (page : string) (today : date)
| EvConfirm (uid chat : Z) (invoice_ok : bool)
| EvPreCheckout (id : Z) (total : option Z) (uid : Z)
| EvPaid (id total uid : Z)
| EvCancel (id uid : Z) (today : date).

Definition handle (ev : event) : M unit :=
  match ev with
  | EvBook uid rid page now today => callback_book uid rid page now today
  | EvMonth uid y m st page today => callback_change_month uid y m st page today
  | EvDatepick uid st d page today => callback_datepick uid st d page today
  | EvConfirm uid chat ok => callback_confirm_booking uid chat ok
  | EvPreCheckout id total uid => handle_pre_checkout_query id total uid
  | EvPaid id total uid => handle_successful_payment id total uid
  | EvCancel id uid today => callback_cancel_my_booking id uid today
  end.

Definition run_event (w : world) (ev : event) : world := fst (fst (handle ev w)).
Definition run_events (w : world) (evs : list event) : world := fold_left run_event evs w.
Definition effects_of (ev : event) (w : world) : list effect := snd (fst (handle ev w)).

(** Whether the pre-checkout handler approves the charge. *)
Definition approves (m : M unit) (w : world) : bool :=
  existsb (fun e => match e with AnswerPreCheckout true _ => true | _ => false end)
          (snd (fst (m w))).

(** Date range of a booking: [[check_in, check_out]], an unset check-out
    counting as the single day [check_in]. *)
Definition booking_range (b : booking) : option (date * date) :=
  match check_in b with
  | None => None
  | Some s => Some (s, match check_out b with Some e => e | None => s end)
  end.

Definition ranges_overlap (r1 r2 : date * date) : bool :=
  date_le (fst r1) (snd r2) && date_le (fst r2) (snd r1).

Definition is_confirmed (b : booking) : bool := status_eqb (b_status b) Confirmed.

(** The confirmed bookings of each resource are pairwise non-overlapping. *)
Definition confirmed_disjoint (bs : list booking) : Prop :=
  forall b1 b2 r1 r2, In b1 bs -> In b2 bs -> b_id b1 <> b_id b2 ->
    is_confirmed b1 = true -> is_confirmed b2 = true -> b_resource b1 = b_resource b2 ->
    booking_range b1 = Some r1 -> booking_range b2 = Some r2 ->
    ranges_overlap r1 r2 = false.

(** Handler runs in which a successful payment is handled only in a state
    where the pre-checkout handler approves that same charge: no other
    confirmation slips in between pre-authorization and payment. *)
Inductive serial_step : world -> world -> Prop :=
| serial_other w ev :
    (forall id total uid, ev <> EvPaid id total uid) -> serial_step w (run_event w ev)
| serial_paid w id total uid :
    approves (handle_pre_checkout_query id (Some total) uid) w = true ->
    serial_step w (run_event w (EvPaid id total uid)).

Inductive serial_reach (w0 : world) : world -> Prop :=
| serial_refl : serial_reach w0 w0
| serial_trans w w' : serial_reach w0 w -> serial_step w w' -> serial_reach w0 w'.

(* ------------------------------------------------------------------ *)
(** ** Concrete data used by the examples *)

Definition today0 : date := mkDate 2024 6 1.
Definition now0 : datetime := mkDateTime today0 10 0 0 0.
Definition jun (n : Z) : date := mkDate 2024 6 n.
Definition res100 : resource := mkResource 1 "Loc" f100 1.
Definition world0 : world := mkWorld [] [res100] [] 1.

(** User 1 books June 10..12 and user 2 books June 11..13 of the same
    resource; both pass pre-checkout before either payment arrives. *)
Definition race_events : list event :=
  [EvBook 1 1 "1" now0 today0; EvDatepick 1 StageCheckIn (jun 10) "1" today0;
   EvDatepick 1 StageCheckOut (jun 12) "1" today0; EvConfirm 1 1 true;
   EvBook 2 1 "1" now0 today0; EvDatepick 2 StageCheckIn (jun 11) "1" today0;
   EvDatepick 2 StageCheckOut (jun 13) "1" today0; EvConfirm 2 2 true;
   EvPreCheckout 1 (Some 30000) 1; EvPreCheckout 2 (Some 30000) 2;
   EvPaid 1 30000 1; EvPaid 2 30000 2].

(** ** The amount and conflict conditions as the spec words them *)

(** The exact rational value of a stored double. *)
Definition float_to_Q (f : float) : Q :=
  match Prim2SF f with
  | SpecFloat.S754_finite s m e =>
      let q := if e >=? 0 then inject_Z (Zpos m * 2 ^ e)
               else Qmake (Zpos m) (Pos.pow 2 (Z.to_pos (- e))) in
      if s then Qopp q else q
  | _ => 0%Q
  end.

(** [nights_inclusive(check_in, check_out) * price * 100], in exact
    arithmetic (the spec's formula). *)
Definition spec_amount (ci co : date) (p : float) : Q :=
  (inject_Z (days_between co ci + 1) * float_to_Q p * inject_Z 100)%Q.

(** No other confirmed booking of the same resource date-overlaps
    [[ci, co]] (a booking with unset check-out counting as one day). *)
Definition no_confirmed_overlap (bs : list booking) (b : booking) (ci co : date) : Prop :=
  forall x rr, In x bs -> b_id x <> b_id b -> is_confirmed x = true ->
    b_resource x = b_resource b -> booking_range x = Some rr ->
    ranges_overlap (ci, co) rr = false.

(** A booking of [1] night (June 10) of a resource priced [0.29]. *)
(* 0x1.28f5c28f5c28fp-2 is the double nearest to 0.29 *)
Definition res029 : resource := mkResource 2 "Loc" 0x1.28f5c28f5c28fp-2%float 1.
Definition world029 : world :=
  mkWorld [mkBooking 1 5 2 (Some (jun 10)) (Some (jun 10)) WaitingPayment
                     (PrimFloat.of_uint63 0%uint63)] [res029] [] 2.

(** The state of user 1 after picking June 10..12 of resource [res100]. *)
Definition picked_world : world := run_events world0 (firstn 3 race_events).

(** A [waiting_payment] booking of June 10..12 of [res100]. *)
Definition waiting_world : world :=
  mkWorld [mkBooking 1 1 1 (Some (jun 10)) (Some (jun 12)) WaitingPayment
                     (PrimFloat.of_uint63 0%uint63)] [res100] [] 2.

Definition count_manager_msgs (es : list effect) : nat :=
  List.length (filter (fun e => match e with SendManagers _ _ => true | _ => false end) es).
Definition count_saves (es : list effect) : nat :=
  List.length (filter (fun e => match e with DbSave _ => true | _ => false end) es).

(** ** Auxiliary predicates of the proofs *)

(** A handler run creates no confirmed row and confirms no row. *)
Definition keeps_confirmed {A} (m : M A) : Prop :=
  forall w b, In b (bookings (fst (fst (m w)))) -> is_confirmed b = true -> In b (bookings w).

Definition confirmed_dated (bs : list booking) : Prop :=
  forall b, In b bs -> is_confirmed b = true ->
    exists ci co, check_in b = Some ci /\ check_out b = Some co.

Definition booking_inv (w : world) : Prop :=
  confirmed_dated (bookings w) /\ confirmed_disjoint (bookings w).


(** Status changes the handlers can make to a persisted row. *)
Definition status_step (s s' : status) : Prop :=
  s' = s \/ (s = WaitingPayment /\ (s' = Failed \/ s' = Conflict))
  \/ (s <> Confirmed /\ s' = Confirmed) \/ s' = Cancelled.

(** What one handler run does to the Booking table: nothing; one saved
    status (and amount) change of an existing row; or a new
    [waiting_payment] row, possibly saved as [failed] right away. *)
Definition row_change (w : world) (bs' : list booking) : Prop :=
  bs' = bookings w \/
  (exists b s a, find (fun x => b_id x =? b_id b) (bookings w) = Some b /\
                 status_step (b_status b) s /\
                 bs' = update_rows (set_status_amount b s a) (bookings w)) \/
  (exists nb, b_id nb = next_id w /\ b_status nb = WaitingPayment /\
              (bs' = bookings w ++ [nb] \/
               bs' = update_rows (set_status nb Failed) (bookings w ++ [nb]))).

(** Handlers that leave the Booking table untouched. *)
Definition keeps_rows {A} (m : M A) : Prop := forall w, bookings (fst (fst (m w))) = bookings w.

(** The overlap test of the check-out selection as the spec words it:
    some confirmed booking of the resource whose range (an unset check-out
    counting as the single day of its check-in) meets
    [check_in <= existingEnd] and [candidate >= existingStart]. *)
Definition datepick_conflict_spec (rid : Z) (ci d : date) (bs : list booking) : bool :=
  existsb (fun b => (b_resource b =? rid) && status_eqb (b_status b) Confirmed &&
                    match booking_range b with
                    | Some (s, e) => date_le ci e && date_le s d
                    | None => false
                    end) bs.

(** A confirmed booking of user 2 with check-in 2024-06-11 and no
    check-out (as the admin view can store it), and user 1 choosing a
    check-out after check-in 2024-06-10. *)
Definition open_end_world : world :=
  mkWorld [mkBooking 1 2 1 (Some (jun 11)) None Confirmed (PrimFloat.of_uint63 0%uint63)]
          [res100] [(1, mkSession 1 (Some (jun 10)) None 2024 6 now0)] 2.

(* ------------------------------------------------------------------ *)
(** ** The session snapshot file ([save_user_booking_state],
       [load_user_booking_state]) *)

(** The Python values a session dict holds. *)
Inductive pyval :=
| PNone
| PBool (b : bool)
| PInt (z : Z)
| PStr (s : string)
| PDate (d : date)
| PDateTime (t : datetime).

(** One session as a Python dict [str -> value], in insertion order. *)
Definition pystate := list (string * pyval).

(** [str(n)] and [int(s)] on decimal integers. *)
Definition py_str (z : Z) : string := NilZero.string_of_int (Z.to_int z).
Definition py_int_of_str (s : string) : option Z :=
  option_map Z.of_int (NilZero.int_of_string s).

(** The fixed-width zero-padded decimal fields of ISO 8601. *)
Definition digit (n : Z) : ascii := ascii_of_nat (48 + Z.to_nat n).
Fixpoint pad (n : nat) (z : Z) : list ascii :=
  match n with
  | O => []
  | S n' => pad n' (z / 10) ++ [digit (z mod 10)]
  end.

Definition digit_val (c : ascii) : option Z :=
  let n := Z.of_nat (nat_of_ascii c) - 48 in
  if (0 <=? n) && (n <=? 9) then Some n else None.

Fixpoint parse_num (acc : Z) (l : list ascii) : option Z :=
  match l with
  | [] => Some acc
  | c :: l' => match digit_val c with
               | Some v => parse_num (acc * 10 + v) l'
               | None => None
               end
  end.

(** [date.isoformat()] and [datetime.isoformat()] (microseconds written
    only when non-zero). *)
Definition date_isoformat (d : date) : list ascii :=
  pad 4 (year d) ++ "-"%char :: pad 2 (month d) ++ "-"%char :: pad 2 (day d).

Definition time_isoformat (t : datetime) : list ascii :=
  pad 2 (hour t) ++ ":"%char :: pad 2 (minute t) ++ ":"%char :: pad 2 (second t)
  ++ (if microsecond t =? 0 then [] else "."%char :: pad 6 (microsecond t)).

Definition datetime_isoformat (t : datetime) : list ascii :=
  date_isoformat (dt_date t) ++ "T"%char :: time_isoformat t.

Definition valid_date (d : date) : bool :=
  (1 <=? year d) && (year d <=? 9999) && (1 <=? month d) && (month d <=? 12)
  && (1 <=? day d) && (day d <=? days_in_month (year d) (month d)).

Definition valid_time (h mi s us : Z) : bool :=
  (0 <=? h) && (h <? 24) && (0 <=? mi) && (mi <? 60) && (0 <=? s) && (s <? 60)
  && (0 <=? us) && (us <? 1000000).

Definition valid_datetime (t : datetime) : bool :=
  valid_date (dt_date t) && valid_time (hour t) (minute t) (second t) (microsecond t).

(** Reading a fixed-width field, or one expected character. *)
Fixpoint take (n : nat) (l : list ascii) : option (list ascii * list ascii) :=
  match n with
  | O => Some ([], l)
  | S n' => match l with
            | [] => None
            | c :: l' => match take n' l' with
                         | Some (p, r) => Some (c :: p, r)
                         | None => None
                         end
            end
  end.

Definition field (n : nat) (l : list ascii) : option (Z * list ascii) :=
  match take n l with
  | Some (p, r) => match parse_num 0 p with Some z => Some (z, r) | None => None end
  | None => None
  end.

Definition sep (c : ascii) (l : list ascii) : option (list ascii) :=
  match l with
  | c' :: r => if Ascii.eqb c' c then Some r else None
  | [] => None
  end.

Definition obind {A B} (o : option A) (k : A -> option B) : option B :=
  match o with Some a => k a | None => None end.

Definition parse_date_part (l : list ascii) : option (date * list ascii) :=
  obind (field 4 l) (fun '(y, l1) =>
  obind (sep "-"%char l1) (fun l2 =>
  obind (field 2 l2) (fun '(m, l3) =>
  obind (sep "-"%char l3) (fun l4 =>
  obind (field 2 l4) (fun '(d, l5) =>
  if valid_date (mkDate y m d) then Some (mkDate y m d, l5) else None))))).

Definition parse_time_part (l : list ascii) : option (Z * Z * Z * Z) :=
  obind (field 2 l) (fun '(h, l1) =>
  obind (sep ":"%char l1) (fun l2 =>
  obind (field 2 l2) (fun '(mi, l3) =>
  obind (sep ":"%char l3) (fun l4 =>
  obind (field 2 l4) (fun '(s, l5) =>
  obind (match l5 with
         | [] => Some 0
         | _ => obind (sep "."%char l5) (fun l6 =>
                obind (field 6 l6) (fun '(us, l7) =>
                match l7 with [] => Some us | _ => None end))
         end) (fun us =>
  if valid_time h mi s us then Some (h, mi, s, us) else None)))))).

(** [datetime.fromisoformat(s)] on the forms [YYYY-MM-DD] (midnight) and
    [YYYY-MM-DD?HH:MM:SS[.ffffff]] with any separator character, which
    are the forms [isoformat] writes; [None] is the raised [ValueError].
    Other forms that Python accepts (such as [2024-06-01 10:15], or
    [20240610] from 3.11 on) also give [None] here: the snapshot loader only
    reads what [isoformat] wrote. *)
Definition fromisoformat (l : list ascii) : option datetime :=
  obind (parse_date_part l) (fun '(d, r) =>
  match r with
  | [] => Some (mkDateTime d 0 0 0 0)
  | _ :: r' => obind (parse_time_part r') (fun '(h, mi, s, us) =>
               Some (mkDateTime d h mi s us))
  end).

(** The value written for one entry: [v.isoformat()] for a [datetime] or
    [date], [v] itself otherwise. *)
Definition save_value (v : pyval) : pyval :=
  match v with
  | PDate d => PStr (string_of_list_ascii (date_isoformat d))
  | PDateTime t => PStr (string_of_list_ascii (datetime_isoformat t))
  | v => v
  end.

(** [save_user_booking_state]: the dict [data] handed to [json.dump].
    [json.dump] writes each int key [user_id] as [str(user_id)]; [json.load]
    of the file gives back the same dict of strings, ints, bools and nulls,
    so the file is represented by that dict. *)
Definition save_user_booking_state (ubs : list (Z * pystate)) : list (string * pystate) :=
  map (fun '(uid, st) => (py_str uid, map (fun '(k, v) => (k, save_value v)) st)) ubs.

Definition is_date_key (k : string) : bool :=
  String.eqb k "created" || String.eqb k "check_in" || String.eqb k "check_out".

(** The restored value of one entry: for the three date keys and a
    non-null value, [datetime.fromisoformat(v)] (then [.date()] for
    [check_in]/[check_out]); an exception ([ValueError] on a bad string,
    [TypeError] on a non-string) keeps [v]. *)
Definition load_value (k : string) (v : pyval) : pyval :=
  match v with
  | PStr s =>
      if is_date_key k then
        match fromisoformat (list_ascii_of_string s) with
        | Some t => if String.eqb k "created" then PDateTime t else PDate (dt_date t)
        | None => v
        end
      else v
  | _ => v
  end.

(** [restored_state[k] = ...] for each item, in order. *)
Definition restore_state (st : pystate) : pystate :=
  fold_left (fun acc '(k, v) => dict_set String.eqb acc k (load_value k v)) st [].

(** The loop [user_booking_state[int(user_id)] = restored_state]; a key
    [int] cannot read raises [ValueError] ([None]). *)
Definition load_step (acc : option (list (Z * pystate))) (item : string * pystate)
  : option (list (Z * pystate)) :=
  obind acc (fun m =>
  obind (py_int_of_str (fst item)) (fun uid =>
  Some (dict_set Z.eqb m uid (restore_state (snd item))))).

Definition load_data (data : list (string * pystate)) : option (list (Z * pystate)) :=
  fold_left load_step data (Some []).

(** The state file: absent, or holding the dict written by [json.dump]. *)
Definition state_file := option (list (string * pystate)).

Definition save_state_file (ubs : list (Z * pystate)) : state_file :=
  Some (save_user_booking_state ubs).

(** [load_user_booking_state]: the restored map ([None] if it raised) and
    the file afterwards ([remove(STATE_FILE)] once the loop has run). *)
Definition load_user_booking_state (f : state_file) : option (list (Z * pystate)) * state_file :=
  match f with
  | None => (Some [], None)
  | Some data => match load_data data with
                 | Some m => (Some m, None)
                 | None => (None, f)
                 end
  end.

(** The session entries the round trip is stated for: [created] a valid
    [datetime]; [check_in] and [check_out] null or a valid [date]; any other
    key a JSON scalar (null, bool, int or str). *)
Definition wf_entry (k : string) (v : pyval) : bool :=
  if String.eqb k "created" then
    match v with PDateTime t => valid_datetime t | _ => false end
  else if String.eqb k "check_in" || String.eqb k "check_out" then
    match v with PNone => true | PDate d => valid_date d | _ => false end
  else
    match v with PDate _ | PDateTime _ => false | _ => true end.

(* ------------------------------------------------------------------ *)
(** ** The reconnecting adapter ([ReconnectMixin.execute_sql]) *)

(** Exception classes: [peewee.OperationalError] or any other class (the
    check [exc_class not in self._reconnect_errors] is on the exact class). *)
Inductive exc_class := OperationalError | OtherClass (name : string).

Definition exc_class_eqb (a b : exc_class) : bool :=
  match a, b with
  | OperationalError, OperationalError => true
  | OtherClass x, OtherClass y => String.eqb x y
  | _, _ => false
  end.

(** A raised exception: its class and [str(exc)]. *)
Record db_exc := mkDbExc { dbexc_class : exc_class; dbexc_msg : string }.

Definition reconnect_errors : list (exc_class * string) :=
  [(OperationalError, "2006"%string); (OperationalError, "2013"%string);
   (OperationalError, "2003"%string); (OperationalError, "2014"%string);
   (OperationalError, "MySQL Connection not available."%string)].

(** [str.lower()] on ASCII text. *)
Definition lower_ascii (c : ascii) : ascii :=
  let n := nat_of_ascii c in
  if (65 <=? n)%nat && (n <=? 90)%nat then ascii_of_nat (n + 32) else c.
Fixpoint lower (s : string) : string :=
  match s with
  | EmptyString => EmptyString
  | String c s' => String (lower_ascii c) (lower s')
  end.

(** [needle in hay] on strings. *)
Fixpoint is_substring (needle hay : string) : bool :=
  String.prefix needle hay ||
  match hay with
  | EmptyString => false
  | String _ hay' => is_substring needle hay'
  end.

(** [__init__]: [self._reconnect_errors.setdefault(exc_class, []).append(
    err_fragment.lower())] for every pair. *)
Definition reconnect_table : list (exc_class * list string) :=
  fold_left (fun d '(c, frag) =>
               let l := match dict_get exc_class_eqb d c with Some l => l | None => [] end in
               dict_set exc_class_eqb d c (l ++ [lower frag])) reconnect_errors [].

(** The two tests of the [except] clause: the class is a key of the table
    and some fragment of it occurs in [str(exc).lower()]. *)
Definition transient (e : db_exc) : bool :=
  match dict_get exc_class_eqb reconnect_table (dbexc_class e) with
  | None => false
  | Some frags => existsb (fun f => is_substring f (lower (dbexc_msg e))) frags
  end.

(** What the wrapped [MySQLDatabase.execute_sql] does at attempt [tr] of
    the same statement, whether [is_closed()] holds after that failure, and
    whether [connect()] then succeeds. *)
Inductive outcome := ORows (cursor : Z) | OErr (e : db_exc).
Record db_env := mkDbEnv {
  exec_attempt : nat -> outcome;
  closed_after : nat -> bool;
  connect_ok : nat -> bool }.

Inductive sql_result := Rows (cursor : Z) | Raised (e : db_exc).

Inductive db_event :=
| Exec (tr : nat)          (* super().execute_sql(sql, params, commit) *)
| Close                    (* self.close() *)
| Connect (ok : bool)      (* self.connect() *)
| LogError                 (* logging.error("CONNECTION ERROR: ...") *)
| Sleep (secs : Q).        (* time.sleep(tr / 10) *)

Definition reconnect_block (env : db_env) (tr : nat) : list db_event :=
  (if closed_after env tr then [] else [Close]) ++
  (if connect_ok env tr then [Connect true] else [Connect false; LogError]).

(** [execute_sql(sql, params, commit, tr)], run on at most [fuel] nested
    calls ([None] when they run out). *)
Fixpoint execute_sql_fuel (fuel : nat) (env : db_env) (tr : nat)
  : option (list db_event * sql_result) :=
  match fuel with
  | O => None
  | S f =>
      match exec_attempt env tr with
      | ORows c => Some ([Exec tr], Rows c)
      | OErr e =>
          if negb (transient e) then Some ([Exec tr], Raised e)
          else
            let pre := Exec tr :: reconnect_block env tr in
            if (20 <=? tr)%nat then Some (pre, Raised e)
            else match execute_sql_fuel f env (S tr) with
                 | Some (t, r) => Some (pre ++ Sleep (Qmake (Z.of_nat tr) 10) :: t, r)
                 | None => None
                 end
      end
  end.

Definition transient_outcome (o : outcome) : bool :=
  match o with ORows _ => false | OErr e => transient e end.

Definition result_of (o : outcome) : sql_result :=
  match o with ORows c => Rows c | OErr e => Raised e end.

Definition is_exec (ev : db_event) : bool := match ev with Exec _ => true | _ => false end.

(** The trace of attempts [tr .. n]: each failed attempt [i < n] is
    followed by the reconnect and [time.sleep(i / 10)]. *)
Definition retry_trace (env : db_env) (tr n : nat) : list db_event :=
  List.concat (map (fun i => Exec i :: reconnect_block env i ++ [Sleep (Qmake (Z.of_nat i) 10)])
                   (seq tr (n - tr)%nat))
  ++ Exec n :: (if transient_outcome (exec_attempt env n) then reconnect_block env n else []).

(* ------------------------------------------------------------------ *)
(** ** More concrete states of the examples *)

Definition waiting_b : booking :=
  mkBooking 1 1 1 (Some (jun 10)) (Some (jun 12)) WaitingPayment (PrimFloat.of_uint63 0%uint63).

(** User 2's confirmed booking of June 11..13 of [res100]. *)
Definition confirmed_b2 : booking :=
  mkBooking 2 2 1 (Some (jun 11)) (Some (jun 13)) Confirmed (PrimFloat.of_uint63 300%uint63).

(** A [waiting_payment] booking whose check-out is unset. *)
Definition world_nodate : world :=
  mkWorld [mkBooking 1 1 1 (Some (jun 10)) None WaitingPayment (PrimFloat.of_uint63 0%uint63)]
          [res100] [] 2.

(** [waiting_b] next to the overlapping [confirmed_b2]. *)
Definition conflict_world : world := mkWorld [waiting_b; confirmed_b2] [res100] [] 3.

(** User 1 has picked check-in June 10 of [res100]. *)
Definition session10 : session := mkSession 1 (Some (jun 10)) None 2024 6 now0.
Definition pick_world : world := mkWorld [] [res100] [(1, session10)] 1.
Definition overlap_world : world := mkWorld [confirmed_b2] [res100] [(1, session10)] 3.

(** The same, with the calendar moved to December 9999 ([callback_change_month]
    stores any month). *)
Definition overlap_world_9999 : world :=
  mkWorld [confirmed_b2] [res100] [(1, set_s_month session10 9999 12)] 3.

(** One user's booking flow, every payment preceded by its approval. *)
Definition serial_events : list event :=
  [EvBook 1 1 "1" now0 today0; EvDatepick 1 StageCheckIn (jun 10) "1" today0;
   EvDatepick 1 StageCheckOut (jun 12) "1" today0; EvConfirm 1 1 true;
   EvPreCheckout 1 (Some 30000) 1; EvPaid 1 30000 1].

(** A snapshot with one session as [callback_book] and [callback_datepick]
    leave it. *)
Definition sample_sessions : list (Z * pystate) :=
  [(7, [("res_id"%string, PInt 1); ("check_in"%string, PDate (jun 10));
        ("check_out"%string, PNone); ("calendar_year"%string, PInt 2024);
        ("calendar_month"%string, PInt 6);
        ("created"%string, PDateTime (mkDateTime today0 10 15 30 250000))])].

(** A database whose first attempt fails with a non-transient error. *)
Definition integrity_exc : db_exc := mkDbExc (OtherClass "IntegrityError") "(1062, 'Duplicate entry')".
Definition env_integrity : db_env :=
  mkDbEnv (fun _ => OErr integrity_exc) (fun _ => true) (fun _ => true).

(* ------------------------------------------------------------------ *)
(** ** Further code of the handlers, the admin and the adapter *)

(** [date_in_bookings(day_date, booked_ranges)] *)
Fixpoint date_in_bookings (d : date) (rs : list (date * date)) : bool :=
  match rs with
  | [] => false
  | (s, e) :: rs' => if date_le s d && date_le d e then true else date_in_bookings d rs'
  end.

(** A naive [datetime] as microseconds since 0001-01-01 minus one day:
    [now - created] compares as the difference of these. *)
Definition datetime_us (t : datetime) : Z :=
  (toordinal (dt_date t) * 86400 + hour t * 3600 + minute t * 60 + second t) * 1000000
  + microsecond t.

(** [check_out is None and created and (now - created) > timedelta(hours=24)] *)
Definition expired (now : datetime) (s : session) : bool :=
  match s_check_out s with
  | None => 86400 * 1000000 <? datetime_us now - datetime_us (created s)
  | Some _ => false
  end.

(** [clean_expired_booking_states()]: collect the expired user ids, then
    [user_booking_state.pop(user_id, None)] each. *)
Definition clean_expired_booking_states (now : datetime) (ubs : list (Z * session))
  : list (Z * session) :=
  let expired_users := map fst (filter (fun '(_, s) => expired now s) ubs) in
  fold_left (fun acc uid => dict_pop Z.eqb acc uid) expired_users ubs.

(** [check_out > today] in SQL: a NULL check-out compares false. *)
Definition sql_gt (a : option date) (b : date) : bool :=
  match a with Some a => date_lt b a | None => false end.

(** [ORDER BY check_in DESC] (MySQL sorts NULL below every date); rows
    with equal keys keep their table order. *)
Definition check_in_ge (a b : option date) : bool :=
  match a, b with
  | _, None => true
  | None, Some _ => false
  | Some x, Some y => date_le y x
  end.
Fixpoint insert_desc (b : booking) (l : list booking) : list booking :=
  match l with
  | [] => [b]
  | x :: l' => if check_in_ge (check_in x) (check_in b) then x :: insert_desc b l' else b :: l
  end.
Definition sort_check_in_desc (l : list booking) : list booking :=
  fold_right insert_desc [] (rev l).

(** The query of [all_my_bookings]. *)
Definition my_bookings_query (uid : Z) (today : date) (bs : list booking) : list booking :=
  sort_check_in_desc
    (filter (fun b => (telegram_id b =? uid) && status_eqb (b_status b) Confirmed
                      && sql_gt (check_out b) today) bs).

(** One button of the [/bookings] list: the text
    [f"{b.resource.location} ({b.check_in} -> {b.check_out})"] and the
    callback data [f"res:{b.id}:!"]. *)
Record my_booking_button := mkMyBookingButton {
  mb_location : string; mb_check_in : option date; mb_check_out : option date;
  mb_data : string }.

(** What [all_my_bookings] sends: a text, or a text with the buttons. *)
Inductive my_bookings_reply :=
| NotFound (text : string)
| BookingList (text : string) (buttons : list my_booking_button).

Fixpoint booking_buttons (rs : list resource) (bs : list booking)
  : res (list my_booking_button) :=
  match bs with
  | [] => Ok []
  | b :: bs' =>
      match find (fun r => r_id r =? b_resource b) rs with
      | None => Exc DoesNotExist              (* [b.resource] *)
      | Some r =>
          match booking_buttons rs bs' with
          | Ok l => Ok (mkMyBookingButton (location r) (check_in b) (check_out b)
                          ("res:" ++ py_str (b_id b) ++ ":!")%string :: l)
          | Exc e => Exc e
          end
      end
  end.

(** [all_my_bookings(message, edit_msg_text)] *)
Definition all_my_bookings (uid : Z) (edit_msg_text : option string) (today : date) (w : world)
  : res my_bookings_reply :=
  match my_bookings_query uid today (bookings w) with
  | [] => Ok (NotFound (match edit_msg_text with
                        | Some t => t ++ "bookings_not_found"
                        | None => "bookings_not_found" end)%string)
  | q => match booking_buttons (resources w) q with
         | Ok l => Ok (BookingList (match edit_msg_text with Some t => t | None => "my_bookings" end) l)
         | Exc e => Exc e
         end
  end.

(** The guard of [BookingAdmin.delete_model] and [BookingAdmin.action_delete]:
    [status == "confirmed" and check_out and check_out > date.today()]. *)
Definition booking_protected (today : date) (b : booking) : bool :=
  status_eqb (b_status b) Confirmed && sql_gt (check_out b) today.

(** [BookingAdmin.delete_model(model)]: raises on a protected row, else
    deletes it. *)
Definition booking_delete_model (today : date) (m : booking) (bs : list booking)
  : res (list booking) :=
  if booking_protected today m then Exc ValueError
  else Ok (filter (fun x => negb (b_id x =? b_id m)) bs).

(** [BookingAdmin.action_delete(ids)]: the new table, [count] and
    [not_deleted]. *)
Definition booking_action_delete (ids : list Z) (today : date) (bs : list booking)
  : list booking * nat * nat :=
  let query := filter (fun b => existsb (Z.eqb (b_id b)) ids) bs in
  fold_left (fun '(tbl, count, not_deleted) m =>
               if booking_protected today m then (tbl, count, S not_deleted)
               else (filter (fun x => negb (b_id x =? b_id m)) tbl, S count, not_deleted))
            query (bs, O, O).

(** [str.split(sep, maxsplit)] for a one-character separator. *)
Fixpoint split_go (sep : ascii) (n : nat) (cur : list ascii) (l : list ascii)
  : list (list ascii) :=
  match l with
  | [] => [rev cur]
  | c :: l' =>
      match n with
      | O => [rev cur ++ l]
      | S n' => if Ascii.eqb c sep then rev cur :: split_go sep n' [] l'
                else split_go sep n (c :: cur) l'
      end
  end.
Definition py_split (sep : ascii) (maxsplit : nat) (s : string) : list string :=
  map string_of_list_ascii (split_go sep maxsplit [] (list_ascii_of_string s)).

(** [str.isdigit()] on the code points below 256: the ASCII digits and the
    superscripts one, two and three. *)
Definition is_digit_char (c : ascii) : bool :=
  let n := nat_of_ascii c in
  ((48 <=? n) && (n <=? 57))%nat || (n =? 178)%nat || (n =? 179)%nat || (n =? 185)%nat.
Definition py_isdigit (s : string) : bool :=
  match s with
  | EmptyString => false
  | _ => forallb is_digit_char (list_ascii_of_string s)
  end.

(** [int(s)] on a string that [isdigit] accepts: the decimal value when all
    its characters are ASCII digits, [ValueError] ([None]) otherwise. *)
Definition is_ascii_digit (c : ascii) : bool :=
  let n := nat_of_ascii c in ((48 <=? n) && (n <=? 57))%nat.
Definition py_int_of_digits (s : string) : option Z :=
  if forallb is_ascii_digit (list_ascii_of_string s) then py_int_of_str s else None.

(** [chunks(lst, n)], materialised: [range(0, len(lst), n)] raises for
    [n = 0] ([None]) and is empty for [n < 0]. *)
Definition chunks {A} (lst : list A) (n : Z) : option (list (list A)) :=
  if n =? 0 then None
  else if n <? 0 then Some []
  else let k := Z.to_nat n in
       Some (map (fun i => firstn k (skipn (i * k) lst))
                 (seq 0 ((List.length lst + k - 1) / k))).

(** The buttons of [build_resources_keyboard]. *)
Inductive kb_label := KLocation (loc : string) | KGoBack | KPageOf (page total : Z) | KGoNext.
Record kb_button := mkKbButton { kb_text : kb_label; kb_data : string }.

Definition res_button (page : Z) (r : resource) : kb_button :=
  mkKbButton (KLocation (location r)) ("res:" ++ py_str (r_id r) ++ ":" ++ py_str page)%string.

(** [Resource.select().where(status == 1).order_by(created)]: the active
    rows in the order ONE such query returns them, with [rs] listed in that
    order.  [created] is a DATETIME of second precision that can tie, and
    MySQL may order tied rows differently in separate queries, so nothing
    here relates the pages of different calls. *)
Definition active_resources (rs : list resource) : list resource :=
  filter (fun r => r_status r =? 1) rs.

(** [.paginate(page, per)]: [OFFSET (page - 1) * per LIMIT per]. *)
Definition page_slice {A} (per page : Z) (l : list A) : list A :=
  firstn (Z.to_nat per) (skipn (Z.to_nat ((page - 1) * per)) l).

(** [math.ceil(total / per)]: the float quotient of two ints below 2^53
    rounds up to the integer ceiling. *)
Definition total_pages_of (total per : Z) : Z := (total + per - 1) / per.

Definition nav_row (page total_pages : Z) : list kb_button :=
  (if 1 <? page then [mkKbButton KGoBack ("page:" ++ py_str (page - 1) ++ ":")%string] else [])
  ++ [mkKbButton (KPageOf page total_pages) "null"]
  ++ (if page <? total_pages then [mkKbButton KGoNext ("page:" ++ py_str (page + 1) ++ ":")%string]
      else []).

(** [build_resources_keyboard(Resource, page)] with [RECORD_PER_PAGE = per]
    and [RECORDS_ROWS = rows]; [None] where it raises: [ZeroDivisionError]
    for [per = 0], MySQL's rejection of a negative [LIMIT] for [per < 0],
    and [range()]'s [ValueError] for [rows = 0]. *)
Definition build_resources_keyboard (per rows : Z) (rs : list resource) (page : Z)
  : option (list (list kb_button)) :=
  let active := active_resources rs in
  let total := Z.of_nat (List.length active) in
  if total =? 0 then Some []
  else if per <=? 0 then None
  else
    let total_pages := total_pages_of total per in
    let page := Z.max 1 (Z.min page total_pages) in
    match chunks (map (res_button page) (page_slice per page active)) rows with
    | None => None
    | Some rws => Some (rws ++ [nav_row page total_pages])
    end.

(** What [callback_page] shows for its callback data. *)
Inductive page_action :=
| PageRemoveImages (remove_ids : string)   (* [remove_images]: page 1 *)
| PageShow (page : Z)                      (* [edit_message_reply_markup] *)
| PageError.                               (* [ValueError] *)

(** [callback_page] *)
Definition callback_page (data : string) : page_action :=
  match py_split ":"%char 2 data with
  | [_; s_page; remove_ids] =>
      match remove_ids with
      | EmptyString =>
          if py_isdigit s_page then
            match py_int_of_digits s_page with Some p => PageShow p | None => PageError end
          else PageShow 1
      | _ => PageRemoveImages remove_ids
      end
  | _ => PageError
  end.

(** telebot's [util.extract_command]: for a text starting with ["/"],
    [text.split()[0].split("@")[0][1:]]; the whitespace of [str.split()]
    among the one-byte characters. *)
Definition py_space (c : ascii) : bool :=
  let n := nat_of_ascii c in ((9 <=? n) && (n <=? 13))%nat || ((28 <=? n) && (n <=? 32))%nat.
Fixpoint take_until (p : ascii -> bool) (l : list ascii) : list ascii :=
  match l with [] => [] | c :: l' => if p c then [] else c :: take_until p l' end.
Definition extract_command (text : string) : option string :=
  match list_ascii_of_string text with
  | c :: _ =>
      if Ascii.eqb c "/" then
        Some (string_of_list_ascii
                (tl (take_until (fun x => Ascii.eqb x "@")
                                (take_until py_space (list_ascii_of_string text)))))
      else None
  | [] => None
  end.

(** [help_waiting_for_input] (a set), [help_cancel_messages] (a dict), and
    the id Telegram gives the next message the bot sends. *)
Record help_state := mkHelpState {
  waiting : list Z;
  cancel_msgs : list (Z * Z);
  msg_counter : Z }.

Inductive help_effect :=
| HSendQuestion (chat mid : Z)      (* [texts.help_question] with the Cancel button *)
| HSendSuccess (chat mid : Z)       (* [texts.success_help_msg] *)
| HForward (from_chat mid : Z)      (* [forward_message] to [MANAGERS_CHAT] *)
| HDelete (chat mid : Z)            (* [delete_message] *)
| HAnswerCancel.                    (* [answer_callback_query(..., help_canceled_msg)] *)

Definition set_mem (u : Z) (s : list Z) : bool := existsb (Z.eqb u) s.
Definition set_add (u : Z) (s : list Z) : list Z := if set_mem u s then s else s ++ [u].
Definition set_discard (u : Z) (s : list Z) : list Z := filter (fun x => negb (x =? u)) s.

(** [help_command] *)
Definition help_command (st : help_state) (user_id : Z) : help_state * list help_effect :=
  let mid := msg_counter st in
  (mkHelpState (set_add user_id (waiting st)) (dict_set Z.eqb (cancel_msgs st) user_id mid) (mid + 1),
   [HSendQuestion user_id mid]).

(** [callback_help_cancel], for the button in message [mid] of [chat]. *)
Definition callback_help_cancel (st : help_state) (user_id chat mid : Z) : help_state * list help_effect :=
  let w := if set_mem user_id (waiting st) then set_discard user_id (waiting st) else waiting st in
  (mkHelpState w (cancel_msgs st) (msg_counter st), [HAnswerCancel; HDelete chat mid]).

(** [handle_help_message] for text [text] in message [mid] of the private
    chat of [user_id]. *)
Definition handle_help_message (st : help_state) (user_id : Z) (text : string) (mid : Z)
  : help_state * list help_effect :=
  if String.prefix "/" text then
    (mkHelpState (set_discard user_id (waiting st)) (cancel_msgs st) (msg_counter st), [])
  else
    let sent := msg_counter st in
    let popped := dict_get Z.eqb (cancel_msgs st) user_id in
    let cm := dict_pop Z.eqb (cancel_msgs st) user_id in
    let del := match popped with
               | Some msg_id => if msg_id =? 0 then [] else [HDelete user_id msg_id]
               | None => []
               end in
    (mkHelpState (set_discard user_id (waiting st)) cm (sent + 1),
     [HForward user_id mid; HSendSuccess user_id sent] ++ del).

(** The message handler telebot picks for a private text message: the first
    registered one whose filters pass ([start], [restart_bot],
    [help_command], [handle_help_message], then [all_my_bookings]; the
    managers-chat and payment handlers never take a private text). *)
Inductive text_route := RStart | RRestart | RHelp | RHelpMessage | RBookings | RUnhandled.

Definition cmd_is (c : string) (o : option string) : bool :=
  match o with Some s => String.eqb s c | None => false end.

Definition route_private_text (admins : list Z) (st : help_state) (user_id : Z) (text : string)
  : text_route :=
  let cmd := extract_command text in
  if cmd_is "start" cmd then RStart
  else if cmd_is "restart" cmd && set_mem user_id admins then RRestart
  else if cmd_is "help" cmd then RHelp
  else if set_mem user_id (waiting st) then RHelpMessage
  else if cmd_is "bookings" cmd then RBookings
  else RUnhandled.

Inductive help_event :=
| EvText (user_id : Z) (text : string) (mid : Z)   (* a private text message *)
| EvHelpCancel (user_id chat mid : Z).             (* the [help_cancel] button *)

(** One update, as far as the help state goes: [restart_bot] replaces the
    process ([execv]), which starts again with an empty set and dict. *)
Definition help_step (admins : list Z) (st : help_state) (ev : help_event)
  : help_state * list help_effect :=
  match ev with
  | EvText u text mid =>
      match route_private_text admins st u text with
      | RHelp => help_command st u
      | RHelpMessage => handle_help_message st u text mid
      | RRestart => (mkHelpState [] [] (msg_counter st + 1), [])
      | _ => (st, [])
      end
  | EvHelpCancel u chat mid => callback_help_cancel st u chat mid
  end.

Fixpoint help_run (admins : list Z) (st : help_state) (evs : list help_event)
  : help_state * list help_effect :=
  match evs with
  | [] => (st, [])
  | ev :: evs' =>
      let (st1, e1) := help_step admins st ev in
      let (st2, e2) := help_run admins st1 evs' in
      (st2, e1 ++ e2)
  end.

Definition count_forwards (u : Z) (es : list help_effect) : nat :=
  List.length (filter (fun e => match e with HForward c _ => c =? u | _ => false end) es).
Definition count_questions (u : Z) (es : list help_effect) : nat :=
  List.length (filter (fun e => match e with HSendQuestion c _ => c =? u | _ => false end) es).

(** The [time.sleep] calls of an [execute_sql] trace, added up. *)
Definition total_sleep (t : list db_event) : Q :=
  fold_right (fun ev acc => match ev with Sleep s => Qplus s acc | _ => acc end) 0%Q t.

(** [ResourceView.action_delete(ids)] on the Resource and Booking tables:
    each selected resource [m] goes through [delete_folder] and
    [m.delete_instance(recursive=True)], which first deletes the rows whose
    non-null foreign key points at [m] (its bookings), then [m]; returns the
    tables and [count]. *)
Definition resource_action_delete (ids : list Z) (rs : list resource) (bs : list booking)
  : list resource * list booking * nat :=
  let query := filter (fun r => existsb (Z.eqb (r_id r)) ids) rs in
  fold_left (fun '(rs', bs', count) m =>
               (filter (fun r => negb (r_id r =? r_id m)) rs',
                filter (fun b => negb (b_resource b =? r_id m)) bs',
                S count))
            query (rs, bs, O).

(** Two sessions on June 3, 00:00: user 1's check-in pick of June 1,
    10:00 has no check-out and is stale; user 2's has both dates. *)
Definition now_jun3 : datetime := mkDateTime (jun 3) 0 0 0 0.
Definition stale_sessions : list (Z * session) :=
  [(1, session10); (2, set_s_check_out session10 (Some (jun 12)))].

(** User 1 has opened the calendar of [res100] and not picked a day yet. *)
Definition checkin_world : world := mkWorld [] [res100] [(1, mkSession 1 None None 2024 6 now0)] 1.

(** The check-out calendar of June 2024 after check-in June 10, nothing booked. *)
Definition checkout_kbd : list button := calendar_keyboard StageCheckOut today0 session10 [] 1 "1".

(** Four resources, the third one disabled. *)
Definition res_a : resource := mkResource 2 "A" f100 1.
Definition res_off : resource := mkResource 3 "B" f100 0.
Definition res_c : resource := mkResource 4 "C" f100 1.
Definition shelf : list resource := [res100; res_a; res_off; res_c].

Definition nav_next : kb_button := mkKbButton KGoNext "page:3:".

Definition help_st0 : help_state := mkHelpState [] [] 7.
Definition help_st_waiting : help_state := mkHelpState [5] [(5, 100)] 101.

(** User 1 has picked June 10 .. 12 of [res100]. *)
Definition confirm_world : world :=
  mkWorld [] [res100] [(1, set_s_check_out session10 (Some (jun 12)))] 1.
Definition confirm_row : booking :=
  mkBooking 1 1 1 (Some (jun 10)) (Some (jun 12)) WaitingPayment (PrimFloat.of_uint63 0%uint63).

(** A server that is gone for the first three attempts. *)
Definition gone_exc : db_exc := mkDbExc OperationalError "(2006, 'MySQL server has gone away')".
Definition env_flaky : db_env :=
  mkDbEnv (fun i => if (i <? 3)%nat then OErr gone_exc else ORows 7) (fun _ => true) (fun _ => true).
Definition flaky_trace : list db_event := retry_trace env_flaky 0 3.

(* ================================================================== *)
(** * Proofs *)

(** ** Handlers that never create a confirmed row *)

Lemma keeps_ret {A} (a : A) : keeps_confirmed (ret a).
Proof. intros w b H _; exact H. Qed.

Lemma keeps_raise {A} e : keeps_confirmed (@raise A e).
Proof. intros w b H _; exact H. Qed.

Lemma keeps_emit e : keeps_confirmed (emit e).
Proof. intros w b H _; exact H. Qed.

Lemma keeps_gets {A} (f : world -> A) : keeps_confirmed (gets f).
Proof. intros w b H _; exact H. Qed.

Lemma keeps_get_booking id : keeps_confirmed (get_booking id).
Proof. intros w b H _; unfold get_booking in H; destruct find; exact H. Qed.

Lemma keeps_get_resource id : keeps_confirmed (get_resource id).
Proof. intros w b H _; unfold get_resource in H; destruct find; exact H. Qed.

Lemma keeps_get_session uid : keeps_confirmed (get_session uid).
Proof. intros w b H _; unfold get_session in H; destruct dict_get; exact H. Qed.

Lemma keeps_put_session uid s : keeps_confirmed (put_session uid s).
Proof. intros w b H _; exact H. Qed.

Lemma keeps_modify_sessions f :
  keeps_confirmed (modify (fun w => set_sessions w (f w))).
Proof. intros w b H _; exact H. Qed.

Lemma keeps_save b : is_confirmed b = false -> keeps_confirmed (save_booking b).
Proof.
  intros Hb w x H Hx. simpl in H. apply in_map_iff in H as (y & Hy & Hin).
  destruct (b_id y =? b_id b); subst; [congruence | exact Hin].
Qed.

Lemma keeps_create tid rid ci co st :
  status_eqb st Confirmed = false -> keeps_confirmed (create_booking tid rid ci co st).
Proof.
  intros Hs w x H Hx. simpl in H. apply in_app_or in H as [H | [H | []]]; [exact H |].
  subst x. unfold is_confirmed in Hx. simpl in Hx. congruence.
Qed.

Lemma keeps_bind {A B} (m : M A) (k : A -> M B) :
  keeps_confirmed m -> (forall a, keeps_confirmed (k a)) -> keeps_confirmed (bind m k).
Proof.
  intros Hm Hk w b. unfold bind.
  destruct (m w) as [[w1 o1] [a | e]] eqn:E.
  - destruct (k a w1) as [[w2 o2] r] eqn:E2. simpl. intros H Hb.
    apply (Hm w b); [rewrite E; simpl | exact Hb].
    specialize (Hk a w1 b). rewrite E2 in Hk. simpl in Hk. exact (Hk H Hb).
  - simpl. intros H Hb. apply (Hm w b); [rewrite E; exact H | exact Hb].
Qed.

Lemma keeps_try {A} (m : M A) (h : exn -> M A) :
  keeps_confirmed m -> (forall e, keeps_confirmed (h e)) -> keeps_confirmed (try_catch m h).
Proof.
  intros Hm Hh w b. unfold try_catch.
  destruct (m w) as [[w1 o1] [a | e]] eqn:E.
  - intros H Hb. apply (Hm w b); [rewrite E; exact H | exact Hb].
  - destruct (h e w1) as [[w2 o2] r] eqn:E2. simpl. intros H Hb.
    apply (Hm w b); [rewrite E; simpl | exact Hb].
    specialize (Hh e w1 b). rewrite E2 in Hh. simpl in Hh. exact (Hh H Hb).
Qed.

Ltac keeps_tac :=
  repeat first
    [ apply keeps_bind; [| intro]
    | apply keeps_try; [| intro]
    | apply keeps_ret | apply keeps_raise | apply keeps_emit | apply keeps_gets
    | apply keeps_get_booking | apply keeps_get_resource | apply keeps_get_session
    | apply keeps_put_session | apply keeps_modify_sessions
    | apply keeps_save; reflexivity
    | apply keeps_create; reflexivity
    | match goal with
      | |- keeps_confirmed (match ?x with _ => _ end) => destruct x
      | |- keeps_confirmed (if ?x then _ else _) => destruct x
      end
    | progress cbv zeta ].

Lemma keeps_send_calendar uid page st prefix today :
  keeps_confirmed (send_calendar uid page st prefix today).
Proof. unfold send_calendar. keeps_tac. Qed.

Lemma keeps_nonpaid ev :
  (forall id total uid, ev <> EvPaid id total uid) -> keeps_confirmed (handle ev).
Proof.
  intros Hev. destruct ev; simpl.
  - unfold callback_book. keeps_tac; apply keeps_send_calendar.
  - unfold callback_change_month. keeps_tac; apply keeps_send_calendar.
  - unfold callback_datepick. keeps_tac; apply keeps_send_calendar.
  - unfold callback_confirm_booking. keeps_tac.
  - unfold handle_pre_checkout_query. keeps_tac.
  - exfalso; eapply Hev; reflexivity.
  - unfold callback_cancel_my_booking. keeps_tac.
Qed.

(** ** Pre-checkout approval and the successful-payment write *)

Lemma approves_inv id total uid w :
  approves (handle_pre_checkout_query id total uid) w = true ->
  exists b ci co,
    find (fun b => b_id b =? id) (bookings w) = Some b /\
    b_status b = WaitingPayment /\ check_in b = Some ci /\ check_out b = Some co /\
    existsb (conflict_row b ci co) (bookings w) = false.
Proof.
  unfold approves, handle_pre_checkout_query, bind, get_booking.
  destruct (find _ (bookings w)) as [b|] eqn:Hf; simpl; [| discriminate].
  destruct (b_status b) eqn:Hs; simpl; try discriminate.
  destruct (check_in b) as [ci|] eqn:Hci; [| simpl; discriminate].
  destruct (check_out b) as [co|] eqn:Hco; [| simpl; discriminate].
  simpl. destruct (existsb (conflict_row b ci co) (bookings w)) eqn:Hc; simpl.
  - discriminate.
  - intros _. exists b, ci, co. repeat split; auto.
Qed.

Lemma paid_world id total uid w b :
  find (fun b => b_id b =? id) (bookings w) = Some b -> is_confirmed b = false ->
  bookings (run_event w (EvPaid id total uid)) =
  update_rows (set_status_amount b Confirmed (paid_amount total)) (bookings w).
Proof.
  intros Hf Hc. unfold run_event, handle, handle_successful_payment, try_catch, bind, get_booking.
  rewrite Hf. simpl. unfold is_confirmed in Hc. rewrite Hc. simpl.
  unfold get_resource. simpl. destruct (find _ (resources w)); reflexivity.
Qed.

(** ** The non-overlap invariant *)

Lemma existsb_false_In {A} (f : A -> bool) l x :
  existsb f l = false -> In x l -> f x = false.
Proof.
  intros H Hx. destruct (f x) eqn:E; [| reflexivity].
  assert (existsb f l = true) by (apply existsb_exists; eauto). congruence.
Qed.

Lemma inv_keeps w w' :
  (forall b, In b (bookings w') -> is_confirmed b = true -> In b (bookings w)) ->
  booking_inv w -> booking_inv w'.
Proof.
  intros Hk [Hd Hj]. split.
  - intros b Hb Hc. exact (Hd b (Hk b Hb Hc) Hc).
  - intros b1 b2 r1 r2 H1 H2 Hid Hc1 Hc2.
    apply Hj; auto.
Qed.

Lemma conflict_row_free b ci co y ri ro :
  conflict_row b ci co y = false -> b_resource y = b_resource b -> b_id y <> b_id b ->
  is_confirmed y = true -> check_in y = Some ri -> check_out y = Some ro ->
  ranges_overlap (ci, co) (ri, ro) = false.
Proof.
  unfold conflict_row, ranges_overlap, is_confirmed. intros H Hr Hid Hc Hi Ho.
  rewrite Hr, Z.eqb_refl, Hc, Hi, Ho in H. simpl in H.
  apply Z.eqb_neq in Hid. rewrite Hid in H. simpl in H.
  simpl. rewrite andb_comm. exact H.
Qed.

Lemma ranges_overlap_comm r1 r2 : ranges_overlap r1 r2 = ranges_overlap r2 r1.
Proof. unfold ranges_overlap. apply andb_comm. Qed.

Lemma inv_paid w id total uid :
  approves (handle_pre_checkout_query id (Some total) uid) w = true ->
  booking_inv w -> booking_inv (run_event w (EvPaid id total uid)).
Proof.
  intros Ha [Hd Hj].
  destruct (approves_inv _ _ _ _ Ha) as (b & ci & co & Hf & Hs & Hci & Hco & Hnc).
  assert (Hb : is_confirmed b = false) by (unfold is_confirmed; rewrite Hs; reflexivity).
  unfold booking_inv. rewrite (paid_world id total uid w b Hf Hb). unfold update_rows.
  set (b' := set_status_amount b Confirmed (paid_amount total)).
  change (b_id b') with (b_id b).
  assert (Hr' : booking_range b' = Some (ci, co))
    by (unfold booking_range, b'; simpl; rewrite Hci, Hco; reflexivity).
  split.
  - intros x Hx Hcx. apply in_map_iff in Hx as (y & <- & Hy).
    destruct (b_id y =? b_id b).
    + exists ci, co. unfold b'. simpl. auto.
    + exact (Hd y Hy Hcx).
  - intros x1 x2 r1 r2 H1 H2 Hid Hc1 Hc2 Hres Hr1 Hr2.
    apply in_map_iff in H1 as (y1 & <- & Hy1).
    apply in_map_iff in H2 as (y2 & <- & Hy2).
    destruct (b_id y1 =? b_id b) eqn:E1, (b_id y2 =? b_id b) eqn:E2.
    + apply Z.eqb_eq in E1, E2. simpl in Hid. congruence.
    + apply Z.eqb_neq in E2.
      destruct (Hd y2 Hy2 Hc2) as (ri & ro & Hi & Ho).
      rewrite Hr' in Hr1. injection Hr1 as <-.
      unfold booking_range in Hr2. rewrite Hi, Ho in Hr2. injection Hr2 as <-.
      apply (conflict_row_free b ci co y2);
        first [exact (existsb_false_In _ _ _ Hnc Hy2)
              | (unfold b' in Hres; simpl in Hres; congruence) | assumption].
    + apply Z.eqb_neq in E1.
      destruct (Hd y1 Hy1 Hc1) as (ri & ro & Hi & Ho).
      rewrite Hr' in Hr2. injection Hr2 as <-.
      unfold booking_range in Hr1. rewrite Hi, Ho in Hr1. injection Hr1 as <-.
      rewrite ranges_overlap_comm.
      apply (conflict_row_free b ci co y1);
        first [exact (existsb_false_In _ _ _ Hnc Hy1)
              | (unfold b' in Hres; simpl in Hres; congruence) | assumption].
    + exact (Hj y1 y2 r1 r2 Hy1 Hy2 Hid Hc1 Hc2 Hres Hr1 Hr2).
Qed.

Lemma inv_serial_step w w' : serial_step w w' -> booking_inv w -> booking_inv w'.
Proof.
  intros [w0 ev Hev | w0 id total uid Ha].
  - apply inv_keeps. intros b Hb Hc. exact (keeps_nonpaid ev Hev w0 b Hb Hc).
  - apply inv_paid; exact Ha.
Qed.

Lemma inv_nil w : bookings w = [] -> booking_inv w.
Proof.
  intros H. unfold booking_inv, confirmed_dated, confirmed_disjoint. rewrite H.
  split; intros; contradiction.
Qed.

(** [C1] (as stated, refuted). The claim: in every state reached from an
    empty Booking table by handler events, the confirmed bookings of each
    resource are pairwise non-overlapping. Two users who both pass
    pre-checkout before either payment arrives both end up confirmed on
    overlapping ranges (June 10..12 and June 11..13), since
    [handle_successful_payment] confirms without re-checking. *)
Lemma C1_overlap_race :
  ~ (forall w0 evs, bookings w0 = [] -> confirmed_disjoint (bookings (run_events w0 evs))).
Proof.
  intros H.
  assert (Hnil : bookings world0 = []) by reflexivity.
  pose proof (H world0 race_events Hnil) as Hd.
  assert (Ho : ranges_overlap (jun 10, jun 12) (jun 11, jun 13) = false).
  { apply (Hd (mkBooking 1 1 1 (Some (jun 10)) (Some (jun 12)) Confirmed (paid_amount 30000))
              (mkBooking 2 2 1 (Some (jun 11)) (Some (jun 13)) Confirmed (paid_amount 30000))).
    - vm_compute. left. reflexivity.
    - vm_compute. right. left. reflexivity.
    - simpl. lia.
    - reflexivity.
    - reflexivity.
    - reflexivity.
    - reflexivity.
    - reflexivity. }
  vm_compute in Ho. discriminate.
Qed.

(** [C1] (amended). When each successful payment is handled in a state in
    which the pre-checkout handler approves that same charge (no other
    confirmation between pre-authorization and payment), every reachable
    state has, for each resource, pairwise non-overlapping confirmed
    bookings, each projected to [[check_in, check_out]]. *)
Theorem C1_serial_no_overlap w0 w :
  bookings w0 = [] -> serial_reach w0 w -> confirmed_disjoint (bookings w).
Proof.
  intros H0 Hr. enough (booking_inv w) by (destruct H; assumption).
  induction Hr as [| w w' _ IH Hs].
  - apply inv_nil; exact H0.
  - exact (inv_serial_step w w' Hs IH).
Qed.

(** ** The pre-checkout amount check *)

Lemma no_overlap_no_conflict bs b ci co :
  no_confirmed_overlap bs b ci co -> existsb (conflict_row b ci co) bs = false.
Proof.
  intros H. destruct (existsb _ bs) eqn:E; [| reflexivity].
  apply existsb_exists in E as (x & Hx & Hc).
  unfold conflict_row in Hc.
  destruct (b_resource x =? b_resource b) eqn:E1; [| discriminate].
  destruct (b_id x =? b_id b) eqn:E2; [discriminate |].
  destruct (status_eqb (b_status x) Confirmed) eqn:E3; [| discriminate].
  destruct (check_in x) as [xi|] eqn:Ei; [| discriminate].
  destruct (check_out x) as [xo|] eqn:Eo; [| simpl in Hc; rewrite andb_false_r in Hc; discriminate].
  simpl in Hc.
  assert (Ho : ranges_overlap (ci, co) (xi, xo) = false).
  { apply (H x); auto.
    - apply Z.eqb_neq; exact E2.
    - apply Z.eqb_eq; exact E1.
    - unfold booking_range. rewrite Ei, Eo. reflexivity. }
  unfold ranges_overlap in Ho. simpl in Ho. rewrite andb_comm in Ho. congruence.
Qed.

Lemma pre_checkout_approves_iff w id uid t b ci co r :
  find (fun x => b_id x =? id) (bookings w) = Some b ->
  b_status b = WaitingPayment -> check_in b = Some ci -> check_out b = Some co ->
  find (fun x => r_id x =? b_resource b) (resources w) = Some r ->
  no_confirmed_overlap (bookings w) b ci co ->
  approves (handle_pre_checkout_query id (Some t) uid) w = true <->
  match invoice_amount ci co (price r) with Some e => t = e | None => True end.
Proof.
  intros Hf Hs Hci Hco Hr Hn.
  pose proof (no_overlap_no_conflict _ _ _ _ Hn) as Hc.
  unfold approves, handle_pre_checkout_query, bind, get_booking, try_catch, get_resource.
  rewrite Hf. simpl. rewrite Hs. simpl. rewrite Hci, Hco. simpl. rewrite Hc. simpl.
  rewrite Hr. simpl.
  destruct (invoice_amount ci co (price r)) as [e|]; simpl.
  - destruct (t =? e) eqn:Et; simpl.
    + apply Z.eqb_eq in Et. split; auto.
    + apply Z.eqb_neq in Et. split; [discriminate | intro; contradiction].
  - split; auto.
Qed.

(** [C2] (as stated, refuted). The claim: for a [waiting_payment] booking
    with both dates set, of which no other confirmed booking of the
    resource overlaps, pre-checkout approves iff the total equals
    [nights_inclusive * price * 100]. For one night at the stored price
    [0.29] the handler approves [28] (the double product
    [28.999999999999996] truncated by [int()]), which is not
    [1 * 0.29 * 100]. *)
Lemma C2_float_truncation :
  ~ (forall w id uid t b ci co r,
       find (fun x => b_id x =? id) (bookings w) = Some b ->
       b_status b = WaitingPayment -> check_in b = Some ci -> check_out b = Some co ->
       find (fun x => r_id x =? b_resource b) (resources w) = Some r ->
       no_confirmed_overlap (bookings w) b ci co ->
       (approves (handle_pre_checkout_query id (Some t) uid) w = true <->
        Qeq (inject_Z t) (spec_amount ci co (price r)))).
Proof.
  intros H.
  assert (Hn : no_confirmed_overlap (bookings world029)
                 (mkBooking 1 5 2 (Some (jun 10)) (Some (jun 10)) WaitingPayment
                            (PrimFloat.of_uint63 0%uint63)) (jun 10) (jun 10)).
  { intros x rr [Hx | []] Hid. subst x. simpl in Hid. congruence. }
  pose proof (H world029 1 5 28 _ (jun 10) (jun 10) res029
                eq_refl eq_refl eq_refl eq_refl eq_refl Hn) as [H1 _].
  assert (Ha : approves (handle_pre_checkout_query 1 (Some 28) 5) world029 = true)
    by (vm_compute; reflexivity).
  specialize (H1 Ha). vm_compute in H1. discriminate.
Qed.

(** [C2] (amended). Under the same conditions, pre-checkout approves iff
    the total equals [int(float(nights_inclusive * price) * 100)] (the
    double-precision product truncated toward zero, the amount the invoice
    was issued for); when that product is not finite, any total is approved. *)
Theorem C2_pre_checkout_amount w id uid t b ci co r :
  find (fun x => b_id x =? id) (bookings w) = Some b ->
  b_status b = WaitingPayment -> check_in b = Some ci -> check_out b = Some co ->
  find (fun x => r_id x =? b_resource b) (resources w) = Some r ->
  no_confirmed_overlap (bookings w) b ci co ->
  approves (handle_pre_checkout_query id (Some t) uid) w = true <->
  match invoice_amount ci co (price r) with Some e => t = e | None => True end.
Proof. exact (pre_checkout_approves_iff w id uid t b ci co r). Qed.

(** ** The confirmation scenario *)

(** [C3] (as stated, refuted). The claim: at price 100 and dates
    2024-06-10 .. 2024-06-12 the invoice is for exactly 20000 minor
    units. The handler invoices [((12 - 10) + 1) * 100 * 100 = 30000]. *)
Lemma C3_invoice_not_20000 :
  ~ (forall chat payload amt,
       In (SendInvoice chat payload amt) (effects_of (EvConfirm 1 1 true) picked_world) ->
       amt = 20000).
Proof.
  intros H. assert (E : 30000 = 20000).
  { apply (H 1 1). vm_compute. right. right. left. reflexivity. }
  discriminate.
Qed.

(** [C3] (amended). At price 100 and dates 2024-06-10 .. 2024-06-12 the
    invoice is for 30000 minor units (the three days counted inclusively,
    times 100, times 100); after pre-checkout and the successful payment
    of that total, the booking is [confirmed] with stored amount 300. *)
Theorem C3_invoice_30000 :
  effects_of (EvConfirm 1 1 true) picked_world =
    [AnswerCallback; DbCreate (mkBooking 1 1 1 (Some (jun 10)) (Some (jun 12))
                                         WaitingPayment (PrimFloat.of_uint63 0%uint63));
     SendInvoice 1 1 30000; DeleteMessage] /\
  find (fun b => b_id b =? 1)
       (bookings (run_events picked_world
                    [EvConfirm 1 1 true; EvPreCheckout 1 (Some 30000) 1; EvPaid 1 30000 1])) =
    Some (mkBooking 1 1 1 (Some (jun 10)) (Some (jun 12)) Confirmed
                    (PrimFloat.of_uint63 300%uint63)).
Proof. split; vm_compute; reflexivity. Qed.

(** ** Saving a row *)

Lemma find_update_same bs id b b' :
  find (fun x => b_id x =? id) bs = Some b -> b_id b' = b_id b ->
  find (fun x => b_id x =? id) (update_rows b' bs) = Some b'.
Proof.
  intros Hf Hid. pose proof (find_some _ _ Hf) as [_ Hb].
  apply Z.eqb_eq in Hb.
  induction bs as [| a bs IH]; simpl in *; [discriminate |].
  destruct (b_id a =? id) eqn:Ea.
  - apply Z.eqb_eq in Ea. rewrite Hid, Hb, Ea, Z.eqb_refl. simpl.
    rewrite Hid, Hb, Z.eqb_refl. reflexivity.
  - assert (Ea' : (b_id a =? b_id b') = false) by (rewrite Hid, Hb; exact Ea).
    rewrite Ea'. simpl. rewrite Ea. exact (IH Hf).
Qed.

(** ** Successful payment is idempotent *)

(** [C4]. On a booking already [confirmed], the successful-payment handler
    only acknowledges the payer: the world (so the booking's status and
    amount) is unchanged and no manager is notified. Applied twice in a
    row to a [waiting_payment] booking (whose resource row exists, as the
    foreign key guarantees), it notifies the managers once and writes the
    amount once, and the second call changes nothing. *)
Theorem C4_successful_payment_idempotent :
  (forall w id total uid b,
     find (fun x => b_id x =? id) (bookings w) = Some b -> b_status b = Confirmed ->
     handle_successful_payment id total uid w = (w, [SendMessage uid "already_confirmed"], Ok tt))
  /\
  (forall w id t1 t2 uid b r,
     find (fun x => b_id x =? id) (bookings w) = Some b -> b_status b = WaitingPayment ->
     find (fun x => r_id x =? b_resource b) (resources w) = Some r ->
     let w1 := run_event w (EvPaid id t1 uid) in
     let es := effects_of (EvPaid id t1 uid) w ++ effects_of (EvPaid id t2 uid) w1 in
     count_manager_msgs es = 1%nat /\ count_saves es = 1%nat /\
     run_event w1 (EvPaid id t2 uid) = w1).
Proof.
  split.
  - intros w id total uid b Hf Hs.
    unfold handle_successful_payment, try_catch, bind, get_booking.
    rewrite Hf. simpl. rewrite Hs. reflexivity.
  - intros w id t1 t2 uid b r Hf Hs Hr. cbv zeta.
    set (b' := set_status_amount b Confirmed (paid_amount t1)).
    assert (H1 : handle_successful_payment id t1 uid w =
                 (set_bookings w (update_rows b' (bookings w)),
                  [DbSave b'; SendManagers BookingCompleted b'; SendMessage uid "success_booking"],
                  Ok tt)).
    { unfold handle_successful_payment, try_catch, bind, get_booking.
      rewrite Hf. simpl. rewrite Hs. simpl. unfold get_resource. simpl. rewrite Hr.
      reflexivity. }
    assert (Hf' : find (fun x => b_id x =? id) (update_rows b' (bookings w)) = Some b')
      by (apply find_update_same with (b := b); [exact Hf | reflexivity]).
    assert (H2 : handle_successful_payment id t2 uid (set_bookings w (update_rows b' (bookings w)))
                 = (set_bookings w (update_rows b' (bookings w)),
                    [SendMessage uid "already_confirmed"], Ok tt)).
    { unfold handle_successful_payment, try_catch, bind, get_booking. simpl.
      rewrite Hf'. reflexivity. }
    unfold run_event, effects_of, handle. rewrite H1. simpl. rewrite H2. simpl.
    repeat split.
Qed.

(** ** Pre-checkout rejections *)

(** [C7] (as stated, refuted). The claim: an amount-mismatch rejection
    leaves the booking in a terminal status, not [waiting_payment]. A total
    of 1 for the June 10..12 booking at price 100 is refused, and the row
    is still [waiting_payment]. *)
Lemma C7_mismatch_keeps_waiting :
  ~ (forall w id t uid b ci co r e,
       find (fun x => b_id x =? id) (bookings w) = Some b ->
       b_status b = WaitingPayment -> check_in b = Some ci -> check_out b = Some co ->
       existsb (conflict_row b ci co) (bookings w) = false ->
       find (fun x => r_id x =? b_resource b) (resources w) = Some r ->
       invoice_amount ci co (price r) = Some e -> t <> e ->
       exists b', find (fun x => b_id x =? id) (bookings (run_event w (EvPreCheckout id (Some t) uid))) = Some b'
                  /\ b_status b' <> WaitingPayment).
Proof.
  intros H.
  destruct (H waiting_world 1 1 1 _ (jun 10) (jun 12) res100 30000
              eq_refl eq_refl eq_refl eq_refl eq_refl eq_refl)
    as (b' & Hf & Hs).
  - vm_compute. reflexivity.
  - discriminate.
  - vm_compute in Hf. injection Hf as <-. apply Hs. reflexivity.
Qed.

(** [C7] (amended). A pre-checkout on a [waiting_payment] booking
    (a) with a date missing refuses the charge and marks the row [failed];
    (b) with a conflicting confirmed booking refuses it and marks the row
    [conflict]; (c) with an amount mismatch refuses it and changes nothing,
    the row staying [waiting_payment]. *)
Theorem C7_pre_checkout_rejections w id total uid b :
  find (fun x => b_id x =? id) (bookings w) = Some b -> b_status b = WaitingPayment ->
  let w' := run_event w (EvPreCheckout id total uid) in
  let es := effects_of (EvPreCheckout id total uid) w in
  ((check_in b = None \/ check_out b = None) ->
     In (AnswerPreCheckout false "pre_checkout_error_3") es /\
     find (fun x => b_id x =? id) (bookings w') = Some (set_status b Failed)) /\
  (forall ci co, check_in b = Some ci -> check_out b = Some co ->
     existsb (conflict_row b ci co) (bookings w) = true ->
     In (AnswerPreCheckout false "pre_checkout_error_4") es /\
     find (fun x => b_id x =? id) (bookings w') = Some (set_status b Conflict)) /\
  (forall ci co t r e, check_in b = Some ci -> check_out b = Some co ->
     existsb (conflict_row b ci co) (bookings w) = false -> total = Some t ->
     find (fun x => r_id x =? b_resource b) (resources w) = Some r ->
     invoice_amount ci co (price r) = Some e -> t <> e ->
     es = [AnswerPreCheckout false "amount_error"] /\ w' = w).
Proof.
  intros Hf Hs. cbv zeta.
  unfold run_event, effects_of, handle, handle_pre_checkout_query, bind, get_booking.
  rewrite Hf. simpl. rewrite Hs. simpl.
  split; [intros H | split; [intros ci co Hci Hco Hc | intros ci co t r e Hci Hco Hc Ht Hr Hi Hne]].
  - destruct H as [H | H].
    + rewrite H. simpl. split; [auto |]. apply find_update_same with (b := b); auto.
    + destruct (check_in b); try rewrite H; simpl; (split; [auto |]);
        apply find_update_same with (b := b); auto.
  - rewrite Hci, Hco. simpl. rewrite Hc. simpl. split; [auto |].
    apply find_update_same with (b := b); auto.
  - rewrite Hci, Hco. simpl. rewrite Hc. simpl.
    subst total. unfold try_catch, get_resource. simpl. rewrite Hr. simpl. rewrite Hi. simpl.
    apply Z.eqb_neq in Hne. rewrite Hne. split; reflexivity.
Qed.

(** ** Status transitions *)

Lemma status_eqb_eq a b : status_eqb a b = true -> a = b.
Proof. destruct a, b; simpl; congruence. Qed.

Lemma keeps_rows_bind {A B} (m : M A) (k : A -> M B) :
  keeps_rows m -> (forall a, keeps_rows (k a)) -> keeps_rows (bind m k).
Proof.
  intros Hm Hk w. unfold bind. specialize (Hm w).
  destruct (m w) as [[w1 o1] [a | e]]; simpl in *; [| exact Hm].
  specialize (Hk a w1). destruct (k a w1) as [[w2 o2] r]. simpl in *. congruence.
Qed.

Ltac rows_tac :=
  repeat first
    [ apply keeps_rows_bind; [| intro]
    | progress (intros ?w; reflexivity)
    | intros ?w; unfold get_session; destruct dict_get; reflexivity
    | intros ?w; unfold get_resource; destruct find; reflexivity
    | match goal with
      | |- keeps_rows (match ?x with _ => _ end) => destruct x
      | |- keeps_rows (if ?x then _ else _) => destruct x
      end ].

Lemma keeps_rows_send_calendar uid page st prefix today :
  keeps_rows (send_calendar uid page st prefix today).
Proof. unfold send_calendar. rows_tac. Qed.

Lemma row_change_same w w' : bookings w' = bookings w -> row_change w (bookings w').
Proof. intros H. left. exact H. Qed.

Lemma row_change_save w b s a :
  find (fun x => b_id x =? b_id b) (bookings w) = Some b -> status_step (b_status b) s ->
  row_change w (update_rows (set_status_amount b s a) (bookings w)).
Proof. intros Hf Hs. right. left. exists b, s, a. auto. Qed.

Lemma find_id_some bs id b :
  find (fun x => b_id x =? id) bs = Some b ->
  find (fun x => b_id x =? b_id b) bs = Some b /\ b_id b = id.
Proof.
  intros Hf. pose proof (find_some _ _ Hf) as [_ Hb]. apply Z.eqb_eq in Hb.
  subst id. auto.
Qed.

Lemma row_change_pre w id total uid :
  row_change w (bookings (run_event w (EvPreCheckout id total uid))).
Proof.
  unfold run_event, handle, handle_pre_checkout_query, bind, get_booking.
  destruct (find _ (bookings w)) as [b|] eqn:Hf; simpl; [| left; reflexivity].
  apply find_id_some in Hf as [Hf _].
  destruct (status_eqb (b_status b) WaitingPayment) eqn:Hs; simpl; [| left; reflexivity].
  apply status_eqb_eq in Hs.
  assert (HF : row_change w (update_rows (set_status_amount b Failed (amount b)) (bookings w)))
    by (apply row_change_save; [exact Hf | right; left; auto]).
  destruct (check_in b) as [ci|], (check_out b) as [co|]; simpl; try exact HF.
  destruct (existsb _ _); simpl.
  - apply row_change_save; [exact Hf | right; left; auto].
  - left. unfold try_catch. destruct total as [t|]; simpl; [| reflexivity].
    unfold get_resource. destruct (find _ (resources w)) as [r|]; simpl.
    + destruct (invoice_amount ci co (price r)); simpl; [destruct (negb _) |]; reflexivity.
    + reflexivity.
Qed.

Lemma row_change_paid w id total uid :
  row_change w (bookings (run_event w (EvPaid id total uid))).
Proof.
  unfold run_event, handle, handle_successful_payment, try_catch, bind, get_booking.
  destruct (find _ (bookings w)) as [b|] eqn:Hf; simpl; [| left; reflexivity].
  apply find_id_some in Hf as [Hf _].
  destruct (status_eqb (b_status b) Confirmed) eqn:Hs; simpl; [left; reflexivity |].
  unfold get_resource. simpl.
  assert (HC : row_change w (update_rows (set_status_amount b Confirmed (paid_amount total))
                                         (bookings w))).
  { apply row_change_save; [exact Hf |]. right. right. left. split; [| reflexivity].
    intros E. rewrite E in Hs. discriminate. }
  destruct (find _ (resources w)); exact HC.
Qed.

Lemma row_change_cancel w id uid today :
  row_change w (bookings (run_event w (EvCancel id uid today))).
Proof.
  unfold run_event, handle, callback_cancel_my_booking, bind, get_booking, emit.
  simpl. destruct (find _ (bookings w)) as [b|] eqn:Hf; simpl; [| left; reflexivity].
  apply find_id_some in Hf as [Hf _].
  destruct (check_in b) as [ci|]; simpl; [| left; reflexivity].
  destruct (date_le ci today); simpl; [left; reflexivity |].
  unfold get_resource. simpl.
  assert (HC : row_change w (update_rows (set_status_amount b Cancelled (amount b)) (bookings w)))
    by (apply row_change_save; [exact Hf | right; right; right; reflexivity]).
  destruct (find _ (resources w)); exact HC.
Qed.

Lemma row_change_confirm w uid chat ok :
  row_change w (bookings (run_event w (EvConfirm uid chat ok))).
Proof.
  destruct w as [bs rs ss nid].
  unfold run_event, handle, callback_confirm_booking, bind, emit, gets.
  simpl. destruct (has_session _ uid); simpl;
  (destruct (dict_get Z.eqb ss uid) as [s|]; simpl; [| left; reflexivity]);
  (destruct (s_check_in s) as [ci|]; simpl; [| left; reflexivity]);
  (destruct (s_check_out s) as [co|]; simpl; [| left; reflexivity]);
  unfold get_resource; (match goal with |- context [find ?f ?l] => destruct (find f l) as [r|] end;
   simpl; [| left; reflexivity]);
  right; right;
  exists (mkBooking nid chat (r_id r) (Some ci) (Some co) WaitingPayment
                    (PrimFloat.of_uint63 0%uint63));
  (split; [reflexivity | split; [reflexivity |]]);
  (destruct (invoice_amount ci co (price r)); simpl; [| left; reflexivity]);
  unfold try_catch; (destruct ok; simpl; [left | right]; reflexivity).
Qed.

Lemma row_change_event w ev : row_change w (bookings (run_event w ev)).
Proof.
  destruct ev.
  - apply row_change_same. unfold run_event, handle, callback_book.
    apply (keeps_rows_bind _ _); [intros ?; reflexivity | intros []].
    apply (keeps_rows_bind _ _); [intros ?; reflexivity | intros []].
    apply keeps_rows_send_calendar.
  - apply row_change_same. unfold run_event, handle, callback_change_month.
    revert w. rows_tac; apply keeps_rows_send_calendar.
  - apply row_change_same. unfold run_event, handle, callback_datepick.
    revert w. rows_tac; apply keeps_rows_send_calendar.
  - apply row_change_confirm.
  - apply row_change_pre.
  - apply row_change_paid.
  - apply row_change_cancel.
Qed.

Lemma date_compare_antisym a b : date_compare b a = CompOpp (date_compare a b).
Proof.
  unfold date_compare.
  replace (year b ?= year a) with (CompOpp (year a ?= year b))
    by (symmetry; apply Z.compare_antisym).
  replace (month b ?= month a) with (CompOpp (month a ?= month b))
    by (symmetry; apply Z.compare_antisym).
  replace (day b ?= day a) with (CompOpp (day a ?= day b))
    by (symmetry; apply Z.compare_antisym).
  destruct (year a ?= year b), (month a ?= month b), (day a ?= day b); reflexivity.
Qed.

Lemma date_lt_not_le a b : date_lt a b = true -> date_le b a = false.
Proof.
  unfold date_lt, date_le. rewrite (date_compare_antisym a b).
  destruct (date_compare a b); simpl; congruence.
Qed.

Lemma in_update_rows x c l : In x (update_rows c l) -> x = c \/ In x l.
Proof.
  unfold update_rows. intros Hx. apply in_map_iff in Hx as [r [Er Hr]].
  destruct (b_id r =? b_id c); subst; auto.
Qed.

Lemma find_update_other bs i c :
  b_id c <> i ->
  find (fun x => b_id x =? i) (update_rows c bs) = find (fun x => b_id x =? i) bs.
Proof.
  intros Hc. induction bs as [| r bs IH]; simpl; [reflexivity |].
  destruct (b_id r =? b_id c) eqn:E; simpl.
  - apply Z.eqb_eq in E. rewrite E.
    assert (E' : (b_id c =? i) = false) by (apply Z.eqb_neq; exact Hc).
    rewrite E'. exact IH.
  - destruct (b_id r =? i); [reflexivity | exact IH].
Qed.

Lemma find_app_some {A} (f : A -> bool) l l' x :
  find f l = Some x -> find f (l ++ l') = Some x.
Proof.
  induction l as [| a l IH]; simpl; [discriminate |].
  destruct (f a); auto.
Qed.

Lemma find_none_false {A} (f : A -> bool) l x : find f l = None -> In x l -> f x = false.
Proof.
  intros Hf Hx. destruct (f x) eqn:E; [| reflexivity].
  exfalso. induction l as [| a l IH]; simpl in *; [contradiction |].
  destruct (f a) eqn:Ea; [discriminate |].
  destruct Hx as [-> | Hx]; [congruence | auto].
Qed.

(** ** C8: status transitions *)

(** C8 (counterexample): the cancellation handler does not look at the
    status.  In [waiting_world] booking 1 is [waiting_payment] with
    check-in 2024-06-10; cancelling it on 2024-06-01 stores it as
    [cancelled], so "cancelled is only set on a confirmed booking" fails. *)
Lemma C8_cancel_waiting :
  ~ (forall w id uid today b b',
       find (fun x => b_id x =? id) (bookings w) = Some b ->
       find (fun x => b_id x =? id) (bookings (run_event w (EvCancel id uid today))) = Some b' ->
       b_status b' = Cancelled -> b_status b = Confirmed).
Proof.
  intros H.
  assert (X := H waiting_world 1 1 today0). vm_compute in X.
  specialize (X _ _ eq_refl eq_refl eq_refl). discriminate X.
Qed.

(** C8 (amended): over every handler event,
    (1) an existing row keeps its id, owner, resource and dates and its
        status moves along [status_step]: unchanged, waiting_payment to
        failed or conflict, any non-confirmed status to confirmed, or any
        status to cancelled;
    (2) a row that did not exist before is created waiting_payment or, when
        the invoice fails, failed;
    (3) cancellation of a booking with check-in strictly after today sets it
        cancelled whatever its status, and a cancellation with check-in today
        or earlier leaves the whole state unchanged. *)
Theorem C8_status_transitions :
  (forall w ev i b,
     (forall x, In x (bookings w) -> b_id x < next_id w) ->
     find (fun x => b_id x =? i) (bookings w) = Some b ->
     exists b', find (fun x => b_id x =? i) (bookings (run_event w ev)) = Some b' /\
       status_step (b_status b) (b_status b') /\
       b_id b' = b_id b /\ telegram_id b' = telegram_id b /\
       b_resource b' = b_resource b /\ check_in b' = check_in b /\
       check_out b' = check_out b) /\
  (forall w ev i b',
     find (fun x => b_id x =? i) (bookings w) = None ->
     find (fun x => b_id x =? i) (bookings (run_event w ev)) = Some b' ->
     b_status b' = WaitingPayment \/ b_status b' = Failed) /\
  (forall w id uid today b ci,
     find (fun x => b_id x =? id) (bookings w) = Some b -> check_in b = Some ci ->
     (date_lt today ci = true ->
        find (fun x => b_id x =? id) (bookings (run_event w (EvCancel id uid today)))
        = Some (set_status b Cancelled)) /\
     (date_le ci today = true -> run_event w (EvCancel id uid today) = w)).
Proof.
  split; [| split].
  - intros w ev i b Hfresh Hf.
    pose proof (find_some _ _ Hf) as [Hin Hid]. apply Z.eqb_eq in Hid.
    destruct (row_change_event w ev) as [E | [[b0 [s [a [Hf0 [Hs E]]]]] | [nb [Hnb [Hst [E | E]]]]]];
      rewrite E.
    + exists b. repeat split; auto. left. reflexivity.
    + destruct (Z.eq_dec (b_id b0) i) as [Ei | Ei].
      * rewrite Ei in Hf0. rewrite Hf0 in Hf. injection Hf as <-.
        exists (set_status_amount b0 s a).
        split; [apply (find_update_same _ _ b0); [exact Hf0 | reflexivity] |].
        repeat split; auto.
      * rewrite find_update_other by exact Ei. exists b. repeat split; auto. left. reflexivity.
    + exists b. split; [apply find_app_some; exact Hf |]. repeat split; auto. left. reflexivity.
    + assert (Ne : b_id (set_status nb Failed) <> i).
      { simpl. rewrite Hnb, <- Hid. specialize (Hfresh b Hin). lia. }
      rewrite find_update_other by exact Ne.
      exists b. split; [apply find_app_some; exact Hf |]. repeat split; auto. left. reflexivity.
  - intros w ev i b' Hnone Hf.
    pose proof (find_some _ _ Hf) as [Hin Hid].
    assert (Old : forall x, In x (bookings w) -> (b_id x =? i) = false)
      by (intros x Hx; exact (find_none_false _ _ _ Hnone Hx)).
    destruct (row_change_event w ev) as [E | [[b0 [s [a [Hf0 [Hs E]]]]] | [nb [Hnb [Hst [E | E]]]]]];
      rewrite E in Hin.
    + rewrite (Old _ Hin) in Hid. discriminate.
    + apply in_update_rows in Hin as [-> | Hin].
      * pose proof (find_some _ _ Hf0) as [Hin0 _].
        simpl in Hid. rewrite (Old _ Hin0) in Hid. discriminate.
      * rewrite (Old _ Hin) in Hid. discriminate.
    + apply in_app_or in Hin as [Hin | [<- | []]]; [| left; exact Hst].
      rewrite (Old _ Hin) in Hid. discriminate.
    + apply in_update_rows in Hin as [-> | Hin]; [right; reflexivity |].
      apply in_app_or in Hin as [Hin | [<- | []]]; [| left; exact Hst].
      rewrite (Old _ Hin) in Hid. discriminate.
  - intros w id uid today b ci Hf Hci. split.
    + intros Hlt. apply date_lt_not_le in Hlt.
      unfold run_event, handle, callback_cancel_my_booking, bind, emit, get_booking.
      simpl. rewrite Hf. simpl. rewrite Hci, Hlt. unfold get_resource. simpl.
      destruct (find _ (resources w)); simpl;
        apply (find_update_same _ _ b); (exact Hf || reflexivity).
    + intros Hle.
      unfold run_event, handle, callback_cancel_my_booking, bind, emit, get_booking.
      simpl. rewrite Hf. simpl. rewrite Hci, Hle. reflexivity.
Qed.

(** ** C5: calendar cells of the viewer's own days *)

Lemma get_day_status_hit d booked uid t s e :
  In (t, s, e) booked -> date_le s d && date_le d e = true ->
  get_day_status d booked uid <> Free.
Proof.
  induction booked as [| [[t' s'] e'] bs IH]; simpl; [contradiction |].
  intros [Eq | Hin] Hd.
  - injection Eq as -> -> ->. rewrite Hd. destruct (t =? uid); discriminate.
  - destruct (date_le s' d && date_le d e'); [destruct (t' =? uid); discriminate |].
    exact (IH Hin Hd).
Qed.

Lemma get_day_status_only_mine d booked uid :
  (forall t s e, In (t, s, e) booked -> date_le s d && date_le d e = true -> t = uid) ->
  get_day_status d booked uid = Mine \/ get_day_status d booked uid = Free.
Proof.
  induction booked as [| [[t s] e] bs IH]; simpl; intros Hall; [right; reflexivity |].
  destruct (date_le s d && date_le d e) eqn:Hd.
  - rewrite (Hall t s e (or_introl eq_refl) Hd), Z.eqb_refl. left. reflexivity.
  - apply IH. intros t' s' e' Hin. exact (Hall t' s' e' (or_intror Hin)).
Qed.

(** C5 (counterexample): [get_day_status] answers with the first booked
    range that contains the day.  After [race_events] both users hold a
    confirmed booking of resource 1 (user 1 on 2024-06-10..12, user 2 on
    2024-06-11..13, in this table order); when user 2 renders the calendar,
    2024-06-11 lies in user 2's own range but the cell is [others]. *)
Lemma C5_first_match_others :
  ~ (forall w st md today uid page d t s e,
       let booked := get_booked_ranges_for_resource today 1 (bookings w) in
       In (t, s, e) booked -> t = uid -> date_lt d today = false ->
       date_le s d && date_le d e = true ->
       btn_label (day_cell st md today booked uid page d) = LMine).
Proof.
  intros H.
  specialize (H (run_events world0 race_events) StageCheckIn today0 today0
                2 "1"%string (jun 11) 2 (jun 11) (jun 13)).
  vm_compute in H. discriminate (H (or_intror (or_introl eq_refl)) eq_refl eq_refl eq_refl).
Qed.

(** C5 (amended): in either stage and for any minimum date, a day not
    before today inside a booked range of the viewer is rendered without a
    date action, as [mine] or [others]; it is [mine] whenever every booked
    range containing it belongs to the viewer. *)
Theorem C5_viewer_day_not_selectable st md today booked uid page d s e :
  In (uid, s, e) booked -> date_lt d today = false ->
  date_le s d && date_le d e = true ->
  btn_cb (day_cell st md today booked uid page d) = CbNull /\
  (btn_label (day_cell st md today booked uid page d) = LMine \/
   btn_label (day_cell st md today booked uid page d) = LOthers) /\
  ((forall t' s' e', In (t', s', e') booked -> date_le s' d && date_le d e' = true -> t' = uid) ->
   btn_label (day_cell st md today booked uid page d) = LMine).
Proof.
  intros Hin Hpast Hd. unfold day_cell. rewrite Hpast.
  pose proof (get_day_status_hit d booked uid _ _ _ Hin Hd) as Hnf.
  split; [| split].
  - destruct (get_day_status d booked uid); [reflexivity | reflexivity | contradiction].
  - destruct (get_day_status d booked uid); [left | right | contradiction]; reflexivity.
  - intros Hall. destruct (get_day_status_only_mine d booked uid Hall) as [-> | E].
    + reflexivity.
    + contradiction.
Qed.

(** ** C6: overlap re-validation at check-out selection *)

Lemma dict_get_set_same {V} (l : list (Z * V)) k v :
  dict_get Z.eqb (dict_set Z.eqb l k v) k = Some v.
Proof.
  induction l as [| [k' v'] l IH]; simpl.
  - rewrite Z.eqb_refl. reflexivity.
  - destruct (k' =? k) eqn:E; simpl; rewrite E; [reflexivity | exact IH].
Qed.

Lemma send_calendar_world uid page st prefix today w :
  fst (fst (send_calendar uid page st prefix today w)) = w.
Proof.
  unfold send_calendar, bind, gets, emit, ret, raise, get_session.
  destruct (has_session w uid); simpl;
    (destruct (dict_get Z.eqb (user_booking_state w) uid); simpl; [| reflexivity]);
    (destruct (negb _); [reflexivity |]);
    (repeat match goal with
            | |- context [prev_month_dt ?y ?m] => destruct (prev_month_dt y m)
            | |- context [next_month_dt ?y ?m] => destruct (next_month_dt y m)
            end; reflexivity).
Qed.

Lemma prev_month_dt_some y m :
  1 <= y <= 9999 -> 1 <= m <= 12 -> (y, m) <> (1, 1) -> prev_month_dt y m = Some (prev_month y m).
Proof.
  intros Hy Hm Hne. unfold prev_month_dt, prev_month.
  destruct (Z.eqb_spec m 1) as [->|Hm1].
  - assert (y <> 1) by (intros ->; apply Hne; reflexivity).
    replace (1 <=? y - 1) with true by (symmetry; apply Z.leb_le; lia). reflexivity.
  - replace (1 <=? y) with true by (symmetry; apply Z.leb_le; lia). reflexivity.
Qed.

Lemma next_month_dt_some y m :
  1 <= y <= 9999 -> 1 <= m <= 12 -> (y, m) <> (9999, 12) -> next_month_dt y m = Some (next_month y m).
Proof.
  intros Hy Hm Hne. unfold next_month_dt, next_month.
  destruct (Z.eqb_spec m 12) as [->|Hm1].
  - assert (y <> 9999) by (intros ->; apply Hne; reflexivity).
    replace (y + 1 <=? 9999) with true by (symmetry; apply Z.leb_le; lia). reflexivity.
  - replace (y <=? 9999) with true by (symmetry; apply Z.leb_le; lia). reflexivity.
Qed.

Lemma send_calendar_valid uid page st prefix today w s :
  dict_get Z.eqb (user_booking_state w) uid = Some s ->
  1 <= calendar_month s <= 12 -> 1 <= calendar_year s <= 9999 ->
  (calendar_year s, calendar_month s) <> (1, 1) ->
  (calendar_year s, calendar_month s) <> (9999, 12) ->
  send_calendar uid page st prefix today w =
  (w, [EditCalendar st prefix
         (calendar_keyboard st today s
            (get_booked_ranges_for_resource today (res_id s) (bookings w)) uid page)], Ok tt).
Proof.
  intros Hs Hm Hy Hp Hn.
  assert (V : (1 <=? calendar_month s) && (calendar_month s <=? 12) &&
              (1 <=? calendar_year s) && (calendar_year s <=? 9999) = true).
  { repeat rewrite andb_true_iff. rewrite !Z.leb_le. lia. }
  unfold send_calendar, bind, gets, emit, ret, raise, get_session, has_session.
  rewrite Hs. cbv beta iota zeta. rewrite Hs. cbv beta iota zeta. rewrite V.
  rewrite (prev_month_dt_some _ _ Hy Hm Hp), (next_month_dt_some _ _ Hy Hm Hn). reflexivity.
Qed.

Lemma send_calendar_edge uid page st prefix today w s :
  dict_get Z.eqb (user_booking_state w) uid = Some s ->
  (calendar_year s, calendar_month s) = (1, 1) \/ (calendar_year s, calendar_month s) = (9999, 12) ->
  send_calendar uid page st prefix today w = (w, [], Exc OverflowError).
Proof.
  intros Hs Hedge.
  unfold send_calendar, bind, gets, emit, ret, raise, get_session, has_session.
  rewrite Hs. cbv beta iota zeta. rewrite Hs. cbv beta iota zeta.
  destruct Hedge as [E | E]; injection E as Ey Em; rewrite Ey, Em; reflexivity.
Qed.

Lemma first_overlap_none ci d rs :
  first_overlap ci d rs = None <->
  (forall s e, In (Some s, Some e) rs -> date_le ci e && date_le s d = false).
Proof.
  induction rs as [| [[s0|] [e0|]] rs IH]; simpl.
  - split; [intros _ s e [] | reflexivity].
  - destruct (date_le ci e0 && date_le s0 d) eqn:E.
    + split; [discriminate |]. intros H. rewrite (H s0 e0 (or_introl eq_refl)) in E. discriminate.
    + rewrite IH. split.
      * intros H s e [Eq | Hin]; [injection Eq as <- <-; exact E | exact (H s e Hin)].
      * intros H s e Hin. exact (H s e (or_intror Hin)).
  - rewrite IH. split.
    + intros H s e [Eq | Hin]; [discriminate | exact (H s e Hin)].
    + intros H s e Hin. exact (H s e (or_intror Hin)).
  - rewrite IH. split.
    + intros H s e [Eq | Hin]; [discriminate | exact (H s e Hin)].
    + intros H s e Hin. exact (H s e (or_intror Hin)).
  - rewrite IH. split.
    + intros H s e [Eq | Hin]; [discriminate | exact (H s e Hin)].
    + intros H s e Hin. exact (H s e (or_intror Hin)).
Qed.

Lemma in_confirmed_ranges rid bs s e :
  In (Some s, Some e) (confirmed_ranges rid bs) <->
  exists b, In b bs /\ b_resource b = rid /\ b_status b = Confirmed /\
            check_in b = Some s /\ check_out b = Some e.
Proof.
  unfold confirmed_ranges. rewrite in_map_iff. split.
  - intros [b [Eq Hb]]. apply filter_In in Hb as [Hb Hc].
    apply andb_prop in Hc as [Hr Hs]. apply Z.eqb_eq in Hr. apply status_eqb_eq in Hs.
    injection Eq as Hci Hco. exists b. auto.
  - intros [b [Hb [Hr [Hs [Hci Hco]]]]]. exists b. rewrite Hci, Hco. split; [reflexivity |].
    apply filter_In. split; [exact Hb |]. rewrite Hr, Hs, Z.eqb_refl. reflexivity.
Qed.

Lemma first_overlap_some ci d rs s e :
  first_overlap ci d rs = Some (s, e) ->
  In (Some s, Some e) rs /\ date_le ci e && date_le s d = true.
Proof.
  induction rs as [| [[s0|] [e0|]] rs IH]; simpl; try discriminate;
    try (intros H; destruct (IH H); auto; fail).
  destruct (date_le ci e0 && date_le s0 d) eqn:E.
  - intros Eq. injection Eq as <- <-. auto.
  - intros H. destruct (IH H). auto.
Qed.

(** The overlap condition the code tests. *)
Lemma first_overlap_some_iff ci d rid bs :
  (exists r, first_overlap ci d (confirmed_ranges rid bs) = Some r) <->
  (exists b s e, In b bs /\ b_resource b = rid /\ b_status b = Confirmed /\
                 check_in b = Some s /\ check_out b = Some e /\
                 date_le ci e && date_le s d = true).
Proof.
  split.
  - intros [[s e] Hr]. apply first_overlap_some in Hr as [Hin C].
    apply in_confirmed_ranges in Hin as [b [Hb [Hr' [Hs' [Hci Hco]]]]].
    exists b, s, e. auto 7.
  - intros [b [s [e [Hb [Hr [Hs [Hci [Hco C]]]]]]]].
    destruct (first_overlap ci d (confirmed_ranges rid bs)) as [r|] eqn:E; [exists r; reflexivity |].
    rewrite first_overlap_none in E.
    rewrite (E s e) in C; [discriminate |].
    apply in_confirmed_ranges. exists b. auto.
Qed.

Lemma datepick_checkout_run w uid d page today s ci :
  dict_get Z.eqb (user_booking_state w) uid = Some s -> s_check_in s = Some ci ->
  date_lt ci d = true ->
  handle (EvDatepick uid StageCheckOut d page today) w =
  match first_overlap ci d (confirmed_ranges (res_id s) (bookings w)) with
  | Some _ =>
      let '(w2, o, r) := send_calendar uid page StageCheckIn "overlaps_error" today
                           (set_sessions w (dict_set Z.eqb (user_booking_state w) uid
                                                     (set_s_check_in s None))) in
      (w2, AnswerCallback :: o, r)
  | None =>
      let w1 := set_sessions w (dict_set Z.eqb (user_booking_state w) uid
                                         (set_s_check_out s (Some d))) in
      match get_resource (res_id s) w1 with
      | (w2, _, Ok r) => (w2, [AnswerCallback; ShowSummary (location r) ci d], Ok tt)
      | (w2, _, Exc e) => (w2, [AnswerCallback], Exc e)
      end
  end.
Proof.
  intros Hs Hci Hlt. apply date_lt_not_le in Hlt.
  unfold handle, callback_datepick, bind, emit, get_session, gets, put_session, modify.
  simpl. rewrite Hs. simpl. rewrite Hci, Hlt. simpl.
  destruct (first_overlap ci d (confirmed_ranges (res_id s) (bookings w))).
  - destruct (send_calendar _ _ _ _ _ _) as [[w2 o] r]. reflexivity.
  - unfold get_resource. simpl.
    destruct (find _ (resources w)); reflexivity.
Qed.

(** C6 (counterexample): in [open_end_world] a confirmed booking starts on
    2024-06-11 and has no check-out.  As a single-day range it meets
    [2024-06-10 <= 2024-06-11] and [2024-06-12 >= 2024-06-11], so by the
    spec choosing check-out 2024-06-12 must fail; the loop skips the row
    ([not e]) and stores the check-out. *)
Lemma C6_open_end_accepted :
  ~ (forall w uid d page today s ci,
       dict_get Z.eqb (user_booking_state w) uid = Some s -> s_check_in s = Some ci ->
       date_lt ci d = true ->
       datepick_conflict_spec (res_id s) ci d (bookings w) = true ->
       dict_get Z.eqb (user_booking_state (run_event w (EvDatepick uid StageCheckOut d page today)))
                uid = Some (set_s_check_in s None)).
Proof.
  intros H.
  specialize (H open_end_world 1 (jun 12) "1"%string today0
                (mkSession 1 (Some (jun 10)) None 2024 6 now0) (jun 10)).
  vm_compute in H. discriminate (H eq_refl eq_refl eq_refl eq_refl).
Qed.

(** C6 (amended): for a check-out pick [d] strictly after the session's
    check-in [ci], the Booking table is untouched, and the pick fails
    exactly when some confirmed booking of the resource with BOTH dates set
    satisfies [ci <= e] and [d >= s].  On failure the session's check-in
    becomes null (its check-out is left as it was); for a valid calendar
    month other than 0001-01 and 9999-12 the reply is the check-in calendar
    with the overlap warning, while at those two months [send_calendar]
    raises [OverflowError] after the callback is answered and no calendar
    is drawn; otherwise the session stores check-out [d]. *)
Theorem C6_datepick_overlap w uid d page today s ci :
  dict_get Z.eqb (user_booking_state w) uid = Some s -> s_check_in s = Some ci ->
  date_lt ci d = true ->
  let ev := EvDatepick uid StageCheckOut d page today in
  let overlap := exists b bs be, In b (bookings w) /\ b_resource b = res_id s /\
                   b_status b = Confirmed /\ check_in b = Some bs /\ check_out b = Some be /\
                   date_le ci be && date_le bs d = true in
  bookings (run_event w ev) = bookings w /\
  (overlap ->
     dict_get Z.eqb (user_booking_state (run_event w ev)) uid = Some (set_s_check_in s None) /\
     (1 <= calendar_month s <= 12 -> 1 <= calendar_year s <= 9999 ->
      (calendar_year s, calendar_month s) <> (1, 1) ->
      (calendar_year s, calendar_month s) <> (9999, 12) ->
      exists kbd, effects_of ev w = [AnswerCallback; EditCalendar StageCheckIn "overlaps_error" kbd]) /\
     ((calendar_year s, calendar_month s) = (1, 1) \/ (calendar_year s, calendar_month s) = (9999, 12) ->
      effects_of ev w = [AnswerCallback] /\ snd (handle ev w) = Exc OverflowError)) /\
  (~ overlap ->
     dict_get Z.eqb (user_booking_state (run_event w ev)) uid = Some (set_s_check_out s (Some d))).
Proof.
  intros Hs Hci Hlt ev overlap. unfold run_event, effects_of, ev.
  rewrite (datepick_checkout_run w uid d page today s ci Hs Hci Hlt).
  destruct (first_overlap ci d (confirmed_ranges (res_id s) (bookings w))) as [r|] eqn:E.
  - assert (Ov : overlap) by (apply first_overlap_some_iff; exists r; exact E).
    set (w1 := set_sessions w (dict_set Z.eqb (user_booking_state w) uid (set_s_check_in s None))).
    pose proof (send_calendar_world uid page StageCheckIn "overlaps_error" today w1) as Hw.
    destruct (send_calendar uid page StageCheckIn "overlaps_error" today w1)
      as [[w2 o] res] eqn:Ec.
    simpl in Hw |- *. subst w2. split; [reflexivity | split; [| intros N; contradiction]].
    intros _. split; [apply dict_get_set_same | split].
    + intros Hm Hy Hp Hn.
      rewrite (send_calendar_valid uid page StageCheckIn "overlaps_error" today w1
                 (set_s_check_in s None)) in Ec;
        [| apply dict_get_set_same | exact Hm | exact Hy | exact Hp | exact Hn].
      injection Ec as <- _.
      eexists. reflexivity.
    + intros He.
      rewrite (send_calendar_edge uid page StageCheckIn "overlaps_error" today w1
                 (set_s_check_in s None)) in Ec; [| apply dict_get_set_same | exact He].
      injection Ec as <- <-. split; reflexivity.
  - assert (NOv : ~ overlap).
    { intros Ov. apply first_overlap_some_iff in Ov as [r Hr]. congruence. }
    unfold get_resource. simpl.
    destruct (find _ (resources w)); simpl;
      (split; [reflexivity | split; [intros Ov; contradiction | intros _; apply dict_get_set_same]]).
Qed.

(** ** C9: the snapshot round trip *)

Lemma py_int_of_str_py_str z : py_int_of_str (py_str z) = Some z.
Proof.
  unfold py_int_of_str, py_str.
  destruct z as [| p | p]; [reflexivity | |].
  - simpl Z.to_int. rewrite NilZero.isi.
    + exact (f_equal Some (DecimalZ.of_to (Z.pos p))).
    + intros E. injection E. apply DecimalPos.Unsigned.to_uint_nonnil.
    + discriminate.
  - simpl Z.to_int. rewrite NilZero.isi.
    + exact (f_equal Some (DecimalZ.of_to (Z.neg p))).
    + discriminate.
    + intros E. injection E. apply DecimalPos.Unsigned.to_uint_nonnil.
Qed.
Lemma digit_val_digit r : 0 <= r < 10 -> digit_val (digit r) = Some r.
Proof.
  intros Hr. unfold digit_val, digit.
  rewrite Ascii.nat_ascii_embedding by lia.
  replace (Z.of_nat (48 + Z.to_nat r) - 48) with r by lia.
  replace ((0 <=? r) && (r <=? 9)) with true; [reflexivity |].
  symmetry. apply andb_true_iff. rewrite !Z.leb_le. lia.
Qed.
Lemma parse_num_app acc l1 l2 :
  parse_num acc (l1 ++ l2) = obind (parse_num acc l1) (fun a => parse_num a l2).
Proof.
  revert acc. induction l1 as [| c l1 IH]; intros acc; simpl; [reflexivity |].
  destruct (digit_val c); [apply IH | reflexivity].
Qed.
Lemma parse_num_single acc c :
  parse_num acc [c] = option_map (fun v => acc * 10 + v) (digit_val c).
Proof. unfold parse_num. destruct (digit_val c); reflexivity. Qed.
Lemma parse_num_pad n acc z :
  parse_num acc (pad n z) = Some (acc * 10 ^ Z.of_nat n + z mod 10 ^ Z.of_nat n).
Proof.
  revert acc z. induction n as [| n IH]; intros acc z.
  - change (pad 0 z) with (@nil ascii). cbn [parse_num]. f_equal.
    change (10 ^ Z.of_nat 0) with 1. rewrite Z.mod_1_r. lia.
  - change (pad (S n) z) with (pad n (z / 10) ++ [digit (z mod 10)]).
    rewrite parse_num_app, IH. unfold obind. rewrite parse_num_single.
    rewrite digit_val_digit by (apply Z.mod_pos_bound; lia). unfold option_map. f_equal.
    rewrite Nat2Z.inj_succ, Z.pow_succ_r by lia.
    assert (P : 0 < 10 ^ Z.of_nat n) by (apply Z.pow_pos_nonneg; lia).
    rewrite (Z.rem_mul_r z 10 (10 ^ Z.of_nat n)) by lia.
    ring.
Qed.
Lemma pad_length n z : List.length (pad n z) = n.
Proof.
  revert z. induction n as [| n IH]; intros z; [reflexivity |].
  change (pad (S n) z) with (pad n (z / 10) ++ [digit (z mod 10)]).
  rewrite length_app, IH. simpl. lia.
Qed.

Lemma take_app l r : take (List.length l) (l ++ r) = Some (l, r).
Proof. induction l as [| c l IH]; simpl; [reflexivity | rewrite IH; reflexivity]. Qed.

Lemma field_pad n z r : 0 <= z < 10 ^ Z.of_nat n -> field n (pad n z ++ r) = Some (z, r).
Proof.
  intros Hz. unfold field.
  rewrite <- (pad_length n z) at 1. rewrite take_app, parse_num_pad.
  rewrite Z.mod_small by exact Hz. reflexivity.
Qed.

Lemma sep_same c l : sep c (c :: l) = Some l.
Proof. unfold sep. rewrite Ascii.eqb_refl. reflexivity. Qed.

Lemma obind_some {A B} (a : A) (k : A -> option B) : obind (Some a) k = k a.
Proof. reflexivity. Qed.

Ltac iso_step :=
  first [ rewrite field_pad by lia | rewrite sep_same ]; rewrite obind_some; cbv beta iota.

Lemma valid_date_bounds d :
  valid_date d = true ->
  1 <= year d <= 9999 /\ 1 <= month d <= 12 /\ 1 <= day d <= days_in_month (year d) (month d).
Proof.
  unfold valid_date. intros H. repeat rewrite andb_true_iff in H. rewrite !Z.leb_le in H. lia.
Qed.

Lemma days_in_month_le y m : days_in_month y m <= 31.
Proof.
  unfold days_in_month. destruct (m =? 2); [destruct (is_leap y); lia |].
  destruct (_ || _); lia.
Qed.

Lemma parse_date_part_iso d r :
  valid_date d = true -> parse_date_part (date_isoformat d ++ r) = Some (d, r).
Proof.
  intros Hv. pose proof (valid_date_bounds d Hv) as B.
  pose proof (days_in_month_le (year d) (month d)).
  unfold date_isoformat. rewrite <- !app_assoc. cbn [app]. rewrite <- ?app_assoc. cbn [app].
  unfold parse_date_part.
  do 5 iso_step.
  destruct d as [y m dd]. simpl in *. rewrite Hv. reflexivity.
Qed.

Lemma valid_datetime_bounds t :
  valid_datetime t = true ->
  valid_date (dt_date t) = true /\ 0 <= hour t < 24 /\ 0 <= minute t < 60 /\
  0 <= second t < 60 /\ 0 <= microsecond t < 1000000.
Proof.
  unfold valid_datetime, valid_time. intros H. repeat rewrite andb_true_iff in H.
  rewrite !Z.leb_le, !Z.ltb_lt in H. tauto.
Qed.

Lemma parse_time_part_iso t :
  valid_datetime t = true ->
  parse_time_part (time_isoformat t) = Some (hour t, minute t, second t, microsecond t).
Proof.
  intros Hv. pose proof (valid_datetime_bounds t Hv) as (_ & Bh & Bm & Bs & Bu).
  unfold time_isoformat. rewrite <- ?app_assoc. cbn [app]. rewrite <- ?app_assoc. cbn [app].
  unfold parse_time_part.
  do 5 iso_step.
  assert (Vt : valid_time (hour t) (minute t) (second t) (microsecond t) = true)
    by (apply andb_prop in Hv; tauto).
  destruct (microsecond t =? 0) eqn:E0.
  - apply Z.eqb_eq in E0. rewrite obind_some. cbv beta. rewrite <- E0, Vt. reflexivity.
  - pose proof (pad_length 6 (microsecond t)) as L.
    destruct (pad 6 (microsecond t)) as [| c0 l0] eqn:Ep; [discriminate |].
    rewrite <- Ep. assert (F : field 6 (pad 6 (microsecond t) ++ []) = Some (microsecond t, []))
      by (apply field_pad; simpl; lia).
    rewrite app_nil_r in F.
    cbv beta iota. rewrite Ep at 1. rewrite sep_same, obind_some, <- Ep, F, obind_some.
    cbv beta iota. rewrite obind_some, Vt. reflexivity.
Qed.

Lemma fromisoformat_date d :
  valid_date d = true -> fromisoformat (date_isoformat d) = Some (mkDateTime d 0 0 0 0).
Proof.
  intros Hv. unfold fromisoformat. rewrite <- (app_nil_r (date_isoformat d)).
  rewrite parse_date_part_iso by exact Hv. reflexivity.
Qed.

Lemma fromisoformat_datetime t :
  valid_datetime t = true -> fromisoformat (datetime_isoformat t) = Some t.
Proof.
  intros Hv. pose proof (valid_datetime_bounds t Hv) as (Hd & _).
  unfold fromisoformat, datetime_isoformat.
  rewrite parse_date_part_iso by exact Hd. rewrite obind_some. cbv beta iota.
  rewrite parse_time_part_iso by exact Hv. rewrite obind_some.
  destruct t. reflexivity.
Qed.

Lemma load_value_save_value k v :
  wf_entry k v = true -> load_value k (save_value v) = v.
Proof.
  unfold wf_entry, load_value, save_value, is_date_key.
  destruct (String.eqb k "created") eqn:Ec.
  - destruct v; try discriminate. intros Hv.
    rewrite list_ascii_of_string_of_list_ascii, fromisoformat_datetime by exact Hv.
    reflexivity.
  - destruct (String.eqb k "check_in" || String.eqb k "check_out") eqn:Ed.
    + destruct v; try discriminate; [reflexivity | intros Hv].
      rewrite list_ascii_of_string_of_list_ascii, fromisoformat_date by exact Hv.
      simpl. rewrite ?Ec, ?Ed. reflexivity.
    + destruct v; try discriminate; try reflexivity.
      intros _. simpl. rewrite Ed. reflexivity.
Qed.

Section DictFacts.
Context {K V : Type} (keqb : K -> K -> bool).
Hypothesis keqb_spec : forall a b, keqb a b = true <-> a = b.

Lemma dict_set_absent (l : list (K * V)) k v :
  ~ In k (map fst l) -> dict_set keqb l k v = l ++ [(k, v)].
Proof.
  induction l as [| [k' v'] l IH]; simpl; intros Hk; [reflexivity |].
  destruct (keqb k' k) eqn:E.
  - apply keqb_spec in E. exfalso. apply Hk. left. exact E.
  - rewrite IH by tauto. reflexivity.
Qed.

Lemma fold_dict_set {A} (f : list (K * V) -> A -> list (K * V)) (g : A -> K * V)
    (acc : list (K * V)) (l : list A) :
  (forall acc a, f acc a = dict_set keqb acc (fst (g a)) (snd (g a))) ->
  NoDup (map (fun a => fst (g a)) l) ->
  (forall a, In a l -> ~ In (fst (g a)) (map fst acc)) ->
  fold_left f l acc = acc ++ map g l.
Proof.
  intros Hf. revert acc.
  induction l as [| a l IH]; intros acc Hnd Hout; simpl; [symmetry; apply app_nil_r |].
  inversion Hnd as [| ? ? Hna Hnd']; subst.
  rewrite Hf, dict_set_absent by (apply Hout; left; reflexivity).
  rewrite IH; [| exact Hnd' |].
  - rewrite <- app_assoc. destruct (g a). reflexivity.
  - intros a' Ha'. rewrite map_app. simpl. rewrite in_app_iff. simpl.
    intros [H | [H | []]].
    + exact (Hout a' (or_intror Ha') H).
    + apply Hna. rewrite H. apply (in_map (fun a => fst (g a))). exact Ha'.
Qed.
End DictFacts.

Lemma restore_state_save st :
  NoDup (map fst st) -> forallb (fun '(k, v) => wf_entry k v) st = true ->
  restore_state (map (fun '(k, v) => (k, save_value v)) st) = st.
Proof.
  intros Hnd Hwf. unfold restore_state.
  rewrite (fold_dict_set String.eqb String.eqb_eq _
             (fun kv : string * pyval => (fst kv, load_value (fst kv) (snd kv)))).
  - simpl. rewrite map_map. rewrite <- (map_id st) at 2. apply map_ext_in.
    intros [k v] Hin. simpl. f_equal. apply load_value_save_value.
    rewrite forallb_forall in Hwf. exact (Hwf (k, v) Hin).
  - intros acc [k v]. reflexivity.
  - rewrite map_map. simpl. rewrite (map_ext _ fst) by (intros [k v]; reflexivity). exact Hnd.
  - intros a _ [].
Qed.

Lemma load_data_fold m acc :
  NoDup (map fst m) ->
  (forall uid, In uid (map fst m) -> ~ In uid (map fst acc)) ->
  (forall uid st, In (uid, st) m ->
     NoDup (map fst st) /\ forallb (fun '(k, v) => wf_entry k v) st = true) ->
  fold_left load_step (save_user_booking_state m) (Some acc) = Some (acc ++ m).
Proof.
  revert acc. induction m as [| [uid st] m IH]; intros acc Hnd Hout Hwf.
  - rewrite app_nil_r. reflexivity.
  - change (save_user_booking_state ((uid, st) :: m))
      with ((py_str uid, map (fun '(k, v) => (k, save_value v)) st) :: save_user_booking_state m).
    cbn [fold_left].
    inversion Hnd as [| ? ? Hna Hnd']; subst.
    destruct (Hwf uid st (or_introl eq_refl)) as [Hst Hfw].
    assert (E : load_step (Some acc) (py_str uid, map (fun '(k, v) => (k, save_value v)) st)
                = Some (acc ++ [(uid, st)])).
    { unfold load_step. simpl fst. simpl snd. rewrite obind_some, py_int_of_str_py_str, obind_some.
      rewrite restore_state_save by assumption.
      rewrite (dict_set_absent Z.eqb Z.eqb_eq) by (apply Hout; left; reflexivity).
      reflexivity. }
    rewrite E, IH.
    + rewrite <- app_assoc. reflexivity.
    + exact Hnd'.
    + intros u Hu. rewrite map_app, in_app_iff. simpl. intros [H | [H | []]].
      * exact (Hout u (or_intror Hu) H).
      * subst. contradiction.
    + intros u s Hin. exact (Hwf u s (or_intror Hin)).
Qed.

(** C9: for a session map with distinct user ids whose sessions have
    distinct keys, a valid datetime under [created], null or a valid date
    under [check_in] and [check_out], and JSON scalars elsewhere, loading
    the file the save operation writes gives back the same map, in the
    same order, and removes the file. *)
Theorem C9_snapshot_round_trip (m : list (Z * pystate)) :
  NoDup (map fst m) ->
  (forall uid st, In (uid, st) m ->
     NoDup (map fst st) /\ forallb (fun '(k, v) => wf_entry k v) st = true) ->
  load_user_booking_state (save_state_file m) = (Some m, None).
Proof.
  intros Hnd Hwf. unfold load_user_booking_state, save_state_file, load_data.
  rewrite (load_data_fold m [] Hnd) by (assumption || (intros u _ [])).
  reflexivity.
Qed.

(** ** C10: the reconnect-and-retry loop *)

Lemma execute_sql_fuel_S f env tr :
  execute_sql_fuel (S f) env tr =
  match exec_attempt env tr with
  | ORows c => Some ([Exec tr], Rows c)
  | OErr e =>
      if negb (transient e) then Some ([Exec tr], Raised e)
      else
        let pre := Exec tr :: reconnect_block env tr in
        if (20 <=? tr)%nat then Some (pre, Raised e)
        else match execute_sql_fuel f env (S tr) with
             | Some (t, r) => Some (pre ++ Sleep (Qmake (Z.of_nat tr) 10) :: t, r)
             | None => None
             end
  end.
Proof. reflexivity. Qed.

Lemma execute_sql_fuel_mono f env tr x :
  execute_sql_fuel f env tr = Some x -> execute_sql_fuel (S f) env tr = Some x.
Proof.
  revert tr x. induction f as [| f IH]; intros tr x H; [discriminate |].
  rewrite execute_sql_fuel_S in H |- *.
  destruct (exec_attempt env tr) as [c | e]; [exact H |].
  destruct (negb (transient e)); [exact H |].
  destruct (20 <=? tr)%nat; [exact H |].
  destruct (execute_sql_fuel f env (S tr)) as [[t r] |] eqn:E; [| discriminate].
  rewrite (IH _ _ E). exact H.
Qed.

Lemma execute_sql_fuel_plus k f env tr x :
  execute_sql_fuel f env tr = Some x -> execute_sql_fuel (k + f) env tr = Some x.
Proof.
  induction k as [| k IH]; intros H; [exact H |].
  apply execute_sql_fuel_mono. exact (IH H).
Qed.

Lemma reconnect_block_no_exec env i : filter is_exec (reconnect_block env i) = [].
Proof.
  unfold reconnect_block. destruct (closed_after env i), (connect_ok env i); reflexivity.
Qed.

Lemma retry_trace_step env tr n :
  (tr < n)%nat ->
  retry_trace env tr n =
  (Exec tr :: reconnect_block env tr ++ [Sleep (Qmake (Z.of_nat tr) 10)])
  ++ retry_trace env (S tr) n.
Proof.
  intros H. unfold retry_trace.
  replace (n - tr)%nat with (S (n - S tr)) by lia.
  simpl seq. simpl map. rewrite concat_cons. rewrite <- app_assoc. reflexivity.
Qed.

Lemma retry_trace_exec_count env tr n :
  (tr <= n)%nat -> List.length (filter is_exec (retry_trace env tr n)) = S (n - tr).
Proof.
  intros H. remember (n - tr)%nat as k eqn:Ek. revert tr H Ek.
  induction k as [| k IH]; intros tr H Ek.
  - assert (tr = n) by lia. subst tr. unfold retry_trace.
    rewrite Nat.sub_diag. simpl.
    destruct (transient_outcome (exec_attempt env n)); [rewrite reconnect_block_no_exec |]; reflexivity.
  - rewrite retry_trace_step by lia. rewrite filter_app, length_app.
    simpl. rewrite filter_app, reconnect_block_no_exec. simpl.
    rewrite (IH (S tr)) by lia. reflexivity.
Qed.

Lemma execute_sql_closed_form env m tr :
  (tr + m = 20)%nat ->
  exists t r n,
    execute_sql_fuel (S m) env tr = Some (t, r) /\ (tr <= n <= 20)%nat /\
    (forall i, (tr <= i < n)%nat -> transient_outcome (exec_attempt env i) = true) /\
    ((n < 20)%nat -> transient_outcome (exec_attempt env n) = false) /\
    r = result_of (exec_attempt env n) /\ t = retry_trace env tr n.
Proof.
  revert tr. induction m as [| m IH]; intros tr Hm.
  - assert (tr = 20%nat) by lia. subst tr.
    rewrite execute_sql_fuel_S.
    destruct (exec_attempt env 20) as [c | e] eqn:Ex.
    + exists [Exec 20], (Rows c), 20%nat. unfold retry_trace. rewrite Ex.
      repeat split; intros; try lia; try reflexivity.
    + destruct (transient e) eqn:Et; simpl.
      * exists (Exec 20 :: reconnect_block env 20), (Raised e), 20%nat.
        unfold retry_trace. rewrite Ex. simpl. rewrite Et.
        repeat split; intros; try lia; try reflexivity.
      * exists [Exec 20], (Raised e), 20%nat. unfold retry_trace. rewrite Ex. simpl. rewrite Et.
        repeat split; intros; try lia; try reflexivity.
  - rewrite execute_sql_fuel_S.
    assert (Hlt : (20 <=? tr)%nat = false) by (apply Nat.leb_gt; lia).
    destruct (exec_attempt env tr) as [c | e] eqn:Ex.
    + exists [Exec tr], (Rows c), tr. unfold retry_trace. rewrite Ex, Nat.sub_diag.
      repeat split; intros; try lia; try reflexivity.
    + destruct (transient e) eqn:Et; cbn [negb].
      * rewrite Hlt.
        destruct (IH (S tr)) as [t [r [n [E [Hn [Hpre [Hstop [Hr Ht]]]]]]]]; [lia |].
        rewrite E. exists (Exec tr :: reconnect_block env tr ++ Sleep (Qmake (Z.of_nat tr) 10) :: t), r, n.
        split; [reflexivity |]. split; [lia |]. split; [| split; [exact Hstop | split; [exact Hr |]]].
        -- intros i Hi. destruct (Nat.eq_dec i tr) as [-> | Ne]; [rewrite Ex; simpl; exact Et |].
           apply Hpre. lia.
        -- rewrite retry_trace_step by lia. rewrite Ht. simpl. rewrite <- app_assoc. reflexivity.
      * exists [Exec tr], (Raised e), tr. unfold retry_trace. rewrite Ex, Nat.sub_diag. simpl.
        rewrite Et. repeat split; intros; try lia; try reflexivity; try exact Et.
Qed.

Lemma transient_iff e :
  transient e = true <->
  dbexc_class e = OperationalError /\
  existsb (fun f => is_substring (lower f) (lower (dbexc_msg e))) (map snd reconnect_errors) = true.
Proof.
  assert (T : reconnect_table = [(OperationalError, map (fun p => lower (snd p)) reconnect_errors)])
    by reflexivity.
  unfold transient. rewrite T. destruct e as [[| name] msg]; simpl dict_get; simpl dbexc_class.
  - split; [intros H; split; [reflexivity | exact H] | intros [_ H]; exact H].
  - split; [discriminate | intros [H _]; discriminate].
Qed.

(** C10: from the default [tr = 0], [execute_sql] returns (21 nested calls
    suffice, and more change nothing).  With [n] the attempt it stops at:
    attempts [0 .. n-1] failed with a transient error; attempt [n] either
    succeeded, failed with a non-transient error, or is attempt 20; the
    result is attempt [n]'s outcome, the same exception object when raised;
    the statement is executed [n + 1 <= 21] times, each failed attempt [i]
    being followed by the reconnect and [time.sleep(i / 10)] before attempt
    [i + 1].  A non-transient error of the first attempt is raised at once
    with nothing else done. *)
Theorem C10_execute_sql_retries env :
  (exists t r n,
     execute_sql_fuel 21 env 0 = Some (t, r) /\
     (forall k, execute_sql_fuel (k + 21) env 0 = Some (t, r)) /\
     (n <= 20)%nat /\
     (forall i, (i < n)%nat -> transient_outcome (exec_attempt env i) = true) /\
     ((n < 20)%nat -> transient_outcome (exec_attempt env n) = false) /\
     r = result_of (exec_attempt env n) /\
     t = retry_trace env 0 n /\
     List.length (filter is_exec t) = S n) /\
  (forall e, exec_attempt env 0 = OErr e -> transient e = false ->
     execute_sql_fuel 21 env 0 = Some ([Exec 0], Raised e)) /\
  (forall e, transient e = true <->
     dbexc_class e = OperationalError /\
     existsb (fun f => is_substring (lower f) (lower (dbexc_msg e)))
             (map snd reconnect_errors) = true).
Proof.
  split; [| split; [| exact transient_iff]].
  - destruct (execute_sql_closed_form env 20 0 eq_refl)
      as [t [r [n [E [Hn [Hpre [Hstop [Hr Ht]]]]]]]].
    exists t, r, n. split; [exact E |]. split.
    + intros k. apply execute_sql_fuel_plus. exact E.
    + split; [lia |]. split; [intros i Hi; apply Hpre; lia |].
      split; [exact Hstop |]. split; [exact Hr |]. split; [exact Ht |].
      rewrite Ht, retry_trace_exec_count by lia. f_equal. lia.
  - intros e Ex Et. rewrite execute_sql_fuel_S, Ex, Et. reflexivity.
Qed.


(* ------------------------------------------------------------------ *)
(** ** The theorems at concrete states

    Each lemma below instantiates one theorem at a state built from the
    examples above, with its hypotheses discharged by evaluation. *)

Lemma C1_serial_no_overlap_witness :
  bookings world0 = [] /\ serial_reach world0 (run_events world0 serial_events) /\
  confirmed_disjoint (bookings (run_events world0 serial_events)).
Proof.
  assert (R : serial_reach world0 (run_events world0 serial_events)).
  { unfold run_events, serial_events. cbn [fold_left].
    eapply serial_trans; [| apply serial_paid; vm_compute; reflexivity].
    eapply serial_trans; [| apply serial_other; intros ? ? ? E; discriminate E].
    eapply serial_trans; [| apply serial_other; intros ? ? ? E; discriminate E].
    eapply serial_trans; [| apply serial_other; intros ? ? ? E; discriminate E].
    eapply serial_trans; [| apply serial_other; intros ? ? ? E; discriminate E].
    eapply serial_trans; [| apply serial_other; intros ? ? ? E; discriminate E].
    apply serial_refl. }
  split; [reflexivity | split; [exact R |]].
  exact (C1_serial_no_overlap world0 _ eq_refl R).
Defined.

Lemma C2_pre_checkout_amount_witness :
  approves (handle_pre_checkout_query 1 (Some 30000) 1) waiting_world = true /\
  approves (handle_pre_checkout_query 1 (Some 20000) 1) waiting_world = false.
Proof.
  assert (Hov : no_confirmed_overlap (bookings waiting_world) waiting_b (jun 10) (jun 12)).
  { intros x rr [<- | []] Hne. contradiction Hne. reflexivity. }
  pose proof (C2_pre_checkout_amount waiting_world 1 1 30000 waiting_b (jun 10) (jun 12) res100
                eq_refl eq_refl eq_refl eq_refl eq_refl Hov) as H1.
  pose proof (C2_pre_checkout_amount waiting_world 1 1 20000 waiting_b (jun 10) (jun 12) res100
                eq_refl eq_refl eq_refl eq_refl eq_refl Hov) as H2.
  split.
  - apply (proj2 H1). vm_compute. reflexivity.
  - apply Bool.not_true_is_false. intro E.
    apply (proj1 H2) in E. vm_compute in E. discriminate E.
Defined.

Lemma C4_successful_payment_idempotent_witness :
  handle_successful_payment 2 30000 2 conflict_world
    = (conflict_world, [SendMessage 2 "already_confirmed"], Ok tt) /\
  (let w1 := run_event waiting_world (EvPaid 1 30000 1) in
   let es := effects_of (EvPaid 1 30000 1) waiting_world ++ effects_of (EvPaid 1 30000 1) w1 in
   count_manager_msgs es = 1%nat /\ count_saves es = 1%nat /\
   run_event w1 (EvPaid 1 30000 1) = w1).
Proof.
  split.
  - apply (proj1 C4_successful_payment_idempotent conflict_world 2 30000 2 confirmed_b2);
      reflexivity.
  - exact (proj2 C4_successful_payment_idempotent waiting_world 1 30000 30000 1 waiting_b res100
             eq_refl eq_refl eq_refl).
Defined.

Lemma C5_viewer_day_not_selectable_witness :
  btn_cb (day_cell StageCheckIn today0 today0 [(1, jun 10, jun 12)] 1 "1" (jun 11)) = CbNull /\
  btn_label (day_cell StageCheckIn today0 today0 [(1, jun 10, jun 12)] 1 "1" (jun 11)) = LMine.
Proof.
  destruct (C5_viewer_day_not_selectable StageCheckIn today0 today0 [(1, jun 10, jun 12)] 1 "1"
              (jun 11) (jun 10) (jun 12) (or_introl eq_refl) eq_refl eq_refl) as [H1 [_ H3]].
  split; [exact H1 |]. apply H3.
  intros t s e [E | []] _. injection E as <- _ _. reflexivity.
Defined.

Lemma C6_datepick_overlap_witness :
  dict_get Z.eqb (user_booking_state (run_event pick_world
     (EvDatepick 1 StageCheckOut (jun 12) "1" today0))) 1
    = Some (set_s_check_out session10 (Some (jun 12))) /\
  dict_get Z.eqb (user_booking_state (run_event overlap_world
     (EvDatepick 1 StageCheckOut (jun 12) "1" today0))) 1
    = Some (set_s_check_in session10 None) /\
  effects_of (EvDatepick 1 StageCheckOut (jun 12) "1" today0) overlap_world_9999 = [AnswerCallback] /\
  snd (handle (EvDatepick 1 StageCheckOut (jun 12) "1" today0) overlap_world_9999) = Exc OverflowError.
Proof.
  split; [| split].
  - destruct (C6_datepick_overlap pick_world 1 (jun 12) "1" today0 session10 (jun 10)
                eq_refl eq_refl eq_refl) as [_ [_ H]].
    apply H. intros [b [bs [be [[] _]]]].
  - destruct (C6_datepick_overlap overlap_world 1 (jun 12) "1" today0 session10 (jun 10)
                eq_refl eq_refl eq_refl) as [_ [H _]].
    apply H. exists confirmed_b2, (jun 11), (jun 13).
    split; [left; reflexivity |]. repeat split.
  - destruct (C6_datepick_overlap overlap_world_9999 1 (jun 12) "1" today0
                (set_s_month session10 9999 12) (jun 10) eq_refl eq_refl eq_refl) as [_ [H _]].
    refine (proj2 (proj2 (H _)) (or_intror eq_refl)).
    exists confirmed_b2, (jun 11), (jun 13).
    split; [left; reflexivity |]. repeat split.
Defined.

Lemma C7_pre_checkout_rejections_witness :
  In (AnswerPreCheckout false "pre_checkout_error_3")
     (effects_of (EvPreCheckout 1 (Some 30000) 1) world_nodate) /\
  find (fun x => b_id x =? 1) (bookings (run_event conflict_world (EvPreCheckout 1 (Some 30000) 1)))
    = Some (set_status waiting_b Conflict) /\
  run_event waiting_world (EvPreCheckout 1 (Some 1) 1) = waiting_world.
Proof.
  split; [| split].
  - destruct (C7_pre_checkout_rejections world_nodate 1 (Some 30000) 1
                (mkBooking 1 1 1 (Some (jun 10)) None WaitingPayment (PrimFloat.of_uint63 0%uint63))
                eq_refl eq_refl) as [H _].
    apply H. right. reflexivity.
  - destruct (C7_pre_checkout_rejections conflict_world 1 (Some 30000) 1 waiting_b
                eq_refl eq_refl) as [_ [H _]].
    apply (H (jun 10) (jun 12) eq_refl eq_refl). vm_compute. reflexivity.
  - destruct (C7_pre_checkout_rejections waiting_world 1 (Some 1) 1 waiting_b
                eq_refl eq_refl) as [_ [_ H]].
    refine (proj2 (H (jun 10) (jun 12) 1 res100 30000 eq_refl eq_refl _ eq_refl eq_refl _ _)).
    + vm_compute. reflexivity.
    + vm_compute. reflexivity.
    + lia.
Defined.

Lemma C8_status_transitions_witness :
  (exists b', find (fun x => b_id x =? 1)
                (bookings (run_event waiting_world (EvPreCheckout 1 (Some 30000) 1))) = Some b' /\
              status_step WaitingPayment (b_status b')) /\
  find (fun x => b_id x =? 1) (bookings (run_event waiting_world (EvCancel 1 1 today0)))
    = Some (set_status waiting_b Cancelled) /\
  run_event waiting_world (EvCancel 1 1 (jun 10)) = waiting_world.
Proof.
  destruct C8_status_transitions as [P1 [_ P3]].
  split; [| split].
  - destruct (P1 waiting_world (EvPreCheckout 1 (Some 30000) 1) 1 waiting_b) as [b' [Hf [Hs _]]].
    + intros x [<- | []]. simpl. lia.
    + reflexivity.
    + exists b'. split; [exact Hf | exact Hs].
  - apply (proj1 (P3 waiting_world 1 1 today0 waiting_b (jun 10) eq_refl eq_refl)). reflexivity.
  - apply (proj2 (P3 waiting_world 1 1 (jun 10) waiting_b (jun 10) eq_refl eq_refl)). reflexivity.
Defined.

Lemma C9_snapshot_round_trip_witness :
  load_user_booking_state (save_state_file sample_sessions) = (Some sample_sessions, None).
Proof.
  apply C9_snapshot_round_trip.
  - repeat constructor. simpl. tauto.
  - intros uid st [E | []]. injection E as <- <-. split.
    + repeat constructor; simpl; intuition discriminate.
    + vm_compute. reflexivity.
Defined.

Lemma C10_execute_sql_retries_witness :
  execute_sql_fuel 21 env_integrity 0 = Some ([Exec 0], Raised integrity_exc).
Proof.
  apply (proj1 (proj2 (C10_execute_sql_retries env_integrity))).
  - reflexivity.
  - vm_compute. reflexivity.
Defined.

(* ------------------------------------------------------------------ *)
(** ** Further properties of the code *)

(** X1: [get_booked_ranges_for_resource] returns [(t, s, e)] exactly when a
    confirmed booking of the resource, owned by [t], has check-in [s] and
    check-out [e] ([e = s] when it has none), and [e] is not before today. *)
Lemma get_booked_ranges_spec today rid bs t s e :
  In (t, s, e) (get_booked_ranges_for_resource today rid bs) <->
  exists b, In b bs /\ b_resource b = rid /\ b_status b = Confirmed /\
    telegram_id b = t /\ check_in b = Some s /\
    e = match check_out b with Some co => co | None => s end /\
    date_le today e = true.
Proof.
  unfold get_booked_ranges_for_resource. rewrite in_flat_map. split.
  - intros [b [Hb Hin]]. apply filter_In in Hb as [Hb Hf].
    rewrite !andb_true_iff, Z.eqb_eq in Hf. destruct Hf as [[Hr Hco] Hst].
    destruct (check_in b) as [ci |] eqn:Eci; [| destruct Hin].
    destruct (date_lt _ today) eqn:Elt; [destruct Hin |].
    destruct Hin as [E | []]. injection E as <- <- <-.
    exists b. repeat split; auto using status_eqb_eq.
    destruct (check_out b) as [co |]; [exact Hco |].
    unfold date_lt in Elt. unfold date_le. rewrite date_compare_antisym.
    destruct (date_compare ci today); simpl in *; congruence.
  - intros [b [Hb [Hr [Hst [Ht [Hci [He Hle]]]]]]]. exists b. split.
    + apply filter_In. split; [exact Hb |].
      rewrite Hr, Z.eqb_refl, Hst. simpl.
      destruct (check_out b) as [co |]; [subst e; rewrite Hle |]; reflexivity.
    + rewrite Hci. rewrite <- He.
      replace (date_lt e today) with false.
      * left. rewrite Ht. reflexivity.
      * unfold date_le in Hle. unfold date_lt. rewrite (date_compare_antisym today e) in *.
        destruct (date_compare today e); simpl in *; congruence.
Qed.

(** X2: [get_day_status] says free exactly when the day lies in no booked
    range [s <= d <= e]. *)
Lemma get_day_status_free d bs uid :
  get_day_status d bs uid = Free <->
  forall t s e, In (t, s, e) bs -> date_le s d && date_le d e = false.
Proof.
  induction bs as [| [[t s] e] bs IH]; simpl.
  - split; [intros _ ? ? ? [] | reflexivity].
  - destruct (date_le s d && date_le d e) eqn:E.
    + split; [destruct (t =? uid); discriminate |].
      intros H. rewrite (H t s e (or_introl eq_refl)) in E. discriminate.
    + rewrite IH. split.
      * intros H t' s' e' [Eq | Hin]; [injection Eq as <- <- <-; exact E | exact (H _ _ _ Hin)].
      * intros H t' s' e' Hin. exact (H _ _ _ (or_intror Hin)).
Qed.

(** X3: [date_in_bookings] on the [(start, end)] pairs of the booked ranges
    is true exactly when [get_day_status] does not say free, whoever views. *)
Lemma date_in_bookings_status d bs uid :
  date_in_bookings d (map (fun '(t, s, e) => (s, e)) bs) = negb (match get_day_status d bs uid with Free => true | _ => false end).
Proof.
  induction bs as [| [[t s] e] bs IH]; simpl; [reflexivity |].
  destruct (date_le s d && date_le d e); [destruct (t =? uid); reflexivity | exact IH].
Qed.

Section PopFacts.
Context {V : Type}.

Lemma dict_get_absent (d : list (Z * V)) k :
  ~ In k (map fst d) -> dict_get Z.eqb d k = None.
Proof.
  induction d as [| [k' v'] d IH]; simpl; intros Hn; [reflexivity |].
  destruct (k' =? k) eqn:E.
  - apply Z.eqb_eq in E. subst. exfalso. apply Hn. left. reflexivity.
  - apply IH. tauto.
Qed.

Lemma dict_pop_get (d : list (Z * V)) k uid :
  NoDup (map fst d) ->
  dict_get Z.eqb (dict_pop Z.eqb d k) uid = if k =? uid then None else dict_get Z.eqb d uid.
Proof.
  induction d as [| [k' v'] d IH]; simpl; intros Hnd.
  - destruct (k =? uid); reflexivity.
  - inversion Hnd as [| ? ? Hn Hnd']; subst.
    destruct (k' =? k) eqn:E1; simpl.
    + apply Z.eqb_eq in E1. subst k'.
      destruct (k =? uid) eqn:E2; [| reflexivity].
      apply Z.eqb_eq in E2. subst uid.
      apply dict_get_absent. exact Hn.
    + rewrite IH by exact Hnd'.
      destruct (k' =? uid) eqn:E2, (k =? uid) eqn:E3; try reflexivity.
      apply Z.eqb_eq in E2. apply Z.eqb_eq in E3. subst. rewrite Z.eqb_refl in E1. discriminate.
Qed.

Lemma dict_pop_keys (d : list (Z * V)) k x :
  In x (map fst (dict_pop Z.eqb d k)) -> In x (map fst d).
Proof.
  induction d as [| [k' v'] d IH]; simpl; [tauto |].
  destruct (k' =? k); simpl; tauto.
Qed.

Lemma dict_pop_nodup (d : list (Z * V)) k :
  NoDup (map fst d) -> NoDup (map fst (dict_pop Z.eqb d k)).
Proof.
  induction d as [| [k' v'] d IH]; simpl; intros Hnd; [constructor |].
  inversion Hnd as [| ? ? Hn Hnd']; subst.
  destruct (k' =? k); [exact Hnd' |]. simpl. constructor; [| exact (IH Hnd')].
  intros H. apply Hn. exact (dict_pop_keys d k k' H).
Qed.

Lemma fold_pop_get (ks : list Z) (acc : list (Z * V)) uid :
  NoDup (map fst acc) ->
  dict_get Z.eqb (fold_left (fun a u => dict_pop Z.eqb a u) ks acc) uid =
  if existsb (fun u => u =? uid) ks then None else dict_get Z.eqb acc uid.
Proof.
  revert acc. induction ks as [| k ks IH]; simpl; intros acc Hnd; [reflexivity |].
  rewrite IH by (apply dict_pop_nodup; exact Hnd).
  rewrite dict_pop_get by exact Hnd.
  destruct (k =? uid); simpl; [destruct (existsb _ ks) |]; reflexivity.
Qed.

Lemma dict_get_in_nodup (d : list (Z * V)) k v :
  NoDup (map fst d) -> In (k, v) d -> dict_get Z.eqb d k = Some v.
Proof.
  induction d as [| [k' v'] d IH]; simpl; intros Hnd Hin; [destruct Hin |].
  inversion Hnd as [| ? ? Hn Hnd']; subst.
  destruct Hin as [E | Hin].
  - injection E as <- <-. rewrite Z.eqb_refl. reflexivity.
  - destruct (k' =? k) eqn:E.
    + apply Z.eqb_eq in E. subst. exfalso. apply Hn.
      apply (in_map fst) in Hin. exact Hin.
    + exact (IH Hnd' Hin).
Qed.

Lemma dict_get_some_in (d : list (Z * V)) k v :
  dict_get Z.eqb d k = Some v -> In (k, v) d.
Proof.
  induction d as [| [k' v'] d IH]; simpl; [discriminate |].
  destruct (k' =? k) eqn:E; intros H.
  - injection H as <-. apply Z.eqb_eq in E. subst. left. reflexivity.
  - right. exact (IH H).
Qed.

End PopFacts.

(** X4: with distinct user ids, [clean_expired_booking_states] keeps the
    session of a user unchanged unless it has no check-out and is more than
    24 hours old, in which case it drops it; it adds no session. *)
Theorem clean_expired_get now ubs uid :
  NoDup (map fst ubs) ->
  dict_get Z.eqb (clean_expired_booking_states now ubs) uid =
  match dict_get Z.eqb ubs uid with
  | Some s => if expired now s then None else Some s
  | None => None
  end.
Proof.
  intros Hnd. unfold clean_expired_booking_states. rewrite fold_pop_get by exact Hnd.
  destruct (dict_get Z.eqb ubs uid) as [s |] eqn:Eg.
  - destruct (existsb _ _) eqn:Ex.
    + apply existsb_exists in Ex as [u [Hu Eu]]. apply Z.eqb_eq in Eu. subst u.
      apply in_map_iff in Hu as [[k s'] [Ek Hin]]. simpl in Ek. subst k.
      apply filter_In in Hin as [Hin He].
      rewrite (dict_get_in_nodup ubs uid s' Hnd Hin) in Eg. injection Eg as <-.
      rewrite He. reflexivity.
    + destruct (expired now s) eqn:He; [| reflexivity].
      exfalso. apply Bool.not_true_iff_false in Ex. apply Ex.
      apply existsb_exists. exists uid. split; [| apply Z.eqb_refl].
      apply in_map_iff. exists (uid, s). split; [reflexivity |].
      apply filter_In. split; [exact (dict_get_some_in _ _ _ Eg) | exact He].
  - destruct (existsb _ _); reflexivity.
Qed.

Lemma div_step k y : 0 < k ->
  y / k = (y - 1) / k + (if y mod k =? 0 then 1 else 0).
Proof.
  intros Hk. pose proof (Z.div_mod y k ltac:(lia)) as Dy.
  pose proof (Z.mod_pos_bound y k Hk) as By.
  destruct (y mod k =? 0) eqn:E.
  - apply Z.eqb_eq in E. rewrite E in Dy.
    assert (Q : (y - 1) / k = y / k - 1)
      by (symmetry; apply Z.div_unique with (k - 1); lia).
    lia.
  - apply Z.eqb_neq in E.
    assert (Q : (y - 1) / k = y / k)
      by (symmetry; apply Z.div_unique with (y mod k - 1); lia).
    lia.
Qed.

Lemma mod_zero_weaken y a b : 0 < a -> 0 < b -> (a | b) -> y mod b = 0 -> y mod a = 0.
Proof.
  intros Ha Hb Hab H. apply Z.mod_divide; [lia |].
  apply Z.mod_divide in H; [| lia]. exact (Z.divide_trans _ _ _ Hab H).
Qed.

Lemma days_before_year_succ y :
  days_before_year (y + 1) = days_before_year y + 365 + (if is_leap y then 1 else 0).
Proof.
  unfold days_before_year, is_leap.
  replace (y + 1 - 1) with y by lia.
  rewrite (div_step 4 y), (div_step 100 y), (div_step 400 y) by lia.
  pose proof (mod_zero_weaken y 100 400 ltac:(lia) ltac:(lia) ltac:(exists 4; lia)) as H1.
  pose proof (mod_zero_weaken y 4 100 ltac:(lia) ltac:(lia) ltac:(exists 25; lia)) as H2.
  destruct (y mod 4 =? 0) eqn:E4, (y mod 100 =? 0) eqn:E100, (y mod 400 =? 0) eqn:E400;
    rewrite ?Z.eqb_eq, ?Z.eqb_neq in *; simpl;
    try lia; (exfalso; try (apply E100; apply H1; assumption);
                     try (apply E4; apply H2; assumption)).
Qed.

Lemma month_cases m : 1 <= m <= 12 ->
  m = 1 \/ m = 2 \/ m = 3 \/ m = 4 \/ m = 5 \/ m = 6 \/ m = 7 \/ m = 8 \/ m = 9 \/
  m = 10 \/ m = 11 \/ m = 12.
Proof. lia. Qed.

Lemma next_month_ordinal y m : 1 <= m <= 12 ->
  let '(ny, nm) := next_month y m in
  1 <= nm <= 12 /\
  toordinal (mkDate ny nm 1) = toordinal (mkDate y m (days_in_month y m)) + 1.
Proof.
  intros Hm.
  pose proof (month_cases m Hm) as C.
  repeat destruct C as [-> | C]; try subst m;
    unfold next_month, toordinal, days_in_month, days_before_month;
    cbn -[days_before_year is_leap];
    try (split; [lia | destruct (is_leap y); simpl; lia]).
  split; [lia |]. rewrite days_before_year_succ.
  destruct (is_leap y); simpl; lia.
Qed.

Lemma prev_month_ordinal y m : 1 <= m <= 12 ->
  let '(py, pm) := prev_month y m in
  1 <= pm <= 12 /\
  toordinal (mkDate py pm (days_in_month py pm)) + 1 = toordinal (mkDate y m 1).
Proof.
  intros Hm. unfold prev_month.
  destruct (m =? 1) eqn:E1.
  - apply Z.eqb_eq in E1. subst m. split; [lia |].
    pose proof (next_month_ordinal (y - 1) 12 ltac:(lia)) as H. simpl in H.
    replace (y - 1 + 1) with y in H by lia. destruct H as [_ H]. simpl in H. lia.
  - apply Z.eqb_neq in E1.
    pose proof (next_month_ordinal y (m - 1) ltac:(lia)) as H. unfold next_month in H.
    destruct (m - 1 =? 12) eqn:E12; [apply Z.eqb_eq in E12; lia |].
    replace (m - 1 + 1) with m in H by lia. destruct H as [_ H]. split; [lia | lia].
Qed.

Lemma month_nav_arith y m :
  1 <= m <= 12 ->
  (let '(ny, nm) := next_month y m in
   1 <= nm <= 12 /\
   toordinal (mkDate ny nm 1) = toordinal (mkDate y m (days_in_month y m)) + 1 /\
   prev_month ny nm = (y, m)) /\
  (let '(py, pm) := prev_month y m in
   1 <= pm <= 12 /\
   toordinal (mkDate py pm (days_in_month py pm)) + 1 = toordinal (mkDate y m 1) /\
   next_month py pm = (y, m)).
Proof.
  intros Hm. split.
  - pose proof (next_month_ordinal y m Hm) as H.
    unfold next_month in *. destruct (m =? 12) eqn:E; destruct H as [H1 H2];
      (split; [exact H1 | split; [exact H2 |]]); unfold prev_month.
    + apply Z.eqb_eq in E. subst. simpl. f_equal; lia.
    + apply Z.eqb_neq in E. destruct (m + 1 =? 1) eqn:E'; [apply Z.eqb_eq in E'; lia |].
      f_equal; lia.
  - pose proof (prev_month_ordinal y m Hm) as H.
    unfold prev_month in *. destruct (m =? 1) eqn:E; destruct H as [H1 H2];
      (split; [exact H1 | split; [exact H2 |]]); unfold next_month.
    + apply Z.eqb_eq in E. subst. simpl. f_equal; lia.
    + apply Z.eqb_neq in E. destruct (m - 1 =? 12) eqn:E'; [apply Z.eqb_eq in E'; lia |].
      f_equal; lia.
Qed.

Lemma next_month_dt_spec y m p :
  next_month_dt y m = Some p <-> next_month y m = p /\ fst p <= 9999.
Proof.
  unfold next_month_dt. destruct (next_month y m) as [a b].
  destruct (Z.leb_spec a 9999) as [Ha | Ha]; split.
  - intros Hs. injection Hs as <-. simpl. split; [reflexivity | lia].
  - intros [<- _]. reflexivity.
  - discriminate.
  - intros [<- Hf]. simpl in Hf. lia.
Qed.

Lemma prev_month_dt_spec y m p :
  prev_month_dt y m = Some p <-> prev_month y m = p /\ 1 <= fst p.
Proof.
  unfold prev_month_dt. destruct (prev_month y m) as [a b].
  destruct (Z.leb_spec 1 a) as [Ha | Ha]; split.
  - intros Hs. injection Hs as <-. simpl. split; [reflexivity | lia].
  - intros [<- _]. reflexivity.
  - discriminate.
  - intros [<- Hf]. simpl in Hf. lia.
Qed.

Lemma next_month_dt_none y m :
  1 <= y <= 9999 -> 1 <= m <= 12 -> next_month_dt y m = None <-> (y, m) = (9999, 12).
Proof.
  intros Hy Hm. unfold next_month_dt, next_month.
  destruct (Z.eqb_spec m 12) as [->|E].
  - destruct (Z.leb_spec (y + 1) 9999); split.
    + discriminate.
    + intros Hq. injection Hq as Hy'. lia.
    + intros _. f_equal. lia.
    + reflexivity.
  - destruct (Z.leb_spec y 9999); [| lia]. split.
    + discriminate.
    + intros Hq. injection Hq as _ Hq. contradiction.
Qed.

Lemma prev_month_dt_none y m :
  1 <= y <= 9999 -> 1 <= m <= 12 -> prev_month_dt y m = None <-> (y, m) = (1, 1).
Proof.
  intros Hy Hm. unfold prev_month_dt, prev_month.
  destruct (Z.eqb_spec m 1) as [->|E].
  - destruct (Z.leb_spec 1 (y - 1)); split.
    + discriminate.
    + intros Hq. injection Hq as Hy'. lia.
    + intros _. f_equal. lia.
    + reflexivity.
  - destruct (Z.leb_spec 1 y); [| lia]. split.
    + discriminate.
    + intros Hq. injection Hq as _ Hq. contradiction.
Qed.

(** X5: for a valid month of a valid year, [send_calendar]'s
    [datetime(year, month, days_in_month) + timedelta(days=1)] overflows
    exactly at 9999-12 and [datetime(year, month, 1) - timedelta(days=1)]
    exactly at 0001-01; otherwise the neighbouring month is a valid month of
    a valid year, its first (last) day follows (precedes) the last (first)
    day of this month, and going back (forward) from it returns here. *)
Theorem calendar_month_nav y m :
  1 <= y <= 9999 -> 1 <= m <= 12 ->
  (next_month_dt y m = None <-> (y, m) = (9999, 12)) /\
  (prev_month_dt y m = None <-> (y, m) = (1, 1)) /\
  (forall ny nm, next_month_dt y m = Some (ny, nm) ->
     1 <= ny <= 9999 /\ 1 <= nm <= 12 /\
     toordinal (mkDate ny nm 1) = toordinal (mkDate y m (days_in_month y m)) + 1 /\
     prev_month_dt ny nm = Some (y, m)) /\
  (forall py pm, prev_month_dt y m = Some (py, pm) ->
     1 <= py <= 9999 /\ 1 <= pm <= 12 /\
     toordinal (mkDate py pm (days_in_month py pm)) + 1 = toordinal (mkDate y m 1) /\
     next_month_dt py pm = Some (y, m)).
Proof.
  intros Hy Hm. destruct (month_nav_arith y m Hm) as [N P].
  split; [exact (next_month_dt_none y m Hy Hm) |].
  split; [exact (prev_month_dt_none y m Hy Hm) |].
  split.
  - intros ny nm H. apply next_month_dt_spec in H as [E Hle]. simpl in Hle.
    rewrite E in N. destruct N as [H1 [H2 H3]].
    assert (Hge : y <= ny) by (unfold next_month in E; destruct (m =? 12);
                                injection E as <- <-; lia).
    refine (conj (conj _ Hle) (conj H1 (conj H2 _))); [lia |].
    apply prev_month_dt_spec. split; [exact H3 | simpl; lia].
  - intros py pm H. apply prev_month_dt_spec in H as [E Hle]. simpl in Hle.
    rewrite E in P. destruct P as [H1 [H2 H3]].
    assert (Hge : py <= y) by (unfold prev_month in E; destruct (m =? 1);
                                injection E as <- <-; lia).
    refine (conj (conj Hle _) (conj H1 (conj H2 _))); [lia |].
    apply next_month_dt_spec. split; [exact H3 | simpl; lia].
Qed.

Lemma in_zrange a k n : 0 <= k -> In n (zrange a k) <-> a <= n < a + k.
Proof.
  intros Hk. unfold zrange. rewrite in_map_iff. split.
  - intros [i [<- Hi]]. apply in_seq in Hi. lia.
  - intros Hn. exists (Z.to_nat (n - a)). split; [lia |]. apply in_seq. lia.
Qed.

Lemma date_le_false_lt a b : date_le a b = false -> date_lt b a = true.
Proof.
  unfold date_le, date_lt. rewrite (date_compare_antisym a b).
  destruct (date_compare a b); simpl; congruence.
Qed.

Lemma date_le_max d : year d <= 9999 -> month d <= 12 -> day d <= 31 ->
  date_le d date_max = true.
Proof.
  intros Hy Hm Hd. unfold date_le, date_compare, date_max. simpl.
  destruct (Z.compare_spec (year d) 9999); [| reflexivity | lia].
  destruct (Z.compare_spec (month d) 12); [| reflexivity | lia].
  destruct (Z.compare_spec (day d) 31); reflexivity || lia.
Qed.

Lemma days_in_month_range y m : 28 <= days_in_month y m <= 31.
Proof.
  unfold days_in_month. destruct (m =? 2); [destruct (is_leap y) |];
    [lia | lia | destruct (_ || _); lia].
Qed.

Lemma calendar_keyboard_datepick st today s booked uid page lbl st' d page' :
  1 <= calendar_month s <= 12 -> 1 <= calendar_year s <= 9999 ->
  In (mkButton lbl (CbDatepick st' d page')) (calendar_keyboard st today s booked uid page) ->
  st' = st /\ page' = page /\ year d = calendar_year s /\ month d = calendar_month s /\
  1 <= day d <= days_in_month (year d) (month d) /\ lbl = LDay (day d) /\
  date_lt d today = false /\ get_day_status d booked uid = Free /\
  (st = StageCheckOut -> exists ci, s_check_in s = Some ci /\ date_lt ci d = true).
Proof.
  intros Hm Hy. unfold calendar_keyboard.
  destruct (prev_month _ _) as [py pm]. destruct (next_month _ _) as [ny nm].
  rewrite !in_app_iff, !in_map_iff.
  intros [[E | []] | [[i [E _]] | [[i [E _]] | [[n [E Hn]] | [E | [E | [E | []]]]]]]];
    try discriminate E.
  pose proof (days_in_month_range (calendar_year s) (calendar_month s)) as Dm.
  apply in_zrange in Hn; [| lia].
  unfold day_cell in E.
  destruct (date_lt _ today) eqn:Elt; [discriminate E |].
  destruct (get_day_status _ booked uid) eqn:Es; try discriminate E.
  destruct st.
  - injection E as <- <- <- <-. simpl. repeat split; try lia; try reflexivity.
    + exact Elt.
    + exact Es.
    + discriminate.
  - destruct (date_le _ _) eqn:Ele; [discriminate E |].
    injection E as <- <- <- <-. simpl. repeat split; try lia; try reflexivity.
    + exact Elt.
    + exact Es.
    + intros _. unfold min_date_of in Ele. destruct (s_check_in s) as [ci |].
      * exists ci. split; [reflexivity |]. apply date_le_false_lt. exact Ele.
      * rewrite date_le_max in Ele; simpl; [discriminate | lia | lia | lia].
Qed.

Lemma send_calendar_edit uid page st prefix today w s st' prefix' kbd :
  dict_get Z.eqb (user_booking_state w) uid = Some s ->
  In (EditCalendar st' prefix' kbd) (snd (fst (send_calendar uid page st prefix today w))) ->
  1 <= calendar_month s <= 12 /\ 1 <= calendar_year s <= 9999 /\ st' = st /\ prefix' = prefix /\
  kbd = calendar_keyboard st today s
          (get_booked_ranges_for_resource today (res_id s) (bookings w)) uid page.
Proof.
  intros Hs.
  unfold send_calendar, bind, gets, emit, ret, raise, get_session, has_session.
  rewrite Hs. cbv beta iota zeta. rewrite Hs. cbv beta iota zeta.
  destruct ((1 <=? calendar_month s) && (calendar_month s <=? 12) &&
            (1 <=? calendar_year s) && (calendar_year s <=? 9999)) eqn:V;
    [| simpl; intros []].
  repeat rewrite andb_true_iff in V. rewrite !Z.leb_le in V.
  destruct (prev_month_dt (calendar_year s) (calendar_month s)),
           (next_month_dt (calendar_year s) (calendar_month s)); simpl; [| intros [] ..].
  intros [E | []]. injection E as -> -> ->. repeat split; lia.
Qed.

(** X6: every selectable day button of the calendar [send_calendar] draws
    picks the same stage and page, lies in the shown month, is not before
    today, is free for the viewer among the resource's booked ranges, and at
    the check-out stage lies after the session's check-in. *)
Theorem send_calendar_offers uid page st prefix today w s kbd lbl st' d page' :
  dict_get Z.eqb (user_booking_state w) uid = Some s ->
  In (EditCalendar st prefix kbd) (snd (fst (send_calendar uid page st prefix today w))) ->
  In (mkButton lbl (CbDatepick st' d page')) kbd ->
  st' = st /\ page' = page /\ year d = calendar_year s /\ month d = calendar_month s /\
  1 <= day d <= days_in_month (year d) (month d) /\ lbl = LDay (day d) /\
  date_le today d = true /\
  get_day_status d (get_booked_ranges_for_resource today (res_id s) (bookings w)) uid = Free /\
  (st = StageCheckOut -> exists ci, s_check_in s = Some ci /\ date_lt ci d = true).
Proof.
  intros Hs Hin Hb.
  destruct (send_calendar_edit _ _ _ _ _ _ _ _ _ _ Hs Hin) as [Hm [Hy [_ [_ ->]]]].
  destruct (calendar_keyboard_datepick _ _ _ _ _ _ _ _ _ _ Hm Hy Hb)
    as [H1 [H2 [H3 [H4 [H5 [H6 [H7 [H8 H9]]]]]]]].
  refine (conj H1 (conj H2 (conj H3 (conj H4 (conj H5 (conj H6 (conj _ (conj H8 H9)))))))).
  destruct (date_le today d) eqn:E; [reflexivity |].
  apply date_le_false_lt in E. rewrite E in H7. discriminate.
Qed.

(** X7: after a check-in pick on [d], every day button of the check-out
    calendar that [callback_datepick] draws lies after [d] and not before
    today. *)
Theorem checkout_calendar_after_checkin w uid d page today s kbd lbl st' d' page' :
  dict_get Z.eqb (user_booking_state w) uid = Some s ->
  In (EditCalendar StageCheckOut "" kbd) (effects_of (EvDatepick uid StageCheckIn d page today) w) ->
  In (mkButton lbl (CbDatepick st' d' page')) kbd ->
  st' = StageCheckOut /\ date_lt d d' = true /\ date_le today d' = true.
Proof.
  intros Hs Hin Hb.
  unfold effects_of, handle, callback_datepick, bind, emit, get_session, put_session, modify in Hin.
  rewrite Hs in Hin. cbv beta iota zeta in Hin.
  set (w' := set_sessions w _) in Hin.
  assert (Hs' : dict_get Z.eqb (user_booking_state w') uid = Some (set_s_check_in s (Some d)))
    by (apply dict_get_set_same).
  destruct (send_calendar uid page StageCheckOut "" today w') as [[w2 o2] r2] eqn:Sc.
  simpl in Hin. destruct Hin as [E | Hin]; [discriminate E |].
  assert (Hin' : In (EditCalendar StageCheckOut "" kbd)
                    (snd (fst (send_calendar uid page StageCheckOut "" today w'))))
    by (rewrite Sc; exact Hin).
  destruct (send_calendar_edit _ _ _ _ _ _ _ _ _ _ Hs' Hin') as [Hm [Hy [_ [_ Ek]]]].
  rewrite Ek in Hb.
  destruct (calendar_keyboard_datepick _ _ _ _ _ _ _ _ _ _ Hm Hy Hb)
    as [H1 [_ [_ [_ [_ [_ [H7 [_ H9]]]]]]]].
  destruct (H9 eq_refl) as [ci [Eci Hlt]]. simpl in Eci. injection Eci as <-.
  split; [exact H1 | split; [exact Hlt |]].
  destruct (date_le today d') eqn:E; [reflexivity |].
  apply date_le_false_lt in E. rewrite E in H7. discriminate.
Qed.

Lemma check_in_ge_total a b : check_in_ge a b = false -> check_in_ge b a = true.
Proof.
  destruct a as [x |], b as [y |]; simpl; try discriminate; try reflexivity.
  unfold date_le. rewrite (date_compare_antisym x y).
  destruct (date_compare x y); simpl; congruence.
Qed.

Lemma insert_desc_perm b l : Permutation (insert_desc b l) (b :: l).
Proof.
  induction l as [| x l IH]; simpl; [reflexivity |].
  destruct (check_in_ge _ _); [| reflexivity].
  rewrite IH. apply perm_swap.
Qed.

Lemma insert_desc_sorted b l :
  Sorted (fun x y => check_in_ge (check_in x) (check_in y) = true) l ->
  Sorted (fun x y => check_in_ge (check_in x) (check_in y) = true) (insert_desc b l).
Proof.
  induction l as [| x l IH]; simpl; intros Hs; [repeat constructor |].
  destruct (check_in_ge (check_in x) (check_in b)) eqn:E.
  - inversion Hs as [| ? ? Hl Hhd]; subst. constructor; [exact (IH Hl) |].
    destruct l as [| y l]; simpl; [constructor; exact E |].
    inversion Hhd; subst.
    destruct (check_in_ge (check_in y) (check_in b)); constructor; assumption.
  - constructor; [exact Hs | constructor; apply check_in_ge_total; exact E].
Qed.

Lemma sort_check_in_desc_spec l :
  Permutation (sort_check_in_desc l) l /\
  Sorted (fun x y => check_in_ge (check_in x) (check_in y) = true) (sort_check_in_desc l).
Proof.
  unfold sort_check_in_desc. split.
  - apply Permutation_trans with (rev l); [| symmetry; apply Permutation_rev].
    induction (rev l) as [| x r IH]; simpl; [reflexivity |].
    rewrite insert_desc_perm. constructor. exact IH.
  - induction (rev l) as [| x r IH]; simpl; [constructor |].
    apply insert_desc_sorted. exact IH.
Qed.

Lemma my_bookings_query_props uid today bs :
  (forall b, In b (my_bookings_query uid today bs) <->
     In b bs /\ telegram_id b = uid /\ b_status b = Confirmed /\
     exists co, check_out b = Some co /\ date_lt today co = true) /\
  Sorted (fun x y => check_in_ge (check_in x) (check_in y) = true)
         (my_bookings_query uid today bs).
Proof.
  unfold my_bookings_query.
  destruct (sort_check_in_desc_spec
              (filter (fun b => (telegram_id b =? uid) && status_eqb (b_status b) Confirmed
                                && sql_gt (check_out b) today) bs)) as [P S].
  split; [| exact S].
  intros b. split.
  - intros H. apply (Permutation_in _ P) in H. apply filter_In in H as [H1 H2].
    rewrite !andb_true_iff, Z.eqb_eq in H2. destruct H2 as [[H2 H3] H4].
    split; [exact H1 | split; [exact H2 | split; [exact (status_eqb_eq _ _ H3) |]]].
    destruct (check_out b) as [co |]; [exists co; split; [reflexivity | exact H4] | discriminate].
  - intros [H1 [H2 [H3 [co [H4 H5]]]]]. apply (Permutation_in _ (Permutation_sym P)).
    apply filter_In. split; [exact H1 |]. rewrite H2, Z.eqb_refl, H3, H4. exact H5.
Qed.

Lemma filter_filter {A} (f g : A -> bool) l :
  filter g (filter f l) = filter (fun x => f x && g x) l.
Proof.
  induction l as [| x l IH]; simpl; [reflexivity |].
  destruct (f x); simpl; [destruct (g x); simpl; rewrite IH |]; reflexivity || exact IH.
Qed.

Lemma filter_length_split {A} (p : A -> bool) l :
  (List.length (filter (fun x => negb (p x)) l) + List.length (filter p l))%nat = List.length l.
Proof. induction l as [| x l IH]; simpl; [reflexivity |]. destruct (p x); simpl; lia. Qed.

Lemma fold_action_delete today q tbl c n :
  fold_left (fun '(tbl, count, not_deleted) m =>
               if booking_protected today m then (tbl, count, S not_deleted)
               else (filter (fun x => negb (b_id x =? b_id m)) tbl, S count, not_deleted))
            q (tbl, c, n)
  = (filter (fun x => negb (existsb (fun m => negb (booking_protected today m) && (b_id x =? b_id m)) q)) tbl,
     (c + List.length (filter (fun m => negb (booking_protected today m)) q))%nat,
     (n + List.length (filter (booking_protected today) q))%nat).
Proof.
  revert tbl c n. induction q as [| m q IH]; intros tbl c n; simpl.
  - rewrite Nat.add_0_r, Nat.add_0_r. f_equal. f_equal.
    induction tbl as [| x tbl IHt]; simpl; [reflexivity | f_equal; exact IHt].
  - cbn [fold_left]. destruct (booking_protected today m) eqn:Ep; rewrite IH;
      cbn [filter existsb List.length negb andb orb];
      (apply pair_equal_spec; split; [apply pair_equal_spec; split |]); try lia.
    + reflexivity.
    + rewrite filter_filter. apply filter_ext. intros x.
      destruct (b_id x =? b_id m); simpl; rewrite ?andb_true_r, ?andb_false_r; reflexivity.
Qed.

Lemma booking_action_delete_props ids today bs :
  NoDup (map b_id bs) ->
  let selected := fun b => existsb (Z.eqb (b_id b)) ids in
  let '(tbl, count, not_deleted) := booking_action_delete ids today bs in
  tbl = filter (fun b => negb (selected b) || booking_protected today b) bs /\
  not_deleted = List.length (filter (fun b => selected b && booking_protected today b) bs) /\
  (count + not_deleted)%nat = List.length (filter selected bs).
Proof.
  intros Hnd selected. unfold booking_action_delete. rewrite fold_action_delete.
  split; [| split].
  - apply filter_ext_in. intros x Hx.
    destruct (existsb _ (filter _ bs)) eqn:E.
    + apply existsb_exists in E as [m [Hm Em]].
      apply filter_In in Hm as [Hm Sm]. rewrite andb_true_iff, Z.eqb_eq in Em.
      destruct Em as [Pm Eid].
      assert (x = m).
      { clear - Hnd Hx Hm Eid. induction bs as [| y bs IH]; [destruct Hx |].
        inversion Hnd as [| ? ? Hn Hnd']; subst.
        destruct Hx as [<- | Hx], Hm as [<- | Hm]; try reflexivity.
        - exfalso. apply Hn. rewrite Eid. apply in_map. exact Hm.
        - exfalso. apply Hn. rewrite <- Eid. apply in_map. exact Hx.
        - exact (IH Hnd' Hx Hm). }
      subst m. apply negb_true_iff in Pm. unfold selected. rewrite Sm, Pm. reflexivity.
    + destruct (selected x) eqn:Sx; simpl; [| reflexivity].
      destruct (booking_protected today x) eqn:Px; [reflexivity |].
      rewrite <- E. symmetry. apply existsb_exists. exists x. split.
      * apply filter_In. split; [exact Hx | exact Sx].
      * rewrite Px, Z.eqb_refl. reflexivity.
  - simpl. rewrite filter_filter. reflexivity.
  - simpl. rewrite !filter_filter. rewrite <- (filter_length_split (booking_protected today) (filter selected bs)).
    rewrite !filter_filter. reflexivity.
Qed.

(** X8: the query of [all_my_bookings] lists exactly the viewer's confirmed
    bookings whose check-out is after today, by check-in descending. *)
Theorem my_bookings_query_spec uid today bs :
  (forall b, In b (my_bookings_query uid today bs) <->
     In b bs /\ telegram_id b = uid /\ b_status b = Confirmed /\
     exists co, check_out b = Some co /\ date_lt today co = true) /\
  Sorted (fun x y => check_in_ge (check_in x) (check_in y) = true)
         (my_bookings_query uid today bs).
Proof. exact (my_bookings_query_props uid today bs). Qed.

(** X9: [BookingAdmin.action_delete] keeps exactly the unselected and the
    protected bookings, counts as not deleted the selected protected ones, and
    its two counters add up to the number of selected bookings (distinct
    booking ids). *)
Theorem booking_action_delete_spec ids today bs :
  NoDup (map b_id bs) ->
  let selected := fun b => existsb (Z.eqb (b_id b)) ids in
  let '(tbl, count, not_deleted) := booking_action_delete ids today bs in
  tbl = filter (fun b => negb (selected b) || booking_protected today b) bs /\
  not_deleted = List.length (filter (fun b => selected b && booking_protected today b) bs) /\
  (count + not_deleted)%nat = List.length (filter selected bs).
Proof. exact (booking_action_delete_props ids today bs). Qed.

(** X10: a booking the [/bookings] list shows to its owner is protected in
    the admin: [delete_model] refuses it with a ValueError and [action_delete]
    keeps it, whatever the selection. *)
Theorem listed_booking_not_deletable uid today bs b ids :
  NoDup (map b_id bs) -> In b (my_bookings_query uid today bs) ->
  booking_protected today b = true /\ booking_delete_model today b bs = Exc ValueError /\
  In b (fst (fst (booking_action_delete ids today bs))).
Proof.
  intros Hnd Hin. apply (proj1 (my_bookings_query_props uid today bs)) in Hin.
  destruct Hin as [Hb [_ [Hs [co [Hco Hlt]]]]].
  assert (P : booking_protected today b = true)
    by (unfold booking_protected; rewrite Hs, Hco; exact Hlt).
  split; [exact P | split; [unfold booking_delete_model; rewrite P; reflexivity |]].
  pose proof (booking_action_delete_props ids today bs Hnd) as H. simpl in H.
  destruct (booking_action_delete ids today bs) as [[tbl c] n]. destruct H as [-> _].
  simpl. apply filter_In. split; [exact Hb | rewrite P, orb_true_r; reflexivity].
Qed.

Lemma firstn_skipn_add {A} (a b : nat) (l : list A) :
  firstn (a + b) l = firstn a l ++ firstn b (skipn a l).
Proof.
  revert l; induction a as [|a IH]; intros l; [reflexivity|].
  destruct l as [|x l]; simpl; [destruct b; reflexivity|].
  rewrite IH; reflexivity.
Qed.

Lemma concat_slices {A} (l : list A) (k m : nat) :
  List.concat (map (fun i => firstn k (skipn (i * k) l)) (seq 0 m)) = firstn (m * k) l.
Proof.
  induction m as [|m IH]; [reflexivity|].
  rewrite seq_S, map_app, concat_app, IH; simpl.
  rewrite app_nil_r, <- firstn_skipn_add. f_equal; lia.
Qed.

Lemma ceil_div_ge (len k : nat) : (0 < k)%nat -> (len <= (len + k - 1) / k * k)%nat.
Proof.
  intros Hk. pose proof (Nat.div_mod_eq (len + k - 1) k) as E.
  pose proof (Nat.mod_upper_bound (len + k - 1) k ltac:(lia)) as U.
  rewrite Nat.mul_comm. lia.
Qed.

Lemma ceil_div_lt (len k i : nat) :
  (0 < k)%nat -> (i < (len + k - 1) / k)%nat -> (i * k < len)%nat.
Proof.
  intros Hk Hi. pose proof (Nat.div_mod_eq (len + k - 1) k) as E.
  pose proof (Nat.mod_upper_bound (len + k - 1) k ltac:(lia)) as U.
  assert (i * k + k <= (len + k - 1) / k * k)%nat by nia. nia.
Qed.

Lemma slice_in_range {A} (l : list A) (k i : nat) :
  (0 < k)%nat -> (i < (List.length l + k - 1) / k)%nat ->
  firstn k (skipn (i * k) l) <> [] /\ (List.length (firstn k (skipn (i * k) l)) <= k)%nat.
Proof.
  intros Hk Hi. pose proof (ceil_div_lt _ _ _ Hk Hi) as Hlt.
  rewrite length_firstn, length_skipn. split; [|lia].
  intros E. apply (f_equal (@List.length A)) in E.
  rewrite length_firstn, length_skipn in E. simpl in E. lia.
Qed.

Lemma chunks_pos {A} (l : list A) (n : Z) :
  0 < n -> chunks l n = Some (map (fun i => firstn (Z.to_nat n) (skipn (i * Z.to_nat n) l))
                                  (seq 0 ((List.length l + Z.to_nat n - 1) / Z.to_nat n))).
Proof.
  intros Hn. unfold chunks.
  destruct (Z.eqb_spec n 0); [lia|]. destruct (Z.ltb_spec n 0); [lia|]. reflexivity.
Qed.

Lemma chunks_split {A} (l : list A) (n : Z) :
  0 < n -> exists c, chunks l n = Some c /\ List.concat c = l /\
    Forall (fun ch => ch <> [] /\ (List.length ch <= Z.to_nat n)%nat) c.
Proof.
  intros Hn. rewrite (chunks_pos l n Hn). eexists; split; [reflexivity|split].
  - rewrite concat_slices. apply firstn_all2. apply ceil_div_ge. lia.
  - apply Forall_forall. intros ch Hin. apply in_map_iff in Hin as (i & <- & Hi).
    apply in_seq in Hi. apply slice_in_range; lia.
Qed.

(** X11: Python's [chunks(lst, n)] with [n > 0] cuts [lst] into consecutive
    nonempty pieces of at most [n] elements whose concatenation is [lst]. *)
Theorem chunks_partition {A} (l : list A) (n : Z) (c : list (list A)) :
  0 < n -> chunks l n = Some c ->
  List.concat c = l /\ Forall (fun ch => ch <> [] /\ (List.length ch <= Z.to_nat n)%nat) c.
Proof.
  intros Hn Hc. destruct (chunks_split l n Hn) as (c' & E & H1 & H2).
  rewrite Hc in E. injection E as <-. auto.
Qed.

Lemma total_pages_nat (len : nat) (per : Z) :
  0 < per ->
  total_pages_of (Z.of_nat len) per = Z.of_nat ((len + Z.to_nat per - 1) / Z.to_nat per).
Proof.
  intros Hp. unfold total_pages_of.
  rewrite Nat2Z.inj_div. f_equal; [|lia].
  destruct (Z.to_nat per) eqn:E; [lia|]. rewrite Nat2Z.inj_sub by lia. lia.
Qed.

Lemma page_slice_nat {A} (per : Z) (i : nat) (l : list A) :
  0 < per ->
  page_slice per (Z.of_nat (S i)) l = firstn (Z.to_nat per) (skipn (i * Z.to_nat per) l).
Proof.
  intros Hp. unfold page_slice. f_equal. f_equal.
  replace ((Z.of_nat (S i) - 1) * per) with (Z.of_nat i * per) by lia.
  rewrite Z2Nat.inj_mul by lia. rewrite Nat2Z.id. reflexivity.
Qed.

Lemma total_pages_pos (len : nat) (per : Z) :
  0 < per -> (0 < len)%nat -> 1 <= total_pages_of (Z.of_nat len) per.
Proof.
  intros Hp Hl. unfold total_pages_of.
  apply Z.div_le_lower_bound; lia.
Qed.

(** X13: [build_resources_keyboard] with positive page size and row width: with
    no active resource the keyboard is empty; otherwise the requested page is
    clamped into [1 .. total_pages], that page's resources come in their
    order in rows of at most [rows] buttons, the page is not empty, and the
    navigation row closes the keyboard. *)
Theorem build_resources_keyboard_layout (per rows : Z) (rs : list resource) (page : Z) :
  0 < per -> 0 < rows ->
  (active_resources rs = [] -> build_resources_keyboard per rows rs page = Some []) /\
  (active_resources rs <> [] ->
   let active := active_resources rs in
   let tp := total_pages_of (Z.of_nat (List.length active)) per in
   let p := Z.max 1 (Z.min page tp) in
   exists rws,
     build_resources_keyboard per rows rs page = Some (rws ++ [nav_row p tp]) /\
     1 <= p <= tp /\
     page_slice per p active <> [] /\
     List.concat rws = map (res_button p) (page_slice per p active) /\
     Forall (fun row => row <> [] /\ (List.length row <= Z.to_nat rows)%nat) rws).
Proof.
  intros Hp Hr. split.
  - intros E. unfold build_resources_keyboard. rewrite E. reflexivity.
  - intros Hne active tp p.
    assert (Hlen : (0 < List.length active)%nat)
      by (destruct active eqn:Ea; [contradiction | simpl; lia]).
    pose proof (total_pages_pos _ _ Hp Hlen) as Htp.
    assert (Hrange : 1 <= p <= tp) by (unfold p; lia).
    destruct (chunks_split (map (res_button p) (page_slice per p active)) rows Hr)
      as (c & Ec & Hcat & Hall).
    exists c. split; [|split; [exact Hrange|split; [|split; assumption]]].
    + unfold build_resources_keyboard. fold active.
      destruct (Z.eqb_spec (Z.of_nat (List.length active)) 0); [lia|].
      destruct (Z.leb_spec per 0); [lia|]. fold tp. fold p. rewrite Ec. reflexivity.
    + (* the clamped page is one of [1 .. tp], each of which is nonempty *)
      destruct (Z.to_nat p) as [|i] eqn:Ei; [lia|].
      replace p with (Z.of_nat (S i)) by lia. rewrite page_slice_nat by exact Hp.
      apply slice_in_range; [lia|].
      unfold tp in Hrange. rewrite total_pages_nat in Hrange by exact Hp. lia.
Qed.

Lemma nilempty_digits (d : Decimal.uint) :
  forallb is_ascii_digit (list_ascii_of_string (DecimalString.NilEmpty.string_of_uint d)) = true.
Proof. induction d; simpl; try exact IHd; reflexivity. Qed.

Lemma py_str_digits (q : Z) :
  0 <= q -> forallb is_ascii_digit (list_ascii_of_string (py_str q)) = true /\ py_str q <> EmptyString.
Proof.
  intros Hq. unfold py_str. destruct q as [|p|p]; [simpl; split; [reflexivity|discriminate]| |lia].
  cbn [Z.to_int DecimalString.NilZero.string_of_int]. unfold DecimalString.NilZero.string_of_uint.
  destruct (Pos.to_uint p); (split; [try reflexivity; apply nilempty_digits|discriminate]).
Qed.

Lemma list_ascii_of_string_app (s1 s2 : string) :
  list_ascii_of_string (s1 ++ s2) = list_ascii_of_string s1 ++ list_ascii_of_string s2.
Proof. induction s1; simpl; congruence. Qed.

Lemma split_go_skip (sep : ascii) (n : nat) (cur l rest : list ascii) :
  forallb (fun c => negb (Ascii.eqb c sep)) l = true ->
  split_go sep (S n) cur (l ++ sep :: rest) = (rev cur ++ l) :: split_go sep n [] rest.
Proof.
  revert cur; induction l as [|c l IH]; intros cur H; simpl.
  - rewrite Ascii.eqb_refl, app_nil_r. reflexivity.
  - apply andb_prop in H as [Hc H]. apply negb_true_iff in Hc. rewrite Hc, IH by exact H.
    simpl. rewrite <- app_assoc. reflexivity.
Qed.

Lemma ascii_digits_no_colon (l : list ascii) :
  forallb is_ascii_digit l = true -> forallb (fun c => negb (Ascii.eqb c ":")) l = true.
Proof.
  induction l as [|a l IH]; simpl; [reflexivity|]. intros H. apply andb_prop in H as [Ha H].
  rewrite IH by exact H. destruct (Ascii.eqb_spec a ":"); [subst; discriminate|reflexivity].
Qed.

Lemma ascii_digits_isdigit (l : list ascii) :
  forallb is_ascii_digit l = true -> forallb is_digit_char l = true.
Proof.
  induction l as [|a l IH]; simpl; [reflexivity|]. intros H. apply andb_prop in H as [Ha H].
  rewrite IH by exact H. unfold is_ascii_digit, is_digit_char in *. rewrite Ha. reflexivity.
Qed.

Lemma callback_page_show (q : Z) :
  1 <= q -> callback_page ("page:" ++ py_str q ++ ":")%string = PageShow q.
Proof.
  intros Hq. destruct (py_str_digits q ltac:(lia)) as [Hd Hne].
  unfold callback_page, py_split.
  change (list_ascii_of_string ("page:" ++ py_str q ++ ":")%string)
    with (["p"; "a"; "g"; "e"]%char ++ ":"%char :: list_ascii_of_string (py_str q ++ ":")%string).
  rewrite split_go_skip by reflexivity.
  rewrite list_ascii_of_string_app.
  change (list_ascii_of_string ":") with [":"%char].
  rewrite split_go_skip by (apply ascii_digits_no_colon; exact Hd).
  cbn [split_go map rev app string_of_list_ascii].
  rewrite string_of_list_ascii_of_string.
  assert (Hdig : py_isdigit (py_str q) = true).
  { unfold py_isdigit. destruct (py_str q); [contradiction|].
    apply ascii_digits_isdigit. exact Hd. }
  rewrite Hdig. unfold py_int_of_digits. rewrite Hd, py_int_of_str_py_str. reflexivity.
Qed.

(** X14: The navigation row of a page [p] of [1 .. tp]: its middle button
    carries [null]; the back button exists only from page 2 on and
    [callback_page] takes it to page [p - 1]; the next button exists only
    before the last page and [callback_page] takes it to page [p + 1]; that
    page is in range, so [build_resources_keyboard] shows it unclamped. *)
Theorem nav_row_navigation (p tp : Z) (b : kb_button) :
  1 <= p <= tp -> In b (nav_row p tp) ->
  (b = mkKbButton (KPageOf p tp) "null") \/
  (kb_text b = KGoBack /\ 1 < p /\ callback_page (kb_data b) = PageShow (p - 1) /\
   Z.max 1 (Z.min (p - 1) tp) = p - 1) \/
  (kb_text b = KGoNext /\ p < tp /\ callback_page (kb_data b) = PageShow (p + 1) /\
   Z.max 1 (Z.min (p + 1) tp) = p + 1).
Proof.
  intros Hp Hin. unfold nav_row in Hin.
  apply in_app_or in Hin as [Hin|Hin]; [|apply in_app_or in Hin as [Hin|Hin]].
  - destruct (Z.ltb_spec 1 p); [|contradiction].
    destruct Hin as [<-|[]]. right; left. simpl.
    refine (conj eq_refl (conj _ (conj (callback_page_show _ _) _))); lia.
  - destruct Hin as [<-|[]]. left; reflexivity.
  - destruct (Z.ltb_spec p tp); [|contradiction].
    destruct Hin as [<-|[]]. right; right. simpl.
    refine (conj eq_refl (conj _ (conj (callback_page_show _ _) _))); lia.
Qed.

Lemma set_mem_add u v s : set_mem u (set_add v s) = (u =? v) || set_mem u s.
Proof.
  unfold set_add. destruct (set_mem v s) eqn:E.
  - destruct (Z.eqb_spec u v); [subst; rewrite E; reflexivity|reflexivity].
  - unfold set_mem. rewrite existsb_app. simpl. rewrite orb_false_r, orb_comm. reflexivity.
Qed.

Lemma set_mem_discard u v s : set_mem u (set_discard v s) = negb (u =? v) && set_mem u s.
Proof.
  induction s as [|x s IH]; simpl; [destruct (u =? v); reflexivity|].
  destruct (Z.eqb_spec x v); simpl; rewrite IH.
  - subst. destruct (Z.eqb_spec u v); simpl; [reflexivity|].
    destruct (Z.eqb_spec u v); [contradiction|reflexivity].
  - destruct (Z.eqb_spec u x); destruct (Z.eqb_spec u v); subst; simpl; try reflexivity; contradiction.
Qed.

Lemma route_help_message_waiting admins st u text :
  route_private_text admins st u text = RHelpMessage -> set_mem u (waiting st) = true.
Proof.
  unfold route_private_text.
  destruct (cmd_is "start" _); [discriminate|].
  destruct (cmd_is "restart" _ && _); [discriminate|].
  destruct (cmd_is "help" _); [discriminate|].
  destruct (set_mem u (waiting st)); [reflexivity|].
  destruct (cmd_is "bookings" _); discriminate.
Qed.

Lemma extract_command_no_slash text :
  String.prefix "/" text = false -> extract_command text = None.
Proof.
  intros H. unfold extract_command. destruct text as [|c t]; [reflexivity|].
  destruct (Ascii.eqb_spec c "/") as [->|Hc]; [|simpl; destruct (Ascii.eqb_spec c "/"); [congruence|reflexivity]].
  assert (E : String.prefix "/" (String "/" t) = true) by (destruct t; reflexivity). congruence.
Qed.

Lemma count_app u es1 es2 :
  count_forwards u (es1 ++ es2) = (count_forwards u es1 + count_forwards u es2)%nat /\
  count_questions u (es1 ++ es2) = (count_questions u es1 + count_questions u es2)%nat.
Proof. unfold count_forwards, count_questions. rewrite !filter_app, !length_app. auto. Qed.

Lemma help_step_bound admins st ev u :
  let (st', es) := help_step admins st ev in
  (count_forwards u es + Nat.b2n (set_mem u (waiting st')) <=
   count_questions u es + Nat.b2n (set_mem u (waiting st)))%nat.
Proof.
  destruct ev as [v text mid | v chat mid]; simpl.
  - destruct (route_private_text admins st v text) eqn:R; simpl;
      unfold count_forwards, count_questions; simpl; try lia.
    + (* help_command *)
      rewrite set_mem_add. destruct (Z.eqb_spec v u), (Z.eqb_spec u v); subst; simpl; try lia; contradiction.
    + (* handle_help_message *)
      pose proof (route_help_message_waiting _ _ _ _ R) as Hw.
      unfold handle_help_message. destruct (String.prefix "/" text); simpl;
        rewrite set_mem_discard; [destruct (u =? v), (set_mem u (waiting st)); simpl; lia|].
      destruct (dict_get _ (cancel_msgs st) v) as [x|]; [destruct (x =? 0)|]; simpl;
        destruct (Z.eqb_spec v u), (Z.eqb_spec u v); subst; simpl; try rewrite Hw; simpl; try lia;
        contradiction.
  - unfold callback_help_cancel, count_forwards, count_questions; simpl.
    destruct (set_mem v (waiting st)); simpl; [|lia].
    rewrite set_mem_discard. destruct (u =? v), (set_mem u (waiting st)); simpl; lia.
Qed.

(** X15: Over any run of the help handlers, the messages of [u] forwarded to the
    managers, plus one while [u] is still waiting, never outnumber the help
    prompts sent to [u], plus one if [u] was waiting at the start: each
    forwarded question is paid for by its own [/help]. *)
Theorem help_forwards_bounded_by_prompts (admins : list Z) (st : help_state) (evs : list help_event) (u : Z) :
  let (st', es) := help_run admins st evs in
  (count_forwards u es + Nat.b2n (set_mem u (waiting st')) <=
   count_questions u es + Nat.b2n (set_mem u (waiting st)))%nat.
Proof.
  revert st; induction evs as [|ev evs IH]; intros st; simpl; [lia|].
  pose proof (help_step_bound admins st ev u) as H1.
  destruct (help_step admins st ev) as [st1 e1].
  specialize (IH st1). destruct (help_run admins st1 evs) as [st2 e2].
  destruct (count_app u e1 e2) as [Ef Eq]. rewrite Ef, Eq. lia.
Qed.

(** X16: A message starting with ["/"] from a user the bot waits on is taken by
    [handle_help_message] unless it is [/start], [/help] or an admin's
    [/restart]: the help session ends, nothing is forwarded or sent, and the
    command itself (say [/bookings]) is not run. *)
Theorem help_wait_swallows_command (admins : list Z) (st : help_state) (u : Z) (text : string) (mid : Z) :
  set_mem u (waiting st) = true ->
  String.prefix "/" text = true ->
  cmd_is "start" (extract_command text) = false ->
  cmd_is "help" (extract_command text) = false ->
  (cmd_is "restart" (extract_command text) && set_mem u admins) = false ->
  route_private_text admins st u text = RHelpMessage /\
  help_step admins st (EvText u text mid) =
    (mkHelpState (set_discard u (waiting st)) (cancel_msgs st) (msg_counter st), []) /\
  set_mem u (set_discard u (waiting st)) = false.
Proof.
  intros Hw Hp Hs Hh Hr.
  assert (R : route_private_text admins st u text = RHelpMessage)
    by (unfold route_private_text; rewrite Hs, Hr, Hh, Hw; reflexivity).
  refine (conj R (conj _ _)).
  - simpl. rewrite R. unfold handle_help_message. rewrite Hp. reflexivity.
  - rewrite set_mem_discard, Z.eqb_refl. reflexivity.
Qed.

(** X17: [/help] followed by a plain text: the prompt goes out, the text is
    forwarded once, the user is thanked, the prompt (when its id is not 0) is
    deleted, and the user is no longer waited on. *)
Theorem help_then_question (admins : list Z) (st : help_state) (u m0 mid : Z) (text : string) :
  String.prefix "/" text = false ->
  let q := msg_counter st in
  let (st', es) := help_run admins st [EvText u "/help" m0; EvText u text mid] in
  es = [HSendQuestion u q; HForward u mid; HSendSuccess u (q + 1)] ++
       (if q =? 0 then [] else [HDelete u q]) /\
  set_mem u (waiting st') = false /\ msg_counter st' = q + 2.
Proof.
  intros Hp q.
  assert (R1 : route_private_text admins st u "/help" = RHelp) by reflexivity.
  assert (S1 : help_step admins st (EvText u "/help" m0) = help_command st u)
    by (unfold help_step; rewrite R1; reflexivity).
  cbn [help_run]. rewrite S1. unfold help_command at 1. cbn zeta iota beta.
  assert (S2 : forall st1, set_mem u (waiting st1) = true ->
                help_step admins st1 (EvText u text mid) = handle_help_message st1 u text mid).
  { intros st1 Hw. unfold help_step, route_private_text. rewrite (extract_command_no_slash _ Hp).
    simpl. rewrite Hw. reflexivity. }
  rewrite S2 by (simpl; rewrite set_mem_add, Z.eqb_refl; reflexivity).
  unfold handle_help_message. rewrite Hp. simpl. rewrite dict_get_set_same.
  rewrite set_mem_discard, Z.eqb_refl. simpl.
  refine (conj _ (conj eq_refl _)); [|unfold q; lia].
  rewrite app_nil_r. unfold q. destruct (msg_counter st =? 0); reflexivity.
Qed.

(** X18: [/help], then the Cancel button of the prompt, then a plain text: the
    prompt is deleted, and the text reaches no handler, so nothing is
    forwarded. *)
Theorem help_cancel_then_text (admins : list Z) (st : help_state) (u m0 mid : Z) (text : string) :
  String.prefix "/" text = false ->
  let q := msg_counter st in
  let (st', es) := help_run admins st [EvText u "/help" m0; EvHelpCancel u u q; EvText u text mid] in
  es = [HSendQuestion u q; HAnswerCancel; HDelete u q] /\ set_mem u (waiting st') = false.
Proof.
  intros Hp q.
  assert (R1 : route_private_text admins st u "/help" = RHelp) by reflexivity.
  assert (S1 : help_step admins st (EvText u "/help" m0) = help_command st u)
    by (unfold help_step; rewrite R1; reflexivity).
  assert (S3 : forall st1, set_mem u (waiting st1) = false ->
                help_step admins st1 (EvText u text mid) = (st1, [])).
  { intros st1 Hw. unfold help_step, route_private_text. rewrite (extract_command_no_slash _ Hp).
    simpl. rewrite Hw. reflexivity. }
  cbn [help_run]. rewrite S1. unfold help_command at 1. cbn zeta iota beta.
  unfold help_step at 1. unfold callback_help_cancel at 1. cbn zeta iota beta.
  cbn [waiting cancel_msgs msg_counter]. rewrite set_mem_add, Z.eqb_refl. cbn iota.
  rewrite S3 by (simpl; rewrite set_mem_discard, Z.eqb_refl; reflexivity).
  simpl. rewrite set_mem_discard, Z.eqb_refl. split; reflexivity.
Qed.

Lemma update_rows_fresh (b' b : booking) (bs : list booking) :
  b_id b' = b_id b -> Forall (fun x => b_id x <> b_id b) bs ->
  update_rows b' (bs ++ [b]) = bs ++ [b'].
Proof.
  intros Hid Hf. unfold update_rows. rewrite map_app. simpl. rewrite Hid, Z.eqb_refl.
  f_equal. induction Hf as [|x bs Hx Hf IH]; simpl; [reflexivity|].
  destruct (Z.eqb_spec (b_id x) (b_id b)); [congruence|]. rewrite IH. reflexivity.
Qed.

(** X19: [callback_confirm_booking] on a session with both dates, for an existing
    resource with a computable amount and a fresh booking id: exactly one row
    is added, [waiting_payment] with the invoice sent or [failed] when
    [send_invoice] raises, and the user's session is dropped. *)
Theorem confirm_booking_creates_row (uid chat : Z) (ok : bool) (w : world) (s : session)
    (ci co : date) (r : resource) (amt : Z) :
  dict_get Z.eqb (user_booking_state w) uid = Some s ->
  s_check_in s = Some ci -> s_check_out s = Some co ->
  find (fun r => r_id r =? res_id s) (resources w) = Some r ->
  invoice_amount ci co (price r) = Some amt ->
  Forall (fun b => b_id b <> next_id w) (bookings w) ->
  let b := mkBooking (next_id w) chat (r_id r) (Some ci) (Some co) WaitingPayment
                     (PrimFloat.of_uint63 0%uint63) in
  callback_confirm_booking uid chat ok w =
    (mkWorld (bookings w ++ [if ok then b else set_status b Failed]) (resources w)
             (dict_pop Z.eqb (user_booking_state w) uid) (next_id w + 1),
     if ok then [AnswerCallback; DbCreate b; SendInvoice uid (next_id w) amt; DeleteMessage]
     else [AnswerCallback; DbCreate b; DbSave (set_status b Failed);
           EditText "payment_error"; DeleteMessage],
     Ok tt).
Proof.
  intros Hs Hci Hco Hr Hamt Hfresh b.
  unfold callback_confirm_booking, bind, emit, gets, ret, get_resource, has_session.
  cbn -[invoice_amount dict_pop]. rewrite Hs. rewrite Hs. cbn -[invoice_amount dict_pop].
  rewrite Hci, Hco. cbn -[invoice_amount dict_pop]. rewrite Hr. cbn -[invoice_amount dict_pop]. rewrite Hamt. fold b.
  destruct ok; cbn -[dict_pop update_rows set_status].
  - reflexivity.
  - rewrite update_rows_fresh by (reflexivity || exact Hfresh). reflexivity.
Qed.

(** X20: [callback_confirm_booking] without a session, or with a date missing:
    nothing is written, the session (if any) is kept, and the user gets
    [session_error] (after [long_session_error] when there is no session). *)
Theorem confirm_booking_incomplete (uid chat : Z) (ok : bool) (w : world) :
  match dict_get Z.eqb (user_booking_state w) uid with
  | Some s => s_check_in s = None \/ s_check_out s = None
  | None => True
  end ->
  callback_confirm_booking uid chat ok w =
    (w, [AnswerCallback] ++ (if has_session w uid then [] else [EditText "long_session_error"])
          ++ [SendMessage chat "session_error"], Ok tt).
Proof.
  intros H. unfold callback_confirm_booking, bind, emit, gets, ret, has_session.
  cbn -[dict_get]. destruct (dict_get Z.eqb (user_booking_state w) uid) as [s|] eqn:E;
    repeat rewrite E; [|reflexivity].
  destruct H as [H|H]; rewrite H; [reflexivity|]. destruct (s_check_in s); reflexivity.
Qed.

Lemma total_sleep_app (a b : list db_event) :
  (total_sleep (a ++ b) == total_sleep a + total_sleep b)%Q.
Proof.
  induction a as [|e a IH]; simpl; [symmetry; apply Qplus_0_l|].
  destruct e; try exact IH. rewrite IH. apply Qplus_assoc.
Qed.

Lemma total_sleep_reconnect env i : (total_sleep (reconnect_block env i) == 0)%Q.
Proof. unfold reconnect_block. destruct (closed_after env i), (connect_ok env i); reflexivity. Qed.

Lemma total_sleep_retry_trace env tr n :
  (tr <= n)%nat ->
  (total_sleep (retry_trace env tr n) ==
   Z.of_nat (fold_right Nat.add 0%nat (seq tr (n - tr))) # 10)%Q.
Proof.
  intros H. remember (n - tr)%nat as k eqn:Ek. revert tr H Ek.
  induction k as [|k IH]; intros tr H Ek.
  - assert (tr = n) by lia. subst tr. unfold retry_trace. rewrite Nat.sub_diag. simpl.
    destruct (transient_outcome (exec_attempt env n)); [|reflexivity].
    rewrite total_sleep_reconnect. reflexivity.
  - rewrite retry_trace_step by lia. rewrite total_sleep_app.
    simpl total_sleep at 1. rewrite total_sleep_app, total_sleep_reconnect. simpl total_sleep.
    rewrite (IH (S tr)) by lia. simpl seq. simpl fold_right.
    rewrite Nat2Z.inj_add. rewrite <- Qinv_plus_distr.
    rewrite Qplus_0_l, Qplus_0_r. reflexivity.
Qed.

Lemma sum_seq0 (n : nat) : (2 * fold_right Nat.add 0 (seq 0 n) = n * (n - 1))%nat.
Proof.
  induction n as [|n IH]; [reflexivity|].
  rewrite seq_S, fold_right_app. simpl.
  assert (G : forall l m, fold_right Nat.add m l = (fold_right Nat.add 0 l + m)%nat).
  { induction l as [|x l IHl]; intros m; simpl; [reflexivity|]. rewrite IHl. lia. }
  rewrite G. destruct n; simpl in *; nia.
Qed.

(** X21: The backoff of [execute_sql]: a call from [tr = 0] that returns after
    [n + 1] executions of the statement ([n <= 20] retries) has slept
    [0/10 + 1/10 + ... + (n-1)/10 = n(n-1)/20] seconds in all, so never more
    than 19 seconds. *)
Theorem execute_sql_total_sleep (env : db_env) (t : list db_event) (r : sql_result) :
  execute_sql_fuel 21 env 0 = Some (t, r) ->
  exists n, (n <= 20)%nat /\ List.length (filter is_exec t) = S n /\
    (total_sleep t == Z.of_nat (n * (n - 1)) # 20)%Q /\ (total_sleep t <= 19 # 1)%Q.
Proof.
  intros E.
  destruct (execute_sql_closed_form env 20 0 eq_refl) as (t' & r' & n & E' & Hn & _ & _ & _ & Ht).
  rewrite E in E'. injection E' as Et Er. subst.
  exists n. split; [lia|]. split; [rewrite retry_trace_exec_count by lia; f_equal; lia|].
  assert (S2 : (total_sleep (retry_trace env 0 n) == Z.of_nat (n * (n - 1)) # 20)%Q).
  { rewrite total_sleep_retry_trace by lia. rewrite Nat.sub_0_r.
    rewrite <- sum_seq0. unfold Qeq. simpl. lia. }
  split; [exact S2|]. rewrite S2. unfold Qle. simpl.
  assert (n * (n - 1) <= 380)%nat by nia. lia.
Qed.

Lemma filter_all {A} (l : list A) : filter (fun _ => true) l = l.
Proof. induction l as [|x l IH]; simpl; congruence. Qed.

Lemma fold_resource_delete (q : list resource) rs bs c :
  fold_left (fun '(rs', bs', count) m =>
               (filter (fun r => negb (r_id r =? r_id m)) rs',
                filter (fun b => negb (b_resource b =? r_id m)) bs',
                S count)) q (rs, bs, c) =
  (filter (fun r => negb (existsb (fun m => r_id r =? r_id m) q)) rs,
   filter (fun b => negb (existsb (fun m => b_resource b =? r_id m) q)) bs,
   (c + List.length q)%nat).
Proof.
  revert rs bs c. induction q as [|m q IH]; intros rs bs c; simpl.
  - rewrite !filter_all, Nat.add_0_r. reflexivity.
  - rewrite IH, !filter_filter. f_equal; [f_equal|lia];
      apply filter_ext; intros x; destruct (_ =? r_id m); reflexivity.
Qed.

Lemma existsb_Zeqb_In (x : Z) (ids : list Z) : existsb (Z.eqb x) ids = true <-> In x ids.
Proof.
  rewrite existsb_exists. split.
  - intros (y & Hy & E). apply Z.eqb_eq in E. subst. exact Hy.
  - intros H. exists x. split; [exact H|apply Z.eqb_refl].
Qed.

Lemma existsb_query (x : Z) (ids : list Z) (rs : list resource) :
  existsb (fun m => x =? r_id m) (filter (fun r => existsb (Z.eqb (r_id r)) ids) rs) = true <->
  In x ids /\ exists r, In r rs /\ r_id r = x.
Proof.
  rewrite existsb_exists. split.
  - intros (m & Hm & E). apply filter_In in Hm as [Hm Hid].
    apply Z.eqb_eq in E. apply existsb_Zeqb_In in Hid. subst. eauto.
  - intros (Hx & r & Hr & <-). exists r. rewrite filter_In, existsb_Zeqb_In, Z.eqb_refl. auto.
Qed.

(** X22: [ResourceView.action_delete(ids)] deletes the selected resources and,
    through [delete_instance(recursive=True)], every booking of a deleted
    resource whatever its status or dates (also the confirmed, current ones
    that [BookingAdmin] refuses to delete); other bookings stay, and [count]
    is the number of resource rows selected. *)
Theorem resource_action_delete_cascade (ids : list Z) (rs : list resource) (bs : list booking) :
  let '(rs', bs', count) := resource_action_delete ids rs bs in
  (forall r, In r rs' <-> In r rs /\ ~ In (r_id r) ids) /\
  (forall b, In b bs' <->
     In b bs /\ ~ (In (b_resource b) ids /\ exists r, In r rs /\ r_id r = b_resource b)) /\
  count = List.length (filter (fun r => existsb (Z.eqb (r_id r)) ids) rs).
Proof.
  unfold resource_action_delete. rewrite fold_resource_delete. split; [|split].
  - intros r. rewrite filter_In, negb_true_iff. split.
    + intros [Hr Hq]. split; [exact Hr|]. intros Hid.
      assert (existsb (fun m => r_id r =? r_id m)
                (filter (fun r => existsb (Z.eqb (r_id r)) ids) rs) = true)
        by (apply existsb_query; eauto). congruence.
    + intros [Hr Hid]. split; [exact Hr|].
      destruct (existsb _ _) eqn:E; [|reflexivity].
      apply existsb_query in E as [E _]. contradiction.
  - intros b. rewrite filter_In, negb_true_iff, <- existsb_query.
    destruct (existsb _ _); split; intros [H1 H2]; auto; try congruence.
  - reflexivity.
Qed.

Lemma clean_expired_get_witness :
  NoDup (map fst stale_sessions) /\
  dict_get Z.eqb (clean_expired_booking_states now_jun3 stale_sessions) 1 = None /\
  dict_get Z.eqb (clean_expired_booking_states now_jun3 stale_sessions) 2
    = Some (set_s_check_out session10 (Some (jun 12))).
Proof.
  assert (H : NoDup (map fst stale_sessions)) by (repeat constructor; simpl; lia).
  split; [exact H | split].
  - rewrite (clean_expired_get now_jun3 stale_sessions 1 H). vm_compute. reflexivity.
  - rewrite (clean_expired_get now_jun3 stale_sessions 2 H). vm_compute. reflexivity.
Defined.

Lemma calendar_month_nav_witness :
  1 <= 9999 <= 9999 /\ 1 <= 12 <= 12 /\
  next_month_dt 9999 12 = None /\
  (forall py pm, prev_month_dt 9999 12 = Some (py, pm) ->
     py = 9999 /\ pm = 11 /\ next_month_dt py pm = Some (9999, 12)) /\
  (forall ny nm, next_month_dt 2024 12 = Some (ny, nm) ->
     toordinal (mkDate ny nm 1) = toordinal (mkDate 2024 12 31) + 1).
Proof.
  assert (Hy : 1 <= 9999 <= 9999) by lia.
  assert (Hm : 1 <= 12 <= 12) by lia.
  refine (conj Hy (conj Hm _)).
  destruct (calendar_month_nav 9999 12 Hy Hm) as [N [_ [_ P]]].
  split; [apply N; reflexivity | split].
  - intros py pm E. destruct (P py pm E) as (_ & _ & _ & E2).
    vm_compute in E. injection E as <- <-. split; [reflexivity | split; [reflexivity | exact E2]].
  - intros ny nm E.
    destruct (calendar_month_nav 2024 12 ltac:(lia) Hm) as (_ & _ & Q & _).
    exact (proj1 (proj2 (proj2 (Q ny nm E)))).
Defined.

Lemma send_calendar_offers_witness :
  In (EditCalendar StageCheckOut "" checkout_kbd)
     (snd (fst (send_calendar 1 "1" StageCheckOut "" today0 pick_world))) /\
  In (mkButton (LDay 15) (CbDatepick StageCheckOut (jun 15) "1")) checkout_kbd /\
  exists ci, s_check_in session10 = Some ci /\ date_lt ci (jun 15) = true.
Proof.
  assert (H1 : In (EditCalendar StageCheckOut "" checkout_kbd)
                  (snd (fst (send_calendar 1 "1" StageCheckOut "" today0 pick_world))))
    by (vm_compute; left; reflexivity).
  assert (H2 : In (mkButton (LDay 15) (CbDatepick StageCheckOut (jun 15) "1")) checkout_kbd)
    by (vm_compute; repeat (first [left; reflexivity | right])).
  refine (conj H1 (conj H2 _)).
  destruct (send_calendar_offers 1 "1" StageCheckOut "" today0 pick_world session10 checkout_kbd
              (LDay 15) StageCheckOut (jun 15) "1" eq_refl H1 H2) as (_ & _ & _ & _ & _ & _ & _ & _ & H).
  exact (H eq_refl).
Defined.

Lemma checkout_calendar_after_checkin_witness :
  In (EditCalendar StageCheckOut "" checkout_kbd)
     (effects_of (EvDatepick 1 StageCheckIn (jun 10) "1" today0) checkin_world) /\
  In (mkButton (LDay 15) (CbDatepick StageCheckOut (jun 15) "1")) checkout_kbd /\
  date_lt (jun 10) (jun 15) = true.
Proof.
  assert (H1 : In (EditCalendar StageCheckOut "" checkout_kbd)
                  (effects_of (EvDatepick 1 StageCheckIn (jun 10) "1" today0) checkin_world))
    by (vm_compute; repeat (first [left; reflexivity | right])).
  assert (H2 : In (mkButton (LDay 15) (CbDatepick StageCheckOut (jun 15) "1")) checkout_kbd)
    by (vm_compute; repeat (first [left; reflexivity | right])).
  refine (conj H1 (conj H2 _)).
  exact (proj1 (proj2 (checkout_calendar_after_checkin checkin_world 1 (jun 10) "1" today0
           (mkSession 1 None None 2024 6 now0) checkout_kbd (LDay 15) StageCheckOut (jun 15) "1"
           eq_refl H1 H2))).
Defined.

Lemma booking_action_delete_spec_witness :
  NoDup (map b_id [waiting_b; confirmed_b2]) /\
  (let '(tbl, count, nd) := booking_action_delete [1; 2] today0 [waiting_b; confirmed_b2] in
   (count + nd)%nat = 2%nat).
Proof.
  assert (H : NoDup (map b_id [waiting_b; confirmed_b2])) by (repeat constructor; simpl; lia).
  split; [exact H |].
  pose proof (booking_action_delete_spec [1; 2] today0 [waiting_b; confirmed_b2] H) as P.
  cbv zeta in P.
  destruct (booking_action_delete [1; 2] today0 [waiting_b; confirmed_b2]) as [[tbl c] nd].
  destruct P as [_ [_ E]]. rewrite E. reflexivity.
Defined.

Lemma listed_booking_not_deletable_witness :
  NoDup (map b_id [waiting_b; confirmed_b2]) /\
  In confirmed_b2 (my_bookings_query 2 today0 [waiting_b; confirmed_b2]) /\
  booking_delete_model today0 confirmed_b2 [waiting_b; confirmed_b2] = Exc ValueError /\
  In confirmed_b2 (fst (fst (booking_action_delete [2] today0 [waiting_b; confirmed_b2]))).
Proof.
  assert (H1 : NoDup (map b_id [waiting_b; confirmed_b2])) by (repeat constructor; simpl; lia).
  assert (H2 : In confirmed_b2 (my_bookings_query 2 today0 [waiting_b; confirmed_b2]))
    by (vm_compute; left; reflexivity).
  refine (conj H1 (conj H2 _)).
  exact (proj2 (listed_booking_not_deletable 2 today0 [waiting_b; confirmed_b2] confirmed_b2 [2] H1 H2)).
Defined.

Lemma chunks_partition_witness :
  0 < 2 /\ chunks [1; 2; 3; 4; 5] 2 = Some [[1; 2]; [3; 4]; [5]] /\
  Forall (fun ch => ch <> [] /\ (List.length ch <= 2)%nat) [[1; 2]; [3; 4]; [5]].
Proof.
  assert (H1 : 0 < 2) by lia.
  assert (H2 : chunks [1; 2; 3; 4; 5] 2 = Some [[1; 2]; [3; 4]; [5]]) by reflexivity.
  exact (conj H1 (conj H2 (proj2 (chunks_partition [1; 2; 3; 4; 5] 2 _ H1 H2)))).
Defined.

Lemma build_resources_keyboard_layout_witness :
  0 < 2 /\ active_resources shelf <> [] /\
  exists rws, build_resources_keyboard 2 2 shelf 5 = Some (rws ++ [nav_row 2 2]) /\
    List.concat rws = map (res_button 2) [res_c].
Proof.
  assert (H : 0 < 2) by lia.
  assert (Hne : active_resources shelf <> []) by (vm_compute; discriminate).
  refine (conj H (conj Hne _)).
  destruct (proj2 (build_resources_keyboard_layout 2 2 shelf 5 H H) Hne) as (rws & E & _ & _ & C & _).
  exists rws. split; [exact E | exact C].
Defined.

Lemma nav_row_navigation_witness :
  1 <= 2 <= 3 /\ In nav_next (nav_row 2 3) /\ callback_page (kb_data nav_next) = PageShow 3.
Proof.
  assert (H1 : 1 <= 2 <= 3) by lia.
  assert (H2 : In nav_next (nav_row 2 3)) by (vm_compute; right; right; left; reflexivity).
  refine (conj H1 (conj H2 _)).
  destruct (nav_row_navigation 2 3 nav_next H1 H2) as [E | [[E _] | (_ & _ & E & _)]];
    [discriminate E | discriminate E | exact E].
Defined.

Lemma help_wait_swallows_command_witness :
  set_mem 5 (waiting help_st_waiting) = true /\
  help_step [1] help_st_waiting (EvText 5 "/bookings" 102) = (mkHelpState [] [(5, 100)] 101, []).
Proof.
  assert (H : set_mem 5 (waiting help_st_waiting) = true) by reflexivity.
  split; [exact H |].
  destruct (help_wait_swallows_command [1] help_st_waiting 5 "/bookings" 102 H
              ltac:(reflexivity) ltac:(reflexivity) ltac:(reflexivity) ltac:(reflexivity))
    as [_ [E _]].
  exact E.
Defined.

Lemma help_then_question_witness :
  String.prefix "/" "question" = false /\
  snd (help_run [1] help_st0 [EvText 5 "/help" 1; EvText 5 "question" 8])
    = [HSendQuestion 5 7; HForward 5 8; HSendSuccess 5 8; HDelete 5 7].
Proof.
  assert (H : String.prefix "/" "question" = false) by reflexivity.
  split; [exact H |].
  pose proof (help_then_question [1] help_st0 5 1 8 "question" H) as P.
  destruct (help_run [1] help_st0 [EvText 5 "/help" 1; EvText 5 "question" 8]) as [st' es].
  destruct P as [E _]. rewrite E. reflexivity.
Defined.

Lemma help_cancel_then_text_witness :
  String.prefix "/" "question" = false /\
  snd (help_run [1] help_st0 [EvText 5 "/help" 1; EvHelpCancel 5 5 7; EvText 5 "question" 8])
    = [HSendQuestion 5 7; HAnswerCancel; HDelete 5 7].
Proof.
  assert (H : String.prefix "/" "question" = false) by reflexivity.
  split; [exact H |].
  pose proof (help_cancel_then_text [1] help_st0 5 1 8 "question" H) as P. cbv zeta in P.
  change (EvHelpCancel 5 5 7) with (EvHelpCancel 5 5 (msg_counter help_st0)).
  destruct (help_run [1] help_st0 [EvText 5 "/help" 1; EvHelpCancel 5 5 7; EvText 5 "question" 8])
    as [st' es].
  destruct P as [E _]. exact E.
Defined.

Lemma confirm_booking_creates_row_witness :
  invoice_amount (jun 10) (jun 12) f100 = Some 30000 /\
  callback_confirm_booking 1 1 true confirm_world =
    (mkWorld [confirm_row] [res100] [] 2,
     [AnswerCallback; DbCreate confirm_row; SendInvoice 1 1 30000; DeleteMessage], Ok tt).
Proof.
  assert (Ha : invoice_amount (jun 10) (jun 12) f100 = Some 30000) by (vm_compute; reflexivity).
  split; [exact Ha |].
  exact (confirm_booking_creates_row 1 1 true confirm_world (set_s_check_out session10 (Some (jun 12)))
           (jun 10) (jun 12) res100 30000 eq_refl eq_refl eq_refl eq_refl Ha (Forall_nil _)).
Defined.

Lemma confirm_booking_incomplete_witness :
  callback_confirm_booking 1 1 true pick_world =
    (pick_world, [AnswerCallback; SendMessage 1 "session_error"], Ok tt).
Proof.
  exact (confirm_booking_incomplete 1 1 true pick_world (or_intror eq_refl)).
Defined.

Lemma execute_sql_total_sleep_witness :
  execute_sql_fuel 21 env_flaky 0 = Some (flaky_trace, Rows 7) /\
  (total_sleep flaky_trace <= 19 # 1)%Q.
Proof.
  assert (H : execute_sql_fuel 21 env_flaky 0 = Some (flaky_trace, Rows 7))
    by (vm_compute; reflexivity).
  split; [exact H |].
  destruct (execute_sql_total_sleep env_flaky flaky_trace (Rows 7) H) as (n & _ & _ & _ & E).
  exact E.
Defined.
